(** * Guardian Route: risk-weighted routing on a street network

  A shallow embedding of the routing core of the repository:

  - [scripts/utils/routing.py]       (module [Routing])
  - [scripts/06_prepare_network.py]  (module [PrepareNetwork])
  - [scripts/utils/cynet_wrapper.py] (module [CynetWrapper])
  - [scripts/utils/spatial.py]       (module [Spatial])
  - the weighting step of [app.py]   (module [App])

  Conventions of the embedding.

  - Python numbers are exact rationals ([Qc], canonical fractions, so that
    Python's [==] is Leibniz equality).  Rounding, NaN and infinities of
    binary floating point are outside the model.  The code computes on
    binary64, so the theorems are kept to what rounding to nearest does not
    disturb: which branch is taken and what is raised, the structure of the
    results, quantities given by the same operations in the same order, and
    order relations that only need rounding to be monotone and exact on 0
    and 1.  Identities that need exact arithmetic (a sum of fractions being
    1, sums that regroup, a mean times a count) are not stated.
  - A Python dict is a [gmap]; where the code depends on the order of the
    keys (parallel edges of a multigraph) it is an association list.
  - A raised exception is the [Raise] branch of [result].
  - Objects that the code mutates and shares (the graph) live in a store
    [gmap loc MultiDiGraph]; a reference is a [loc]. *)

From Stdlib Require Import QArith Qcanon ZArith Lqa.
From stdpp Require Import gmap strings list fin_maps numbers pretty.

Local Open Scope Qc_scope.

(** ** Numbers *)

Module Num.

Definition of_Z (z : Z) : Qc := Q2Qc (inject_Z z).
Definition frac (n : Z) (d : positive) : Qc := Q2Qc (n # d).

Definition hundred : Qc := of_Z 100.

(** Python's [a == b], [a > b] on numbers. *)
Definition eqb (a b : Qc) : bool := bool_decide (a = b).
Definition gtb (a b : Qc) : bool := bool_decide (b < a).

(** Python's [sum(...)] and [max(...)] over a sequence of numbers. *)
Definition sum (l : list Qc) : Qc := fold_left Qcplus l 0.

Definition max2 (a b : Qc) : Qc := if bool_decide (a < b) then b else a.

(** [math.ceil] of a rational, as an integer. *)
Definition ceil (q : Qc) : Z := (- ((- Qnum (this q)) / Z.pos (Qden (this q))))%Z.

End Num.

(** ** Exceptions *)

Module Py.

(** The exceptions the code can meet.  [ReferenceError] stands for a
    reference to no object of the store, which no run of the code
    produces; [ConfigurationError] is the one the specification names. *)
Inductive exn :=
| ZeroDivisionError
| IndexError
| KeyError
| ValueError
| AttributeError
| OverflowError
| ReferenceError
| ConfigurationError
| OtherError (msg : string).

Inductive result (A : Type) :=
| Ok (a : A)
| Raise (e : exn).
Arguments Ok {A} a.
Arguments Raise {A} e.

Definition bind {A B} (r : result A) (k : A → result B) : result B :=
  match r with
  | Ok a => k a
  | Raise e => Raise e
  end.

(** [a / b] on Python numbers. *)
Definition div (a b : Qc) : result Qc :=
  if Num.eqb b 0 then Raise ZeroDivisionError else Ok (a / b).

End Py.

#[global] Instance result_bind : MBind Py.result := λ A B k r, Py.bind r k.
#[global] Instance result_ret : MRet Py.result := λ A a, Py.Ok a.

Module Loops.

(** [l[i]] on a list. *)
Definition index {A} (l : list A) (i : nat) : Py.result A :=
  match l !! i with
  | Some a => Py.Ok a
  | None => Py.Raise Py.IndexError
  end.

(** A [for] loop whose body may raise: the state is threaded through the
    iterations and the first exception ends the loop. *)
Fixpoint for_each {A S} (body : S → A → Py.result S) (l : list A) (s : S) : Py.result S :=
  match l with
  | [] => Py.Ok s
  | a :: l' => s' ← body s a; for_each body l' s'
  end.

(** A list comprehension [[f(a) for a in l]] whose element may raise. *)
Fixpoint comprehension {A B} (f : A → Py.result B) (l : list A) : Py.result (list B) :=
  match l with
  | [] => Py.Ok []
  | a :: l' => b ← f a; bs ← comprehension f l'; Py.Ok (b :: bs)
  end.

(** [max(l)]: [ValueError] on an empty sequence. *)
Definition max_of (l : list Qc) : Py.result Qc :=
  match l with
  | [] => Py.Raise Py.ValueError
  | a :: l' => Py.Ok (fold_left Num.max2 l' a)
  end.

End Loops.

(** ** The network: a [networkx.MultiDiGraph] *)

Module Graph.

Definition node := Z.
Definition edge_key := Z.
Definition edge_id : Type := node * node * edge_key.

(** A node carries its coordinate and whatever else OSM gave it. *)
Record NodeData := {
  x : Qc;
  y : Qc;
  node_tags : gmap string string
}.

(** An edge attribute dict.  [ox.load_graphml] casts the attributes the
    code computes with ([length], [travel_time], ...) to numbers: they are
    the map [num].  The geometry and the textual attributes are kept
    apart. *)
Record EdgeData := {
  num : gmap string Qc;
  geometry : option (list (Qc * Qc));
  tags : gmap string string
}.

(** [data.get(k, d)] on a numeric attribute. *)
Definition get_attr (data : EdgeData) (k : string) (d : Qc) : Qc :=
  default d (num data !! k).

(** [data[k] = v]. *)
Definition set_attr (k : string) (v : Qc) (data : EdgeData) : EdgeData :=
  {| num := <[k := v]> (num data);
     geometry := geometry data;
     tags := tags data |}.

(** The graph.  [edges] lists the edges in the order of
    [G.edges(keys=True, data=True)]; parallel edges between the same pair
    of nodes appear in the order their keys were inserted. *)
Record MultiDiGraph := {
  nodes : list (node * NodeData);
  edges : list (edge_id * EdgeData)
}.

(** The parallel edges from [u] to [v], as [G[u][v]] holds them: key and
    attribute dict, in the order of the keys. *)
Definition parallel (G : MultiDiGraph) (u v : node) : list (edge_key * EdgeData) :=
  omap (λ e : edge_id * EdgeData,
          let '((u', v', k), data) := e in
          if bool_decide (u' = u ∧ v' = v) then Some (k, data) else None)
       (edges G).

(** [G.get_edge_data(u, v)]: that dict, [None] when there is no edge from
    [u] to [v] (or when [u] is not a node). *)
Definition get_edge_data (G : MultiDiGraph) (u v : node)
  : option (list (edge_key * EdgeData)) :=
  match parallel G u v with
  | [] => None
  | kd => Some kd
  end.

(** The store of graph objects. *)
Definition loc := positive.
Abbreviation heap := (gmap loc MultiDiGraph).

(** [G.copy()]: a new graph object with attribute dicts of its own. *)
Definition copy (h : heap) (G : loc) : heap * Py.result loc :=
  match h !! G with
  | Some g => let l := fresh (dom h) in (<[l := g]> h, Py.Ok l)
  | None => (h, Py.Raise Py.ReferenceError)
  end.

End Graph.

(** ** [scripts/utils/routing.py] *)

Module Routing.
Import Graph Loops.

(** One record of the overlay map: [{'tile_id': ..., 'fraction': ...}]. *)
Record Contribution := {
  tile_id : string;
  fraction : Qc
}.

Abbreviation TileEdgeMapping := (gmap edge_id (list Contribution)).
Abbreviation TileRisks := (gmap string Qc).

(** The inner loop of [apply_risk_weights]:
    [edge_risk += tile_risks.get(tile_id, 0.0) * fraction]. *)
Definition edge_risk_of (tile_risks : TileRisks) (tile_contributions : list Contribution) : Qc :=
  fold_left
    (λ edge_risk tile_info,
       let tile_risk := default 0 (tile_risks !! tile_id tile_info) in
       edge_risk + tile_risk * fraction tile_info)
    tile_contributions 0.

(** The state of the loop over the edges. *)
Record WeightLoop := {
  done_edges : list (edge_id * EdgeData);
  edges_processed : nat;
  edges_with_risk : nat
}.

(** The body of the loop for one edge: its risk, its weight, and the two
    attributes written into its dict ([G[u][v][key]] is the dict [data] the
    iteration yields).  The second component counts the edge when the
    overlay knows it. *)
Definition weight_edge (tile_edge_mapping : TileEdgeMapping) (tile_risks : TileRisks)
    (e : edge_id * EdgeData) : (edge_id * EdgeData) * nat :=
  let '(edge_id, data) := e in
  let edge_length := get_attr data "length" 0 in
  let '(edge_risk, hit) :=
    match tile_edge_mapping !! edge_id with
    | Some tile_contributions => (edge_risk_of tile_risks tile_contributions, 1%nat)
    | None => (0, 0%nat)
    end in
  let risk_weight := edge_length * (1 + edge_risk) in
  ((edge_id, set_attr "risk_weight" risk_weight (set_attr "risk" edge_risk data)), hit).

Definition weight_step (tile_edge_mapping : TileEdgeMapping) (tile_risks : TileRisks)
    (st : WeightLoop) (e : edge_id * EdgeData) : WeightLoop :=
  let '(e', hit) := weight_edge tile_edge_mapping tile_risks e in
  {| done_edges := done_edges st ++ [e'];
     edges_processed := S (edges_processed st);
     edges_with_risk := (edges_with_risk st + hit)%nat |}.

Definition weight_loop (tile_edge_mapping : TileEdgeMapping) (tile_risks : TileRisks)
    (es : list (edge_id * EdgeData)) : WeightLoop :=
  fold_left (weight_step tile_edge_mapping tile_risks) es
    {| done_edges := []; edges_processed := 0; edges_with_risk := 0 |}.

(** [apply_risk_weights(G, tile_edge_mapping, tile_risks)].  The graph
    object [G] is edited in place and [G] itself is returned.  The summary
    line divides by [edges_processed]: a graph without edges raises
    [ZeroDivisionError] (after the loop, which then did nothing). *)
Definition apply_risk_weights (h : heap) (G : loc)
    (tile_edge_mapping : TileEdgeMapping) (tile_risks : TileRisks)
  : heap * Py.result loc :=
  match h !! G with
  | None => (h, Py.Raise Py.ReferenceError)
  | Some g =>
      let st := weight_loop tile_edge_mapping tile_risks (edges g) in
      let h' := <[G := {| nodes := nodes g; edges := done_edges st |}]> h in
      match edges_processed st with
      | O => (h', Py.Raise Py.ZeroDivisionError)
      | S _ => (h', Py.Ok G)
      end
  end.

(** *** Route planning *)

Section Planner.

(** The two calls into osmnx.  [nearest_nodes G X Y] snaps a coordinate to a
    node of [G].  [search] is the shortest-path search behind
    [ox.routing.shortest_path]: it is given the nodes, and every edge with
    the value of the selected weight attribute, in the order of the graph;
    [None] stands for [NetworkXNoPath]. *)
Variable nearest_nodes : MultiDiGraph → Qc → Qc → node.
Variable search : list node → list (edge_id * Qc) → node → node → option (list node).

(** What the search reads of the graph: networkx evaluates
    [attr.get(weight, 1)] on the attribute dict of each edge. *)
Definition weighted_view (G : MultiDiGraph) (weight : string) : list (edge_id * Qc) :=
  map (λ e : edge_id * EdgeData, (e.1, get_attr e.2 weight 1)) (edges G).

Definition shortest_path (G : MultiDiGraph) (orig dest : node) (weight : string)
  : option (list node) :=
  search (map fst (nodes G)) (weighted_view G weight) orig dest.

(** [find_safe_route(G, origin_point, dest_point, weight)]; a point is
    [(latitude, longitude)].  No path gives [None]. *)
Definition find_safe_route (G : MultiDiGraph) (origin_point dest_point : Qc * Qc)
    (weight : string) : option (list node) :=
  let origin_node := nearest_nodes G origin_point.2 origin_point.1 in
  let dest_node := nearest_nodes G dest_point.2 dest_point.1 in
  shortest_path G origin_node dest_node weight.

End Planner.

(** *** Route metrics *)

(** [d[k]] on the dict of parallel edges. *)
Definition getitem (edge_data : list (edge_key * EdgeData)) (k : edge_key)
  : Py.result EdgeData :=
  match list_find (λ kd, kd.1 = k) edge_data with
  | Some (_, kd) => Py.Ok kd.2
  | None => Py.Raise Py.KeyError
  end.

Record RouteMetrics := {
  length : Qc;
  cumulative_risk : Qc;
  travel_time : Qc;
  num_edges : nat
}.

Definition zero_metrics : RouteMetrics :=
  {| length := 0; cumulative_risk := 0; travel_time := 0; num_edges := 0 |}.

(** The body of the loop over [range(len(route) - 1)].  The edge taken
    between [u] and [v] is the one under the first key of
    [G.get_edge_data(u, v)]. *)
Definition metrics_step (G : MultiDiGraph) (route : list node)
    (acc : RouteMetrics) (i : nat) : Py.result RouteMetrics :=
  u ← index route i;
  v ← index route (i + 1);
  match get_edge_data G u v with
  | Some ((_ :: _) as edge_data) =>
      edge_key ← index (map fst edge_data) 0;
      data ← getitem edge_data edge_key;
      let length' := get_attr data "length" 0 in
      let risk := get_attr data "risk" 0 in
      let travel_time' := get_attr data "travel_time" 0 in
      Py.Ok {| length := length acc + length';
               cumulative_risk := cumulative_risk acc + risk * length';
               travel_time := travel_time acc + travel_time';
               num_edges := num_edges acc + 1 |}
  | _ => Py.Ok acc
  end.

(** [calculate_route_metrics(G, route)]; [route] may be [None]. *)
Definition calculate_route_metrics (G : MultiDiGraph) (route : option (list node))
  : Py.result RouteMetrics :=
  match route with
  | None => Py.Ok zero_metrics
  | Some route =>
      if (List.length route <? 2)%nat then Py.Ok zero_metrics
      else for_each (metrics_step G route) (seq 0 (List.length route - 1)) zero_metrics
  end.

(** *** Comparator *)

Record RiskReduction := {
  risk_reduction_pct : Qc;
  absolute_risk_reduction : Qc;
  length_difference_m : Qc;
  length_increase_pct : Qc;
  safe_route_risk : Qc;
  fast_route_risk : Qc
}.

(** [calculate_risk_reduction(safe_metrics, fast_metrics)]. *)
Definition calculate_risk_reduction (safe_metrics fast_metrics : RouteMetrics)
  : Py.result RiskReduction :=
  let safe_risk := cumulative_risk safe_metrics in
  let fast_risk := cumulative_risk fast_metrics in
  risk_reduction_pct' ←
    (if Num.eqb fast_risk 0 then Py.Ok 0
     else q ← Py.div (fast_risk - safe_risk) fast_risk; Py.Ok (q * Num.hundred));
  let length_difference := length safe_metrics - length fast_metrics in
  length_increase_pct' ←
    (if Num.gtb (length fast_metrics) 0
     then q ← Py.div length_difference (length fast_metrics); Py.Ok (q * Num.hundred)
     else Py.Ok 0);
  Py.Ok {| risk_reduction_pct := risk_reduction_pct';
           absolute_risk_reduction := fast_risk - safe_risk;
           length_difference_m := length_difference;
           length_increase_pct := length_increase_pct';
           safe_route_risk := safe_risk;
           fast_route_risk := fast_risk |}.

(** *** Route geometry *)

Section RouteGeometry.

(** [ox.routing.route_to_gdf(G, route)], which may raise. *)
Context {gdf : Type}.
Variable route_to_gdf : MultiDiGraph → list node → Py.result gdf.

(** [route_to_geodataframe(G, route)]: [None] for no route. *)
Definition route_to_geodataframe (G : MultiDiGraph) (route : option (list node))
  : Py.result (option gdf) :=
  match route with
  | None => Py.Ok None
  | Some route => frame ← route_to_gdf G route; Py.Ok (Some frame)
  end.

End RouteGeometry.

(** *** Comparison table *)

(** One row of the table of [compare_routes]: the metrics of a route and
    its name. *)
Record ComparisonRow := {
  route_name : string;
  row_metrics : RouteMetrics
}.

(** [compare_routes(G, routes_dict)]; [routes_dict] in the order of its
    keys.  The columns are selected by name from the frame built from the
    rows: a frame built from no row has no column, and the selection raises
    [KeyError]. *)
Definition compare_routes (G : MultiDiGraph)
    (routes_dict : list (string * option (list node)))
  : Py.result (list ComparisonRow) :=
  comparison ←
    for_each
      (λ comparison (item : string * option (list node)),
         metrics ← calculate_route_metrics G item.2;
         Py.Ok (comparison ++ [{| route_name := item.1; row_metrics := metrics |}]))
      routes_dict [];
  match comparison with
  | [] => Py.Raise Py.KeyError
  | _ :: _ => Py.Ok comparison
  end.

End Routing.

(** ** [scripts/06_prepare_network.py] *)

Module PrepareNetwork.
Import Graph Loops Routing.

(** What the code asks of the geometry returned by
    [edge_geom.intersection(tile)]: [is_empty], the [length] attribute when
    the object has one, and [geom_type]. *)
Record Shape := {
  is_empty : bool;
  shape_length : option Qc;
  geom_type : string
}.

Section Overlay.

(** The geometry engine (shapely, and the spatial index of geopandas):
    the length of an edge, the rows of [tiles_gdf] the index returns for an
    edge, the predicate [intersects] and the operation [intersection],
    which may raise. *)
Context {line polygon : Type}.
Variable line_length : line → Qc.
Variable possible_matches : line → list (string * polygon).
Variable intersects : line → polygon → bool.
Variable intersection : line → polygon → Py.result Shape.

(** The body of the loop over the candidate tiles.  Whatever is raised
    inside the [try] skips the tile. *)
Definition contribution_of (edge_geom : line) (edge_length : Qc)
    (tile_row : string * polygon) : option Contribution :=
  if intersects edge_geom tile_row.2 then
    let attempt : Py.result (option Contribution) :=
      inter ← intersection edge_geom tile_row.2;
      if is_empty inter then Py.Ok None
      else
        let intersection_length :=
          match shape_length inter with
          | Some l => l
          | None => if String.eqb (geom_type inter) "Point" then 0 else 0
          end in
        if Num.gtb intersection_length 0 then
          fraction' ← Py.div intersection_length edge_length;
          Py.Ok (Some {| tile_id := tile_row.1; fraction := fraction' |})
        else Py.Ok None in
    match attempt with
    | Py.Ok c => c
    | Py.Raise _ => None
    end
  else None.

(** [if total_fraction > 0: tc['fraction'] = tc['fraction'] / total_fraction]. *)
Definition normalize (tile_contributions : list Contribution)
  : Py.result (list Contribution) :=
  let total_fraction := Num.sum (map fraction tile_contributions) in
  if Num.gtb total_fraction 0 then
    comprehension
      (λ tc, f ← Py.div (fraction tc) total_fraction;
             Py.Ok {| tile_id := tile_id tc; fraction := f |})
      tile_contributions
  else Py.Ok tile_contributions.

(** One row of [edges_gdf]: the state is the mapping built so far and the
    counter [edges_with_tiles]. *)
Definition mapping_step (st : TileEdgeMapping * nat) (edge_row : edge_id * line)
  : Py.result (TileEdgeMapping * nat) :=
  let '(edge_idx, edge_geom) := edge_row in
  let edge_length := line_length edge_geom in
  if Num.eqb edge_length 0 then Py.Ok st
  else
    let tile_contributions :=
      omap (contribution_of edge_geom edge_length) (possible_matches edge_geom) in
    match tile_contributions with
    | [] => Py.Ok st
    | _ :: _ =>
        normalized ← normalize tile_contributions;
        Py.Ok (<[edge_idx := normalized]> st.1, S st.2)
    end.

(** [create_tile_edge_mapping(G, tiles_gdf)], from the rows of [edges_gdf].
    On a graph without edges [ox.graph_to_gdfs] raises [ValueError] before
    the loop; otherwise [edges_gdf] has a row per edge.  The coverage line
    divides by [len(edges_gdf)]. *)
Definition create_tile_edge_mapping (edges_gdf : list (edge_id * line))
  : Py.result TileEdgeMapping :=
  match edges_gdf with
  | [] => Py.Raise Py.ValueError
  | _ :: _ =>
      st ← for_each mapping_step edges_gdf (∅, 0%nat);
      _ ← Py.div (Num.of_Z (Z.of_nat st.2)) (Num.of_Z (Z.of_nat (List.length edges_gdf)));
      Py.Ok st.1
  end.

End Overlay.

End PrepareNetwork.

(** A geometry on one axis, to run the overlay on: an edge is a segment
    [(a, b)] with [a <= b], a tile is an interval [(lo, hi)]. *)

Module Geometry1D.
Import PrepareNetwork.

Definition segment : Type := Qc * Qc.

Definition seg_length (s : segment) : Qc := s.2 - s.1.

Definition lo_of (s t : segment) : Qc := Num.max2 s.1 t.1.
Definition hi_of (s t : segment) : Qc := if bool_decide (s.2 < t.2) then s.2 else t.2.

Definition seg_intersects (s t : segment) : bool :=
  bool_decide (lo_of s t <= hi_of s t).

Definition seg_intersection (s t : segment) : Py.result Shape :=
  let l := hi_of s t - lo_of s t in
  Py.Ok {| is_empty := bool_decide (l < 0);
           shape_length := Some l;
           geom_type := if Num.eqb l 0 then "Point" else "LineString" |}.

Definition seg_candidates (tiles : list (string * segment)) (s : segment)
  : list (string * segment) :=
  filter (λ t, seg_intersects s t.2 = true) tiles.

End Geometry1D.

(** ** [scripts/utils/cynet_wrapper.py] *)

(** The naive [datetime] of the standard library, with the arithmetic of
    [datetime + timedelta(hours=i)]: the instant is turned into a day
    ordinal and a second of the day, the hours are added, and the result is
    turned back; outside the years 1..9999 it is [OverflowError]. *)

Module Datetime.
Local Open Scope Z_scope.

Record datetime := {
  year : Z;
  month : Z;
  day : Z;
  hour : Z;
  minute : Z;
  second : Z;
  microsecond : Z
}.

#[global] Instance datetime_eq_dec : EqDecision datetime.
Proof. solve_decision. Defined.

Definition is_leap (y : Z) : bool :=
  (y mod 4 =? 0) && (negb (y mod 100 =? 0) || (y mod 400 =? 0)).

Definition days_before_year (y : Z) : Z :=
  let y' := y - 1 in y' * 365 + y' / 4 - y' / 100 + y' / 400.

Definition days_in_month (y m : Z) : Z :=
  if m =? 2 then (if is_leap y then 29 else 28)
  else if (m =? 4) || (m =? 6) || (m =? 9) || (m =? 11) then 30
  else 31.

Definition days_before_month (y m : Z) : Z :=
  fold_left (λ acc k, acc + days_in_month y (Z.of_nat k)) (seq 1 (Z.to_nat m - 1)) 0.

Definition toordinal (t : datetime) : Z :=
  days_before_year (year t) + days_before_month (year t) (month t) + day t.

Definition MAXORDINAL : Z := 3652059.

(** [date.fromordinal]: the cycles of 400, 100, 4 and 1 years. *)
Definition ord2ymd (n : Z) : Z * Z * Z :=
  let n := n - 1 in
  let n400 := n / 146097 in let n := n mod 146097 in
  let n100 := n / 36524 in let n := n mod 36524 in
  let n4 := n / 1461 in let n := n mod 1461 in
  let n1 := n / 365 in let n := n mod 365 in
  let y := n400 * 400 + 1 + n100 * 100 + n4 * 4 + n1 in
  if (n1 =? 4) || (n100 =? 4) then (y - 1, 12, 31)
  else
    let leapyear := (n1 =? 3) && (negb (n4 =? 24) || (n100 =? 3)) in
    let m := Z.shiftr (n + 50) 5 in
    let preceding :=
      days_before_month (if leapyear then 2000 else 2001) m in
    if n <? preceding then
      let m' := m - 1 in
      let preceding' := preceding - days_in_month (if leapyear then 2000 else 2001) m' in
      (y, m', n - preceding' + 1)
    else (y, m, n - preceding + 1).

(** [reference_time.replace(minute=0, second=0, microsecond=0)]. *)
Definition floor_to_hour (t : datetime) : datetime :=
  {| year := year t; month := month t; day := day t; hour := hour t;
     minute := 0; second := 0; microsecond := 0 |}.

(** [t + timedelta(hours=i)]. *)
Definition add_hours (t : datetime) (i : Z) : Py.result datetime :=
  let secs := hour t * 3600 + minute t * 60 + second t + i * 3600 in
  let days := toordinal t + secs / 86400 in
  let secs := secs mod 86400 in
  if (0 <? days) && (days <=? MAXORDINAL) then
    let '(y, m, d) := ord2ymd days in
    Py.Ok {| year := y; month := m; day := d;
             hour := secs / 3600;
             minute := (secs mod 3600) / 60;
             second := (secs mod 3600) mod 60;
             microsecond := microsecond t |}
  else Py.Raise Py.OverflowError.

End Datetime.

Module CynetWrapper.
Import Loops Datetime.

(** The model object: it may lack a [predict] method altogether
    ([AttributeError] at the call).  A [predict] that exists may raise, and
    otherwise returns, per tile, the probabilities of the instants asked. *)
Record Model := {
  predict : option (list datetime → Py.result (gmap string (list Qc)))
}.

Section Aggregator.

(** [datetime.now()], and the stream [np.random.random()] yields once the
    generator has been seeded with 42. *)
Variable now : datetime.
Variable random_seed42 : nat → Qc.

Definition prediction_hours_of (reference_time : datetime) : Py.result (list datetime) :=
  comprehension (λ i : Z, add_hours reference_time i) [0; 1; 2; 3]%Z.

(** The body of the [try]: the call to the model and the loop taking the
    maximum over the four hours, 0.0 for a tile the model does not know. *)
Definition try_predict (model : Model) (tiles : list string)
    (prediction_hours : list datetime) : Py.result (gmap string Qc) :=
  match predict model with
  | None => Py.Raise Py.AttributeError
  | Some predict' =>
      predictions ← predict' prediction_hours;
      for_each
        (λ (tile_risks : gmap string Qc) tile_id,
           match predictions !! tile_id with
           | Some probs => m ← max_of probs; Py.Ok (<[tile_id := m]> tile_risks)
           | None => Py.Ok (<[tile_id := 0]> tile_risks)
           end)
        tiles ∅
  end.

(** The [except AttributeError] branch: every tile gets the next draw of
    the seeded generator times 0.3. *)
Definition dummy_predictions (tiles : list string) : gmap string Qc :=
  fold_left
    (λ (tile_risks : gmap string Qc) (it : nat * string),
       <[it.2 := random_seed42 it.1 * Num.frac 3 10]> tile_risks)
    (imap (λ i tile_id, (i, tile_id)) tiles) ∅.

(** [predict_next_4_hours(model, tiles_gdf, reference_time)]; [tiles] is
    the column [tiles_gdf['tile_id']]. *)
Definition predict_next_4_hours (model : Model) (tiles : list string)
    (reference_time : option datetime) : Py.result (gmap string Qc) :=
  let reference_time := default now reference_time in
  let reference_time := floor_to_hour reference_time in
  prediction_hours ← prediction_hours_of reference_time;
  match try_predict model tiles prediction_hours with
  | Py.Raise Py.AttributeError => Py.Ok (dummy_predictions tiles)
  | r => r
  end.

End Aggregator.

Section Placeholder.

Variable random_seed42 : nat → Qc.

(** [create_prediction_placeholder(tiles_gdf, default_risk)]: the
    generator is seeded with 42 and every tile gets its next draw times
    [default_risk]. *)
Definition create_prediction_placeholder (tiles : list string) (default_risk : Qc)
  : gmap string Qc :=
  fold_left
    (λ (tile_risks : gmap string Qc) (it : nat * string),
       <[it.2 := random_seed42 it.1 * default_risk]> tile_risks)
    (imap (λ i tile_id, (i, tile_id)) tiles) ∅.

End Placeholder.

(** *** Aggregation over time windows *)

(** A value of the dict given to [aggregate_tile_predictions]: a list (or
    array) of probabilities, or anything else, which is passed through. *)
Inductive Prediction :=
| Sequence (v : list Qc)
| Scalar (v : Qc).

(** An aggregated value; [np.mean] of an empty sequence is [nan]. *)
Inductive Number :=
| Finite (q : Qc)
| NaN.

Definition np_mean (v : list Qc) : Number :=
  match v with
  | [] => NaN
  | _ :: _ => Finite (Num.sum v / Num.of_Z (Z.of_nat (List.length v)))
  end.

(** The value of one key under a method that is known. *)
Definition aggregate_value (method : string) (v : Prediction) : Py.result Number :=
  match v with
  | Scalar q => Py.Ok (Finite q)
  | Sequence l =>
      if String.eqb method "max" then q ← max_of l; Py.Ok (Finite q)
      else if String.eqb method "mean" then Py.Ok (np_mean l)
      else Py.Ok (Finite (Num.sum l))
  end.

(** [aggregate_tile_predictions(predictions, method)]: a dict
    comprehension over [predictions.items()] for the three methods,
    [ValueError] for any other. *)
Definition aggregate_tile_predictions (predictions : gmap string Prediction)
    (method : string) : Py.result (gmap string Number) :=
  if String.eqb method "max" || String.eqb method "mean" || String.eqb method "sum" then
    for_each
      (λ (aggregated : gmap string Number) (kv : string * Prediction),
         x ← aggregate_value method kv.2;
         Py.Ok (<[kv.1 := x]> aggregated))
      (map_to_list predictions) ∅
  else Py.Raise Py.ValueError.

(** *** Triplets *)

(** The matrix of a triplet: a numpy array of some shape, or an object
    that is not an array (a plain list, say), of which the code can only
    find out that it has no [shape] and takes no index pair. *)
Inductive Timeseries :=
| NdArray (nrows ncols : nat) (cell : nat → nat → Z)
| NotArray.

(** The tile ids of a triplet: an array, or a plain list (against which
    [row_coords == tile_id] is a single [False], not an array of booleans). *)
Inductive Coords :=
| CoordArray (ids : list string)
| CoordList (ids : list string).

Definition coords_ids (c : Coords) : list string :=
  match c with CoordArray ids => ids | CoordList ids => ids end.

(** The triplet dict; a key may be missing. *)
Record Triplet := {
  row_coords : option Coords;
  col_dates : option (list datetime);
  timeseries : option Timeseries
}.

(** [triplet[key]]. *)
Definition item {A} (field : option A) : Py.result A :=
  match field with
  | Some a => Py.Ok a
  | None => Py.Raise Py.KeyError
  end.

(** [validate_triplet_format(triplet)].  The shape is read before the
    type of the matrix is looked at. *)
Definition validate_triplet_format (triplet : Triplet) : Py.result bool :=
  if bool_decide (row_coords triplet = None) then Py.Raise Py.ValueError
  else if bool_decide (col_dates triplet = None) then Py.Raise Py.ValueError
  else if bool_decide (timeseries triplet = None) then Py.Raise Py.ValueError
  else
    rows ← item (row_coords triplet);
    dates ← item (col_dates triplet);
    matrix ← item (timeseries triplet);
    let n_tiles := List.length (coords_ids rows) in
    let n_times := List.length dates in
    matrix_shape ←
      match matrix with
      | NdArray nrows ncols _ => Py.Ok (nrows, ncols)
      | NotArray => Py.Raise Py.AttributeError
      end;
    if bool_decide (matrix_shape ≠ (n_tiles, n_times)) then Py.Raise Py.ValueError
    else
      match matrix with
      | NdArray _ _ _ => Py.Ok true
      | NotArray => Py.Raise Py.ValueError
      end.

(** The release of numpy the code runs on (the repository pins none).  It
    matters in one place: [np.where] of a single boolean returns no index
    up to numpy 2.0, with a deprecation warning, and raises [ValueError]
    from numpy 2.1 on. *)
Inductive Numpy :=
| Before_2_1
| Since_2_1.

(** [np.where(row_coords == tile_id)[0]]: the positions of the tile. *)
Definition where_equal (numpy : Numpy) (rows : Coords) (tile_id : string)
  : Py.result (list nat) :=
  match rows with
  | CoordArray ids =>
      Py.Ok (omap (λ it : nat * string,
                     if bool_decide (it.2 = tile_id) then Some it.1 else None)
                  (imap (λ i t, (i, t)) ids))
  | CoordList _ =>
      match numpy with
      | Before_2_1 => Py.Ok []
      | Since_2_1 => Py.Raise Py.ValueError
      end
  end.

(** [get_tile_timeseries(triplet, tile_id)]: the row of the first position
    of the tile, [None] when the tile is not found. *)
Definition get_tile_timeseries (numpy : Numpy) (triplet : Triplet) (tile_id : string)
  : Py.result (option (list Z)) :=
  rows ← item (row_coords triplet);
  tile_index ← where_equal numpy rows tile_id;
  if bool_decide (List.length tile_index = 0%nat) then Py.Ok None
  else
    matrix ← item (timeseries triplet);
    i ← index tile_index 0;
    match matrix with
    | NdArray nrows ncols cell =>
        if bool_decide (i < nrows)%nat
        then Py.Ok (Some (map (cell i) (seq 0 ncols)))
        else Py.Raise Py.IndexError
    | NotArray => Py.Raise (Py.OtherError "TypeError")
    end.

(** *** Metrics of a model *)

(** An attribute of the model object: missing, [None], or a value that
    [float] converts or refuses. *)
Inductive Attribute :=
| Missing
| IsNone
| Value (converted : Py.result Qc).

Record Scores := {
  auc : Attribute;
  tpr : Attribute;
  fpr : Attribute
}.

(** One [if hasattr(model, a): metrics[k] = float(model.a) if model.a is
    not None else None]. *)
Definition extract_one (k : string) (a : Attribute) (metrics : gmap string (option Qc))
  : Py.result (gmap string (option Qc)) :=
  match a with
  | Missing => Py.Ok metrics
  | IsNone => Py.Ok (<[k := None]> metrics)
  | Value (Py.Ok v) => Py.Ok (<[k := Some v]> metrics)
  | Value (Py.Raise e) => Py.Raise e
  end.

(** [extract_model_metrics(model)]: whatever is raised is swallowed, and
    the dict filled so far is returned. *)
Definition extract_model_metrics (model : Scores) : gmap string (option Qc) :=
  match extract_one "AUC" (auc model) ∅ with
  | Py.Raise _ => ∅
  | Py.Ok m1 =>
      match extract_one "TPR" (tpr model) m1 with
      | Py.Raise _ => m1
      | Py.Ok m2 =>
          match extract_one "FPR" (fpr model) m2 with
          | Py.Raise _ => m2
          | Py.Ok m3 => m3
          end
      end
  end.

End CynetWrapper.

(** ** [scripts/utils/spatial.py] *)

Module Spatial.
Import Loops.

Record BBox := {
  lat_min : Qc;
  lat_max : Qc;
  lon_min : Qc;
  lon_max : Qc
}.

Definition DENVER_BBOX : BBox :=
  {| lat_min := Num.frac 3960 100; lat_max := Num.frac 3990 100;
     lon_min := Num.frac (-10512) 100; lon_max := Num.frac (-10460) 100 |}.

(** [np.arange(start, stop, step)]: [ceil((stop - start) / step)] values
    [start + k * step], none when that count is not positive.  The
    quotient is taken on Python floats: a step of zero raises
    [ZeroDivisionError].  Here the quotient is exact, so the count can
    differ by one from numpy's where the floating-point quotient rounds to
    a whole number; only the sign of the quotient, the first value and the
    structure of the list are relied on. *)
Definition arange (start stop step : Qc) : Py.result (list Qc) :=
  q ← Py.div (stop - start) step;
  Py.Ok (map (λ k : nat, start + Num.of_Z (Z.of_nat k) * step)
             (seq 0 (Z.to_nat (Num.ceil q)))).

Record TileRow {polygon : Type} := {
  tile_id : string;
  geometry : polygon;
  center_lon : Qc;
  center_lat : Qc
}.
Arguments TileRow : clear implicits.

Section Grid.

(** The projections of geopandas ([to_crs]) and the centroid of shapely.
    [to_utm] takes [(lon, lat)] to [(x, y)] in UTM 13N; [to_output] takes
    the box [(minx, miny, maxx, maxy)] to its polygon in [crs_output]. *)
Context {polygon : Type}.
Variable to_utm : Qc * Qc → Qc * Qc.
Variable to_output : Qc * Qc * Qc * Qc → polygon.
Variable centroid : polygon → Qc * Qc.

Definition tile_name (i j : nat) : string :=
  "tile_" +:+ pretty i +:+ "_" +:+ pretty j.

(** [create_spatial_grid(bbox, tile_size_m, crs_output)]. *)
Definition create_spatial_grid (bbox : option BBox) (tile_size_m : Qc)
  : Py.result (list (TileRow polygon)) :=
  let bbox := default DENVER_BBOX bbox in
  let sw_corner := to_utm (lon_min bbox, lat_min bbox) in
  let ne_corner := to_utm (lon_max bbox, lat_max bbox) in
  let xmin := sw_corner.1 in
  let ymin := sw_corner.2 in
  let xmax := ne_corner.1 in
  let ymax := ne_corner.2 in
  x_coords ← arange xmin xmax tile_size_m;
  y_coords ← arange ymin ymax tile_size_m;
  Py.Ok
    (mjoin
       (imap (λ i x,
          imap (λ j y,
            let geom := to_output (x, y, x + tile_size_m, y + tile_size_m) in
            {| tile_id := tile_name i j;
               geometry := geom;
               center_lon := (centroid geom).1;
               center_lat := (centroid geom).2 |})
            y_coords)
          x_coords)).

End Grid.

(** A row of the DataFrame given to [validate_coordinates]: the two
    coordinate columns, [None] for a null (NaN), and the other columns. *)
Record PointRow {A : Type} := {
  lon : option Qc;
  lat : option Qc;
  columns : A
}.
Arguments PointRow : clear implicits.

(** The comparisons of pandas on a column cell: [!=] is true of a null,
    [>=] and [<=] are false of a null. *)
Definition ne_zero (c : option Qc) : bool :=
  match c with
  | Some q => negb (Num.eqb q 0)
  | None => true
  end.

Definition notna (c : option Qc) : bool :=
  match c with
  | Some _ => true
  | None => false
  end.

Definition ge (c : option Qc) (bound : Qc) : bool :=
  match c with
  | Some q => bool_decide (bound <= q)
  | None => false
  end.

Definition le (c : option Qc) (bound : Qc) : bool :=
  match c with
  | Some q => bool_decide (q <= bound)
  | None => false
  end.

(** [validate_coordinates(df, lon_col, lat_col, bbox)]: three boolean
    masks, one after the other. *)
Definition validate_coordinates {A : Type} (df : list (PointRow A)) (bbox : option BBox)
  : list (PointRow A) :=
  let bbox := default DENVER_BBOX bbox in
  let df := filter (λ r, ne_zero (lon r) && ne_zero (lat r) = true) df in
  let df := filter (λ r, notna (lon r) && notna (lat r) = true) df in
  let df := filter (λ r, ge (lat r) (lat_min bbox) && le (lat r) (lat_max bbox)
                         && ge (lon r) (lon_min bbox) && le (lon r) (lon_max bbox) = true)
                   df in
  df.

End Spatial.

(** ** The weighting step of [app.py] *)

Module App.
Import Graph Routing.

(** [G_risk = apply_risk_weights(G.copy(), tile_edge_mapping, tile_risks)]:
    the cached network [G] is copied and the copy is weighted. *)
Definition weight_request (h : heap) (G : loc)
    (tile_edge_mapping : TileEdgeMapping) (tile_risks : TileRisks)
  : heap * Py.result loc :=
  match copy h G with
  | (h1, Py.Ok G_copy) => apply_risk_weights h1 G_copy tile_edge_mapping tile_risks
  | (h1, Py.Raise e) => (h1, Py.Raise e)
  end.

Section Request.

(** The calls into osmnx, as in [Routing]. *)
Context {gdf : Type}.
Variable nearest_nodes : MultiDiGraph → Qc → Qc → node.
Variable search : list node → list (edge_id * Qc) → node → node → option (list node).
Variable route_to_gdf : MultiDiGraph → list node → Py.result gdf.

(** What the "Calculating routes" step of [main] ends with: the page
    stopped after the error message, or the two routes compared. *)
Record Comparison := {
  safe_route : list node;
  fast_route : list node;
  safe_route_gdf : option gdf;
  fast_route_gdf : option gdf;
  safe_metrics : RouteMetrics;
  fast_metrics : RouteMetrics;
  reduction : RiskReduction
}.

Inductive Outcome :=
| Stopped
| Compared (c : Comparison).

(** The step itself: weight a copy of the network, plan the two routes on
    it, stop if either is missing, else measure and compare them. *)
Definition calculate_routes (h : heap) (G : loc)
    (tile_edge_mapping : TileEdgeMapping) (tile_risks : TileRisks)
    (origin_point dest_point : Qc * Qc) : heap * Py.result Outcome :=
  match weight_request h G tile_edge_mapping tile_risks with
  | (h1, Py.Raise e) => (h1, Py.Raise e)
  | (h1, Py.Ok G_risk) =>
      match h1 !! G_risk with
      | None => (h1, Py.Raise Py.ReferenceError)
      | Some g_risk =>
          let safe_route' :=
            find_safe_route nearest_nodes search g_risk origin_point dest_point "risk_weight" in
          let fast_route' :=
            find_safe_route nearest_nodes search g_risk origin_point dest_point "length" in
          (h1,
           match safe_route', fast_route' with
           | Some s, Some f =>
               s_gdf ← route_to_geodataframe route_to_gdf g_risk safe_route';
               f_gdf ← route_to_geodataframe route_to_gdf g_risk fast_route';
               s_metrics ← calculate_route_metrics g_risk safe_route';
               f_metrics ← calculate_route_metrics g_risk fast_route';
               reduction' ← calculate_risk_reduction s_metrics f_metrics;
               Py.Ok (Compared {| safe_route := s; fast_route := f;
                                  safe_route_gdf := s_gdf; fast_route_gdf := f_gdf;
                                  safe_metrics := s_metrics; fast_metrics := f_metrics;
                                  reduction := reduction' |})
           | _, _ => Py.Ok Stopped
           end)
      end
  end.

End Request.

Section Prediction.

(** The clock and the generator, as in [CynetWrapper], and the step of
    pandas and geopandas between the prediction and the summary: the frame
    of the RiskMap merged into the grid on [tile_id], nulls filled with 0.
    It is the library's, and may raise. *)
Context {frame : Type}.
Variable now : Datetime.datetime.
Variable random_seed42 : nat → Qc.
Variable tiles_with_risk_of : list string → TileRisks → Py.result frame.

(** The "Predicting crime risk" step of [main]: the RiskMap of the
    departure hour, the grid with its risks, and the average and the
    maximum shown to the user. *)
Definition predict_risk (model : CynetWrapper.Model) (tiles : list string)
    (departure_time : Datetime.datetime) : Py.result (TileRisks * frame * Qc * Qc) :=
  tile_risks ← CynetWrapper.predict_next_4_hours now random_seed42 model tiles
                 (Some departure_time);
  tiles_with_risk ← tiles_with_risk_of tiles tile_risks;
  let values := (map_to_list tile_risks).*2 in
  avg_risk ← Py.div (Num.sum values) (Num.of_Z (Z.of_nat (List.length (map_to_list tile_risks))));
  max_risk ← Loops.max_of values;
  Py.Ok (tile_risks, tiles_with_risk, avg_risk, max_risk).

End Prediction.

End App.

(** ** The searches of osmnx and networkx, to run the planner on *)

Module Osmnx.
Import Graph.

(** Modelled from the spec: osmnx is not part of the repository; the
    nearest node is the one at the least planar distance from the point,
    the first such node of the graph when several are as near. *)
Definition dist2 (X Y : Qc) (n : node * NodeData) : Qc :=
  (x n.2 - X) * (x n.2 - X) + (y n.2 - Y) * (y n.2 - Y).

Definition nearest_nodes (G : MultiDiGraph) (X Y : Qc) : node :=
  match nodes G with
  | [] => 0%Z
  | n :: ns =>
      (fold_left
         (λ best m, if bool_decide (dist2 X Y m < dist2 X Y best) then m else best)
         ns n).1
  end.

(** Modelled from the spec: networkx is not part of the repository; the
    search is Dijkstra's over non-negative weights.  Every parallel edge is
    relaxed, so the lightest one between two nodes decides.  [dist] holds,
    for a reached node, its tentative distance and the path to it
    (reversed). *)
Definition relax (u : node) (du : Qc) (pu : list node)
    (dist : gmap node (Qc * list node)) (e : edge_id * Qc)
  : gmap node (Qc * list node) :=
  let '((a, b, _), w) := e in
  if bool_decide (a = u) then
    match dist !! b with
    | Some (db, _) =>
        if bool_decide (du + w < db) then <[b := (du + w, b :: pu)]> dist else dist
    | None => <[b := (du + w, b :: pu)]> dist
    end
  else dist.

(** The nearest node not yet settled, the first in the order of the graph
    among equals. *)
Definition pick (order : list node) (dist : gmap node (Qc * list node))
    (settled : gset node) : option (node * Qc * list node) :=
  fold_left
    (λ best n,
       if bool_decide (n ∈ settled) then best
       else match dist !! n, best with
            | Some (d, p), Some (_, bd, _) =>
                if bool_decide (d < bd) then Some (n, d, p) else best
            | Some (d, p), None => Some (n, d, p)
            | None, _ => best
            end)
    order None.

Fixpoint dijkstra_loop (fuel : nat) (order : list node) (es : list (edge_id * Qc))
    (dest : node) (dist : gmap node (Qc * list node)) (settled : gset node)
  : option (list node) :=
  match fuel with
  | O => None
  | S fuel' =>
      match pick order dist settled with
      | None => None
      | Some (u, du, pu) =>
          if bool_decide (u = dest) then Some (rev pu)
          else dijkstra_loop fuel' order es dest
                 (fold_left (relax u du pu) es dist) ({[u]} ∪ settled)
      end
  end.

Definition dijkstra (order : list node) (es : list (edge_id * Qc))
    (orig dest : node) : option (list node) :=
  dijkstra_loop (S (List.length order)) order es dest {[orig := (0, [orig])]} ∅.

End Osmnx.

(** ** Concrete networks *)

Module Scenario.
Import Graph Routing.

Definition node_at (X Y : Z) : NodeData :=
  {| x := Num.of_Z X; y := Num.of_Z Y; node_tags := ∅ |}.

Definition street (len time : Qc) : EdgeData :=
  {| num := <["travel_time" := time]> (<["length" := len]> ∅);
     geometry := None;
     tags := ∅ |}.

(** The scenario of the specification: one straight 600 m edge from node 1
    to node 2, half in tile A and half in tile B. *)
Definition one_edge : MultiDiGraph :=
  {| nodes := [(1%Z, node_at 0 0); (2%Z, node_at 600 0)];
     edges := [((1, 2, 0)%Z, street (Num.of_Z 600) (Num.of_Z 60))] |}.

Definition one_edge_mapping : TileEdgeMapping :=
  {[ (1, 2, 0)%Z := [ {| tile_id := "tile_0_0"; fraction := Num.frac 1 2 |};
                      {| tile_id := "tile_1_0"; fraction := Num.frac 1 2 |} ] ]}.

Definition one_edge_risks : TileRisks :=
  <["tile_0_0" := Num.frac 8 10]> (<["tile_1_0" := Num.frac 2 10]> ∅).

Definition zero_risks : TileRisks :=
  <["tile_0_0" := 0]> (<["tile_1_0" := 0]> ∅).




(** Two parallel edges from node 1 to node 2: key 0, inserted first, is the
    long one (100 m); key 1 is the short one (50 m).  Node 3 is linked to
    nothing. *)
Definition parallel_edges : MultiDiGraph :=
  {| nodes := [(1%Z, node_at 0 0); (2%Z, node_at 50 0); (3%Z, node_at 0 900)];
     edges := [((1, 2, 0)%Z, street (Num.of_Z 100) (Num.of_Z 10));
               ((1, 2, 1)%Z, street (Num.of_Z 50) (Num.of_Z 5))] |}.

(** An edge that already carries a [risk] attribute, as after an earlier
    weighting. *)
Definition weighted_before : MultiDiGraph :=
  {| nodes := [(1%Z, node_at 0 0); (2%Z, node_at 600 0)];
     edges := [((1, 2, 0)%Z, set_attr "risk" (Num.of_Z 7) (street (Num.of_Z 600) (Num.of_Z 60)))] |}.

(** The same edge on one axis, from 5 m to 605 m, over two tiles of 305 m. *)
Definition axis_tiles : list (string * Geometry1D.segment) :=
  [("tile_0_0", (0, Num.of_Z 305)); ("tile_1_0", (Num.of_Z 305, Num.of_Z 610))].

Definition axis_edges : list (edge_id * Geometry1D.segment) :=
  [((1, 2, 0)%Z, (Num.of_Z 5, Num.of_Z 605))].

Definition axis_mapping (edges_gdf : list (edge_id * Geometry1D.segment))
  : Py.result TileEdgeMapping :=
  PrepareNetwork.create_tile_edge_mapping Geometry1D.seg_length
    (Geometry1D.seg_candidates axis_tiles) Geometry1D.seg_intersects
    Geometry1D.seg_intersection edges_gdf.

(** Two edges on the axis: the one above, and one that leaves the grid
    at 610 m. *)
Definition overhanging_edges : list (edge_id * Geometry1D.segment) :=
  [((1, 2, 0)%Z, (Num.of_Z 5, Num.of_Z 605)); ((2, 3, 0)%Z, (Num.of_Z 500, Num.of_Z 700))].

(** A model object without a [predict] method, and the two tiles. *)
Definition no_predict : CynetWrapper.Model := {| CynetWrapper.predict := None |}.

Definition two_tiles : list string := ["tile_0_0"; "tile_1_0"].

(** The stream of draws to run the fallback on: the first ten values of
    numpy's generator seeded with 42 (the Mersenne Twister's 53-bit draws,
    each a whole number of 2^-53: 0.3745401188473625, 0.9507143064099162,
    0.7319939418114051, 0.5986584841970366, ...).  The scenarios have fewer
    than ten tiles; past the table the stream is 0. *)
Definition seed42_draws : list Qc :=
  map (λ k : Z, Num.frac k 9007199254740992)
      [3373557479352566; 8563273192166996; 6593215287158609; 5392236252703920;
       1405290981918817; 1405073727315923; 523170668234071; 7801821134698421;
       5414362685787053; 6377750795027074]%Z.

Definition random_seed42 (i : nat) : Qc := nth i seed42_draws 0.

(** Two instants of the same hour, the hour before a leap day. *)
Definition evening : Datetime.datetime :=
  {| Datetime.year := 2024; Datetime.month := 2; Datetime.day := 28;
     Datetime.hour := 23; Datetime.minute := 5; Datetime.second := 12;
     Datetime.microsecond := 250 |}.

Definition later_that_hour : Datetime.datetime :=
  {| Datetime.year := 2024; Datetime.month := 2; Datetime.day := 28;
     Datetime.hour := 23; Datetime.minute := 47; Datetime.second := 59;
     Datetime.microsecond := 999999 |}.


(** A flat world to run the grid builder on: coordinates are already
    metres, a polygon is its box, the centroid is the middle of the box. *)
Definition box_centre (b : Qc * Qc * Qc * Qc) : Qc * Qc :=
  let '(minx, miny, maxx, maxy) := b in
  ((minx + maxx) / Num.of_Z 2, (miny + maxy) / Num.of_Z 2).

Definition flat_grid (bbox : option Spatial.BBox) (tile_size_m : Qc)
  : Py.result (list (Spatial.TileRow (Qc * Qc * Qc * Qc))) :=
  Spatial.create_spatial_grid (λ p, p) (λ b, b) box_centre bbox tile_size_m.

Definition square_915 : Spatial.BBox :=
  {| Spatial.lat_min := 0; Spatial.lat_max := Num.of_Z 915;
     Spatial.lon_min := 0; Spatial.lon_max := Num.of_Z 915 |}.

(** Two intersections and no street. *)
Definition no_streets : MultiDiGraph :=
  {| nodes := [(1%Z, node_at 0 0); (2%Z, node_at 600 0)]; edges := [] |}.

(** The aggregation scenario of the specification: one tile with the
    probabilities 0.1, 0.9, 0.3, 0.2 over the four hours, and a tile given
    as a single number. *)
Definition four_hours : gmap string CynetWrapper.Prediction :=
  <["tile_0_0" := CynetWrapper.Sequence
                    [Num.frac 1 10; Num.frac 9 10; Num.frac 3 10; Num.frac 2 10]]>
    (<["tile_1_0" := CynetWrapper.Scalar (Num.frac 1 4)]> ∅).

(** The same with a tile whose sequence is empty. *)
Definition with_empty : gmap string CynetWrapper.Prediction :=
  <["tile_2_0" := CynetWrapper.Sequence []]> four_hours.

(** A model that knows one tile, and one whose [predict] fails. *)
Definition forecast : CynetWrapper.Model :=
  {| CynetWrapper.predict :=
       Some (λ _, Py.Ok {[ "tile_0_0" := [Num.frac 1 10; Num.frac 9 10;
                                          Num.frac 3 10; Num.frac 2 10] ]}) |}.

Definition unreachable : CynetWrapper.Model :=
  {| CynetWrapper.predict := Some (λ _, Py.Raise (Py.OtherError "ConnectionError")) |}.

(** A model that lists a tile with no probability at all. *)
Definition silent : CynetWrapper.Model :=
  {| CynetWrapper.predict := Some (λ _, Py.Ok {[ "tile_1_0" := [] ]}) |}.

(** The last evening of the calendar. *)
Definition last_evening : Datetime.datetime :=
  {| Datetime.year := 9999; Datetime.month := 12; Datetime.day := 31;
     Datetime.hour := 22; Datetime.minute := 30; Datetime.second := 0;
     Datetime.microsecond := 0 |}.

(** A triplet of two tiles over three hours, the ids in an array; the
    same with the ids in a plain list; one whose matrix is a list of lists;
    and one whose matrix has a row too few. *)
Definition three_hours : list Datetime.datetime :=
  map (λ h : Z, {| Datetime.year := 2024; Datetime.month := 2; Datetime.day := 28;
                   Datetime.hour := h; Datetime.minute := 0; Datetime.second := 0;
                   Datetime.microsecond := 0 |}) [20; 21; 22]%Z.

Definition counts (i j : nat) : Z := Z.of_nat (10 * i + j).

Definition triplet_ok : CynetWrapper.Triplet :=
  {| CynetWrapper.row_coords := Some (CynetWrapper.CoordArray two_tiles);
     CynetWrapper.col_dates := Some three_hours;
     CynetWrapper.timeseries := Some (CynetWrapper.NdArray 2 3 counts) |}.

Definition triplet_listed : CynetWrapper.Triplet :=
  {| CynetWrapper.row_coords := Some (CynetWrapper.CoordList two_tiles);
     CynetWrapper.col_dates := Some three_hours;
     CynetWrapper.timeseries := Some (CynetWrapper.NdArray 2 3 counts) |}.

Definition triplet_nested : CynetWrapper.Triplet :=
  {| CynetWrapper.row_coords := Some (CynetWrapper.CoordArray two_tiles);
     CynetWrapper.col_dates := Some three_hours;
     CynetWrapper.timeseries := Some CynetWrapper.NotArray |}.

Definition triplet_short : CynetWrapper.Triplet :=
  {| CynetWrapper.row_coords := Some (CynetWrapper.CoordArray two_tiles);
     CynetWrapper.col_dates := Some three_hours;
     CynetWrapper.timeseries := Some (CynetWrapper.NdArray 1 3 counts) |}.

(** A model object whose [auc] cannot be converted to a float. *)
Definition bad_auc : CynetWrapper.Scores :=
  {| CynetWrapper.auc := CynetWrapper.Value (Py.Raise (Py.OtherError "TypeError"));
     CynetWrapper.tpr := CynetWrapper.Value (Py.Ok (Num.frac 8 10));
     CynetWrapper.fpr := CynetWrapper.Value (Py.Ok (Num.frac 1 10)) |}.

(** A box around the origin of the coordinates, and rows: one inside, one
    on the meridian 0, one without latitude, one outside. *)
Definition origin_bbox : Spatial.BBox :=
  {| Spatial.lat_min := Num.of_Z (-1); Spatial.lat_max := Num.of_Z 1;
     Spatial.lon_min := Num.of_Z (-1); Spatial.lon_max := Num.of_Z 1 |}.

Definition reports : list (Spatial.PointRow string) :=
  [ {| Spatial.lon := Some (Num.frac 1 2); Spatial.lat := Some (Num.frac 1 2);
       Spatial.columns := "inside" |};
    {| Spatial.lon := Some 0; Spatial.lat := Some (Num.frac 1 2);
       Spatial.columns := "meridian" |};
    {| Spatial.lon := Some (Num.frac 1 2); Spatial.lat := None;
       Spatial.columns := "null" |};
    {| Spatial.lon := Some (Num.of_Z 2); Spatial.lat := Some (Num.frac 1 2);
       Spatial.columns := "outside" |} ].

(** The grid with its risks, for the scenarios: a row per tile with the
    risk of the tile, 0 for a tile the RiskMap does not have. *)
Definition merged (tiles : list string) (tile_risks : TileRisks)
  : Py.result (list (string * Qc)) :=
  Py.Ok (map (λ t, (t, default 0 (tile_risks !! t))) tiles).

(** A store holding one graph, at the first location. *)
Definition store_of (g : MultiDiGraph) : heap := {[ 1%positive := g ]}.

End Scenario.

(** ** The specification's reading of the weights *)

Module Spec.
Import Graph Routing.

(** Section 4.4: [risk] is the sum over the contributions of the edge of
    [tile_risk(tile_id) * fraction], a tile missing from the RiskMap
    counting for 0.0, and 0.0 for an edge the overlay does not know. *)
Definition risk_of (tile_edge_mapping : TileEdgeMapping) (tile_risks : TileRisks)
    (e : edge_id) : Qc :=
  match tile_edge_mapping !! e with
  | Some contributions =>
      foldr Qcplus 0
        (map (λ c, default 0 (tile_risks !! tile_id c) * fraction c) contributions)
  | None => 0
  end.

(** The graph after the loop of [apply_risk_weights]: the same nodes, and
    every edge put through the body of the loop. *)
Definition weighted (tile_edge_mapping : TileEdgeMapping) (tile_risks : TileRisks)
    (g : MultiDiGraph) : MultiDiGraph :=
  {| nodes := nodes g;
     edges := map (λ e, (weight_edge tile_edge_mapping tile_risks e).1) (edges g) |}.

(** Section 3: a RiskMap holds probabilities; an overlay holds fractions,
    which are not negative. *)
Definition risk_map_ok (tile_risks : TileRisks) : Prop :=
  map_Forall (λ _ r, 0 <= r ∧ r <= 1) tile_risks.

Definition overlay_ok (tile_edge_mapping : TileEdgeMapping) : Prop :=
  map_Forall (λ _ cs, Forall (λ c, 0 <= fraction c) cs) tile_edge_mapping.

(** The frame of the weighting: an edge keeps its identifier, its
    geometry, its textual attributes and every numeric attribute other
    than [risk] and [risk_weight]. *)
Definition same_but_weights (e e' : edge_id * EdgeData) : Prop :=
  e'.1 = e.1
  ∧ geometry e'.2 = geometry e.2
  ∧ tags e'.2 = tags e.2
  ∧ ∀ k : string, k ≠ "risk" → k ≠ "risk_weight" → num e'.2 !! k = num e.2 !! k.

Definition same_network (g g' : MultiDiGraph) : Prop :=
  nodes g' = nodes g ∧ Forall2 same_but_weights (edges g) (edges g').

(** Section 4.6: the metrics walk the consecutive node pairs of the route. *)
Fixpoint pairs (route : list node) : list (node * node) :=
  match route with
  | u :: rest => match rest with
                 | v :: _ => (u, v) :: pairs rest
                 | [] => []
                 end
  | [] => []
  end.

(** The parallel edge that is first in the order of the keys. *)
Definition first_edge (G : MultiDiGraph) (uv : node * node) : option EdgeData :=
  snd <$> head (parallel G uv.1 uv.2).

(** Length, length-weighted risk and travel time summed over edges, and
    their count. *)
Definition metrics_over (ds : list EdgeData) : RouteMetrics :=
  {| length := foldr Qcplus 0 (map (λ d, get_attr d "length" 0) ds);
     cumulative_risk :=
       foldr Qcplus 0 (map (λ d, get_attr d "risk" 0 * get_attr d "length" 0) ds);
     travel_time := foldr Qcplus 0 (map (λ d, get_attr d "travel_time" 0) ds);
     num_edges := List.length ds |}.

(** The running sums with one more edge, or with a pair that has none. *)
Definition add_edge (acc : RouteMetrics) (d : option EdgeData) : RouteMetrics :=
  match d with
  | Some data =>
      {| length := length acc + get_attr data "length" 0;
         cumulative_risk := cumulative_risk acc + get_attr data "risk" 0 * get_attr data "length" 0;
         travel_time := travel_time acc + get_attr data "travel_time" 0;
         num_edges := num_edges acc + 1 |}
  | None => acc
  end.

(** A parallel edge that is lightest under the selected weight. *)
Definition lightest (weight : string) (kd : list (edge_key * EdgeData)) (d : EdgeData)
  : Prop :=
  Forall (λ kd', get_attr d weight 1 <= get_attr kd'.2 weight 1) kd.

(** Section 8: two numbers are equal within a tolerance. *)
Definition within (tol a b : Qc) : Prop := a - b <= tol ∧ b - a <= tol.

Definition tolerance : Qc := Num.frac 1 1000000.

(** Section 3: the invariant of an entry of the overlay map. *)
Definition normalized (contributions : list Contribution) : Prop :=
  contributions ≠ []
  ∧ Forall (λ c, 0 < fraction c) contributions
  ∧ Num.sum (map fraction contributions) = 1
  ∧ within tolerance (Num.sum (map fraction contributions)) 1.

(** Section 4.3: two instants of the same clock hour. *)
Definition same_hour (t1 t2 : Datetime.datetime) : Prop :=
  Datetime.year t1 = Datetime.year t2
  ∧ Datetime.month t1 = Datetime.month t2
  ∧ Datetime.day t1 = Datetime.day t2
  ∧ Datetime.hour t1 = Datetime.hour t2.

(** One RiskMap is nowhere above another, a missing tile counting for 0. *)
Definition risk_le (r1 r2 : TileRisks) : Prop :=
  ∀ t : string, default 0 (r1 !! t) <= default 0 (r2 !! t).

(** The record [calculate_route_metrics] returns for a route. *)
Definition metrics_of (G : MultiDiGraph) (route : option (list node)) : RouteMetrics :=
  match route with
  | None => zero_metrics
  | Some route => metrics_over (omap (first_edge G) (pairs route))
  end.

(** What an aggregated value is to the value it comes from: a scalar is
    passed through; of a sequence, the maximum is an element no other
    exceeds, the sum is the sum of the elements, and the mean is a number
    (not nan). *)
Definition aggregates (method : string) (v : CynetWrapper.Prediction)
    (x : CynetWrapper.Number) : Prop :=
  match v with
  | CynetWrapper.Scalar q => x = CynetWrapper.Finite q
  | CynetWrapper.Sequence l =>
      ∃ q, x = CynetWrapper.Finite q
           ∧ (method = "max" → q ∈ l ∧ Forall (λ p, p <= q) l)
           ∧ (method = "sum" → q = Num.sum l)
  end.

(** The aggregated value of a key when the aggregation of it does not
    raise. *)
Definition settled (method : string) (v : CynetWrapper.Prediction) : CynetWrapper.Number :=
  match CynetWrapper.aggregate_value method v with
  | Py.Ok x => x
  | Py.Raise _ => CynetWrapper.NaN
  end.

(** The risk the aggregator gives a tile from the probabilities of the
    model: their maximum, 0 for a tile the model does not list. *)
Definition tile_value (predictions : gmap string (list Qc)) (tile_id : string) : Qc :=
  match predictions !! tile_id with
  | Some (a :: l) => fold_left Num.max2 l a
  | _ => 0
  end.

(** A triplet as the validation wants it: the three keys, and an array of
    as many rows as tiles and as many columns as instants. *)
Definition well_formed (triplet : CynetWrapper.Triplet) : Prop :=
  ∃ rows dates cell,
    CynetWrapper.row_coords triplet = Some rows
    ∧ CynetWrapper.col_dates triplet = Some dates
    ∧ CynetWrapper.timeseries triplet
      = Some (CynetWrapper.NdArray (List.length (CynetWrapper.coords_ids rows))
                                   (List.length dates) cell).

(** The first position of an element in a list. *)
Definition first_at {A} (l : list A) (a : A) (i : nat) : Prop :=
  l !! i = Some a ∧ ∀ j, (j < i)%nat → l !! j ≠ Some a.

(** An attribute whose conversion to a float fails. *)
Definition fails (a : CynetWrapper.Attribute) : Prop :=
  ∃ e, a = CynetWrapper.Value (Py.Raise e).

(** What a metric reads from an attribute that is there and converts. *)
Definition reading (a : CynetWrapper.Attribute) : option (option Qc) :=
  match a with
  | CynetWrapper.Missing => None
  | CynetWrapper.IsNone => Some None
  | CynetWrapper.Value (Py.Ok v) => Some (Some v)
  | CynetWrapper.Value (Py.Raise _) => None
  end.






Section OverlaySpec.

Context {line polygon : Type}.
Variable line_length : line → Qc.
Variable possible_matches : line → list (string * polygon).
Variable intersects : line → polygon → bool.
Variable intersection : line → polygon → Py.result PrepareNetwork.Shape.

(** The length an edge has in a tile, when the overlay counts it: the
    tile intersects the edge, the intersection is computed, is not empty
    and has a positive length. *)
Definition overlap (edge_geom : line) (tile : polygon) : option Qc :=
  if intersects edge_geom tile then
    match intersection edge_geom tile with
    | Py.Ok inter =>
        if PrepareNetwork.is_empty inter then None
        else match PrepareNetwork.shape_length inter with
             | Some l => if bool_decide (0 < l) then Some l else None
             | None => None
             end
    | Py.Raise _ => None
    end
  else None.

Definition overlaps (edge_geom : line) : list (string * Qc) :=
  omap (λ tile_row : string * polygon,
          (λ l, (tile_row.1, l)) <$> overlap edge_geom tile_row.2)
       (possible_matches edge_geom).

(** What the contributions stored for an edge are to its counted tiles
    and their overlaps: the same tiles in the same order, each with a
    fraction in (0, 1]; a tile that overlaps no less than another has no
    smaller a fraction; and a single counted tile has the fraction 1. *)
Definition shared (counted : list (string * Qc)) (tcs : list Contribution) : Prop :=
  map tile_id tcs = counted.*1
  ∧ Forall (λ c, 0 < fraction c ∧ fraction c <= 1) tcs
  ∧ (∀ i j ci cj li lj,
       tcs !! i = Some ci → tcs !! j = Some cj →
       counted.*2 !! i = Some li → counted.*2 !! j = Some lj →
       li <= lj → fraction ci <= fraction cj)
  ∧ (List.length counted = 1%nat → map fraction tcs = [1]).

(** On exact numbers the fractions have a closed form: each counted tile
    with its overlap over the sum of the overlaps. *)
Definition shares (edge_geom : line) : list Contribution :=
  map (λ tl : string * Qc,
         {| tile_id := tl.1; fraction := tl.2 / Num.sum (overlaps edge_geom).*2 |})
      (overlaps edge_geom).

(** The entry of an edge in the overlay map: none for an edge without
    length or without a counted tile. *)
Definition entry (edge_geom : line) : option (list Contribution) :=
  if bool_decide (line_length edge_geom = 0) then None
  else match shares edge_geom with
       | [] => None
       | tcs => Some tcs
       end.

End OverlaySpec.

(** A row with both coordinates, neither of them 0, inside the box. *)
Definition valid_point {A : Type} (bbox : Spatial.BBox) (r : Spatial.PointRow A) : Prop :=
  ∃ x y, Spatial.lon r = Some x ∧ Spatial.lat r = Some y
         ∧ x ≠ 0 ∧ y ≠ 0
         ∧ Spatial.lat_min bbox <= y ∧ y <= Spatial.lat_max bbox
         ∧ Spatial.lon_min bbox <= x ∧ x <= Spatial.lon_max bbox.

(** A RiskMap that is 0 on every tile. *)
Definition risk_map_zero (tile_risks : TileRisks) : Prop :=
  map_Forall (λ _ r, r = 0) tile_risks.

End Spec.

(** * Proofs *)

(** ** Arithmetic on [Qc] *)

Lemma Qc_eq_iff (a b : Qc) : a = b ↔ (this a == this b)%Q.
Proof. split; [intros ->; reflexivity | apply Qc_is_canon]. Qed.

(** Goals on [Qc] are taken to [Q], where [lra] and [nra] decide them. *)
Ltac qc2q :=
  repeat match goal with
  | H : @eq Qc _ _ |- _ => apply Qc_eq_iff in H
  | H : not (@eq Qc _ _) |- _ => rewrite Qc_eq_iff in H
  end;
  rewrite ?Qc_eq_iff;
  repeat (progress (unfold Qcle, Qclt, Qcplus, Qcmult, Qcminus, Qcopp, Q2Qc in *;
                    cbn [this] in * ));
  repeat match goal with
  | H : context [Qred _] |- _ => rewrite Qred_correct in H
  | |- context [Qred _] => rewrite Qred_correct
  end.

(** Closed decidable facts are computed. *)
Ltac computed :=
  unfold Spec.risk_map_ok, Spec.overlay_ok, Spec.risk_map_zero;
  apply (bool_decide_unpack _); vm_compute; exact I.

Lemma of_Z_nonzero (z : Z) : z ≠ 0%Z → Num.of_Z z ≠ 0.
Proof.
  intros Hz H. unfold Num.of_Z in H. qc2q.
  unfold Qeq, inject_Z in H. cbn in H. lia.
Qed.

Lemma Qc_weight_ge (len risk : Qc) : 0 <= len → 0 <= risk → len <= len * (1 + risk).
Proof. intros Hl Hr. qc2q. nra. Qed.

Lemma Qc_weight_eq (len risk : Qc) :
  risk = 0 ∨ len = 0 → len * (1 + risk) = len.
Proof. intros [-> | ->]; ring. Qed.

Lemma Qc_zero_weight (len risk : Qc) : risk = 0 → len * (1 + risk) = len.
Proof. intros ->. ring. Qed.

(** ** The weighting loop *)

Section WeighterFacts.
Import Graph Routing.
Context (tile_edge_mapping : TileEdgeMapping) (tile_risks : TileRisks).

Lemma edge_risk_of_acc (cs : list Contribution) (acc : Qc) :
  fold_left
    (λ edge_risk tile_info,
       edge_risk + default 0 (tile_risks !! tile_id tile_info) * fraction tile_info)
    cs acc
  = acc + foldr Qcplus 0
            (map (λ c, default 0 (tile_risks !! tile_id c) * fraction c) cs).
Proof.
  revert acc. induction cs as [|c cs IH]; intros acc; simpl.
  - ring.
  - rewrite IH. ring.
Qed.

Lemma edge_risk_of_sum (cs : list Contribution) :
  edge_risk_of tile_risks cs
  = foldr Qcplus 0 (map (λ c, default 0 (tile_risks !! tile_id c) * fraction c) cs).
Proof. unfold edge_risk_of. rewrite edge_risk_of_acc. ring. Qed.

Lemma weight_edge_spec (id : edge_id) (data : EdgeData) :
  (weight_edge tile_edge_mapping tile_risks (id, data)).1
  = (id, set_attr "risk_weight"
           (get_attr data "length" 0 * (1 + Spec.risk_of tile_edge_mapping tile_risks id))
           (set_attr "risk" (Spec.risk_of tile_edge_mapping tile_risks id) data)).
Proof.
  unfold weight_edge, Spec.risk_of.
  destruct (tile_edge_mapping !! id) as [cs|]; simpl; [|done].
  by rewrite edge_risk_of_sum.
Qed.

Lemma weight_loop_from (es : list (edge_id * EdgeData)) (st : WeightLoop) :
  let st' := fold_left (weight_step tile_edge_mapping tile_risks) es st in
  done_edges st' = done_edges st ++ map (λ e, (weight_edge tile_edge_mapping tile_risks e).1) es
  ∧ edges_processed st' = (edges_processed st + List.length es)%nat.
Proof.
  revert st. induction es as [|e es IH]; intros st; simpl.
  - by rewrite app_nil_r, Nat.add_0_r.
  - destruct (IH (weight_step tile_edge_mapping tile_risks st e)) as [Hd Hp].
    rewrite Hd, Hp. unfold weight_step.
    destruct (weight_edge tile_edge_mapping tile_risks e) as [e' hit]; simpl.
    rewrite <- app_assoc. split; [done | lia].
Qed.

Lemma weight_loop_done (es : list (edge_id * EdgeData)) :
  done_edges (weight_loop tile_edge_mapping tile_risks es)
  = map (λ e, (weight_edge tile_edge_mapping tile_risks e).1) es.
Proof.
  unfold weight_loop.
  by destruct (weight_loop_from es (Build_WeightLoop [] 0 0)) as [-> _].
Qed.

Lemma weight_loop_processed (es : list (edge_id * EdgeData)) :
  edges_processed (weight_loop tile_edge_mapping tile_risks es) = List.length es.
Proof.
  unfold weight_loop.
  by destruct (weight_loop_from es (Build_WeightLoop [] 0 0)) as [_ ->].
Qed.

(** What the call does to the store: the graph at [G] gets its edges
    weighted, one by one and in place; without edges the summary raises. *)
Lemma apply_risk_weights_store (h : heap) (G : loc) (g : MultiDiGraph) :
  h !! G = Some g →
  apply_risk_weights h G tile_edge_mapping tile_risks
  = (<[G := {| nodes := nodes g;
               edges := map (λ e, (weight_edge tile_edge_mapping tile_risks e).1) (edges g) |}]> h,
     match edges g with
     | [] => Py.Raise Py.ZeroDivisionError
     | _ :: _ => Py.Ok G
     end).
Proof.
  intros Hg. unfold apply_risk_weights. rewrite Hg.
  rewrite weight_loop_done, weight_loop_processed.
  by destruct (edges g).
Qed.

End WeighterFacts.

Lemma risk_of_nonneg (tile_edge_mapping : Routing.TileEdgeMapping)
    (tile_risks : Routing.TileRisks) (id : Graph.edge_id) :
  Spec.risk_map_ok tile_risks → Spec.overlay_ok tile_edge_mapping →
  0 <= Spec.risk_of tile_edge_mapping tile_risks id.
Proof.
  intros Hr Ho. unfold Spec.risk_of.
  destruct (tile_edge_mapping !! id) as [cs|] eqn:Hcs; [|done].
  specialize (Ho _ _ Hcs). simpl in Ho. clear Hcs.
  induction Ho as [|c cs Hc _ IH]; simpl; [done|].
  assert (0 <= default 0 (tile_risks !! Routing.tile_id c)) as Ht.
  { destruct (tile_risks !! Routing.tile_id c) as [r|] eqn:Hl; simpl; [|done].
    by destruct (Hr _ _ Hl). }
  revert Ht Hc IH.
  generalize (default 0 (tile_risks !! Routing.tile_id c)) (Routing.fraction c)
             (foldr Qcplus 0
                (map (λ c, default 0 (tile_risks !! Routing.tile_id c) * Routing.fraction c) cs)).
  intros a b s Ha Hb Hs. qc2q. nra.
Qed.

(** ** C1: the postcondition of the Graph Weighter *)




Example scenario_risk :
  Spec.risk_of Scenario.one_edge_mapping Scenario.one_edge_risks (1, 2, 0)%Z = Num.frac 1 2
  ∧ Num.of_Z 600 * (1 + Num.frac 1 2) = Num.of_Z 900.
Proof. split; computed. Qed.

(** ** C4: what the weighting leaves alone *)

Section FrameFacts.
Import Graph Routing.
Context (tile_edge_mapping : TileEdgeMapping) (tile_risks : TileRisks).

Lemma weight_edge_frame (e : edge_id * EdgeData) :
  Spec.same_but_weights e (weight_edge tile_edge_mapping tile_risks e).1.
Proof.
  destruct e as [id data]. rewrite weight_edge_spec.
  repeat split; try done.
  intros k Hk Hk'. simpl. by rewrite !lookup_insert_ne.
Qed.

Lemma weighted_same_network (g : MultiDiGraph) :
  Spec.same_network g
    {| nodes := nodes g;
       edges := map (λ e, (weight_edge tile_edge_mapping tile_risks e).1) (edges g) |}.
Proof.
  split; [done|]. cbn [edges].
  induction (edges g) as [|e es IH]; constructor; [apply weight_edge_frame | done].
Qed.

Lemma copy_fresh (h : heap) (G : loc) (g : MultiDiGraph) :
  h !! G = Some g →
  ∃ G', copy h G = (<[G' := g]> h, Py.Ok G') ∧ h !! G' = None ∧ G' ≠ G.
Proof.
  intros Hg. exists (fresh (dom h)). unfold copy. rewrite Hg.
  assert (h !! fresh (dom h) = None) as Hf.
  { apply not_elem_of_dom. apply is_fresh. }
  split; [done|]. split; [done|]. intros Heq. rewrite Heq, Hg in Hf. done.
Qed.

End FrameFacts.

(** C4, as stated, fails: the call edits the graph object it is given.
    The returned reference is the argument itself, the graph stored there
    is no longer the one passed in, and an attribute that was there before
    the call ([risk], left by an earlier weighting) is overwritten. *)
Lemma C4_in_place_counterexample :
  (∃ h',
     Routing.apply_risk_weights (Scenario.store_of Scenario.one_edge) 1%positive
       Scenario.one_edge_mapping Scenario.one_edge_risks = (h', Py.Ok 1%positive)
     ∧ h' !! 1%positive ≠ Scenario.store_of Scenario.one_edge !! 1%positive)
  ∧ (∃ h' data data',
       Routing.apply_risk_weights (Scenario.store_of Scenario.weighted_before) 1%positive
         Scenario.one_edge_mapping Scenario.zero_risks = (h', Py.Ok 1%positive)
       ∧ Graph.edges Scenario.weighted_before = [((1, 2, 0)%Z, data)]
       ∧ Graph.edges <$> h' !! 1%positive = Some [((1, 2, 0)%Z, data')]
       ∧ Graph.num data !! "risk" = Some (Num.of_Z 7)
       ∧ Graph.num data' !! "risk" = Some 0).
Proof.
  split.
  - eexists. split.
    + rewrite (apply_risk_weights_store _ _ _ _ Scenario.one_edge); reflexivity.
    + rewrite lookup_insert_eq. unfold Scenario.store_of. rewrite lookup_singleton_eq.
      intros H.
      apply (f_equal (λ o, g ← o; e ← Graph.edges g !! 0%nat; Graph.num e.2 !! "risk")) in H.
      by vm_compute in H.
  - eexists _, _, _. split; [|split; [|split; [|split]]].
    + rewrite (apply_risk_weights_store _ _ _ _ Scenario.weighted_before); reflexivity.
    + reflexivity.
    + rewrite lookup_insert_eq. reflexivity.
    + reflexivity.
    + cbn. rewrite lookup_insert_ne; [|done]. rewrite lookup_insert_eq.
      refine (f_equal Some _). computed.
Qed.

(** C4 (amended): weighting edits the graph object it is given and only
    that object.  In the edited graph the nodes, the edges with their
    order and identifiers, the geometry, the textual attributes and every
    numeric attribute other than [risk] and [risk_weight] (so [length] and
    [travel_time]) are as before.  In [app.py] the weighting runs on a
    copy: there the shared network is left as it was and the result is a
    new graph object. *)
Theorem C4_apply_risk_weights_frame
    (h : Graph.heap) (G : Graph.loc) (g : Graph.MultiDiGraph)
    (tile_edge_mapping : Routing.TileEdgeMapping) (tile_risks : Routing.TileRisks) :
  h !! G = Some g →
  let direct := Routing.apply_risk_weights h G tile_edge_mapping tile_risks in
  let request := App.weight_request h G tile_edge_mapping tile_risks in
  (∀ l, l ≠ G → direct.1 !! l = h !! l)
  ∧ (∀ r, direct.2 = Py.Ok r → r = G)
  ∧ (∃ g', direct.1 !! G = Some g' ∧ Spec.same_network g g')
  ∧ request.1 !! G = Some g
  ∧ (∀ G', request.2 = Py.Ok G' →
       G' ≠ G ∧ h !! G' = None
       ∧ ∃ g', request.1 !! G' = Some g' ∧ Spec.same_network g g').
Proof.
  intros Hg direct request. subst direct request.
  rewrite (apply_risk_weights_store _ _ _ _ _ Hg). cbn [fst snd].
  split; [|split; [|split; [|split]]].
  - intros l Hl. by rewrite lookup_insert_ne.
  - destruct (Graph.edges g); [done|]. by intros r [= <-].
  - eexists. split; [apply lookup_insert_eq | apply weighted_same_network].
  - unfold App.weight_request.
    destruct (copy_fresh h G g Hg) as (G' & -> & Hfresh & Hne).
    rewrite (apply_risk_weights_store _ _ _ _ g) by apply lookup_insert_eq.
    cbn [fst]. by rewrite !lookup_insert_ne.
  - intros G2. unfold App.weight_request.
    destruct (copy_fresh h G g Hg) as (G' & -> & Hfresh & Hne).
    rewrite (apply_risk_weights_store _ _ _ _ g) by apply lookup_insert_eq.
    cbn [fst snd]. destruct (Graph.edges g) eqn:He; [done|]. intros [= <-].
    split; [done|]. split; [done|].
    eexists. split; [apply lookup_insert_eq|].
    rewrite <- He. apply weighted_same_network.
Qed.

Lemma C4_apply_risk_weights_frame_witness :
  let h := Scenario.store_of Scenario.one_edge in
  let direct :=
    Routing.apply_risk_weights h 1%positive Scenario.one_edge_mapping Scenario.one_edge_risks in
  let request :=
    App.weight_request h 1%positive Scenario.one_edge_mapping Scenario.one_edge_risks in
  (∀ l, l ≠ 1%positive → direct.1 !! l = h !! l)
  ∧ (∀ r, direct.2 = Py.Ok r → r = 1%positive)
  ∧ (∃ g', direct.1 !! 1%positive = Some g' ∧ Spec.same_network Scenario.one_edge g')
  ∧ request.1 !! 1%positive = Some Scenario.one_edge
  ∧ (∀ G', request.2 = Py.Ok G' →
       G' ≠ 1%positive ∧ h !! G' = None
       ∧ ∃ g', request.1 !! G' = Some g' ∧ Spec.same_network Scenario.one_edge g').
Proof.
  apply (C4_apply_risk_weights_frame (Scenario.store_of Scenario.one_edge) 1%positive
           Scenario.one_edge Scenario.one_edge_mapping Scenario.one_edge_risks).
  reflexivity.
Defined.

(** ** C3: with a RiskMap that is 0 everywhere, the two routes coincide *)

Section ZeroRisk.
Import Graph Routing.
Context (tile_edge_mapping : TileEdgeMapping) (tile_risks : TileRisks).
Hypothesis Hzero : Spec.risk_map_zero tile_risks.

Lemma zero_tile_risk (t : string) : default 0 (tile_risks !! t) = 0.
Proof.
  destruct (tile_risks !! t) as [r|] eqn:Ht; [|done].
  exact (Hzero _ _ Ht).
Qed.

Lemma zero_risk_of (id : edge_id) : Spec.risk_of tile_edge_mapping tile_risks id = 0.
Proof.
  unfold Spec.risk_of. destruct (tile_edge_mapping !! id) as [cs|]; [|done].
  induction cs as [|c cs IH]; simpl; [done|].
  rewrite IH, zero_tile_risk. ring.
Qed.

(** The two attributes the planner may be asked to minimise have the same
    value on a weighted edge that carries a length. *)
Lemma zero_risk_weight_is_length (e : edge_id * EdgeData) :
  is_Some (num e.2 !! "length") →
  let e' := (weight_edge tile_edge_mapping tile_risks e).1 in
  get_attr e'.2 "risk_weight" 1 = get_attr e'.2 "length" 1.
Proof.
  destruct e as [id data]. intros [len Hlen]. cbn [snd] in Hlen.
  rewrite weight_edge_spec.
  unfold get_attr. cbn [snd set_attr num].
  rewrite lookup_insert_eq, !lookup_insert_ne, Hlen by done.
  cbn [default from_option Datatypes.id]. rewrite zero_risk_of. ring.
Qed.

Lemma zero_risk_weighted_view (g : MultiDiGraph) :
  Forall (λ e, is_Some (num e.2 !! "length")) (edges g) →
  let g' := {| nodes := nodes g;
               edges := map (λ e, (weight_edge tile_edge_mapping tile_risks e).1) (edges g) |} in
  weighted_view g' "risk_weight" = weighted_view g' "length".
Proof.
  intros Hlen g'. unfold weighted_view. subst g'. cbn [edges].
  induction Hlen as [|e es He _ IH]; [done|].
  cbn [map]. rewrite IH. f_equal. f_equal.
  by apply zero_risk_weight_is_length.
Qed.

End ZeroRisk.

(** C3: let the RiskMap be 0 on every tile and let every edge of the
    network carry a length (section 3).  Then weighting succeeds, every
    edge gets risk 0, and for every origin and destination
    [find_safe_route] returns the same route (or the same "no route")
    under [risk_weight] as under [length], whatever the nearest-node and
    shortest-path searches of the library are. *)
Theorem C3_zero_risk_same_route
    (nearest_nodes : Graph.MultiDiGraph → Qc → Qc → Graph.node)
    (search : list Graph.node → list (Graph.edge_id * Qc) → Graph.node → Graph.node
              → option (list Graph.node))
    (h : Graph.heap) (G : Graph.loc) (g : Graph.MultiDiGraph)
    (tile_edge_mapping : Routing.TileEdgeMapping) (tile_risks : Routing.TileRisks) :
  h !! G = Some g →
  Graph.edges g ≠ [] →
  Forall (λ e, is_Some (Graph.num e.2 !! "length")) (Graph.edges g) →
  Spec.risk_map_zero tile_risks →
  ∃ g_risk,
    Routing.apply_risk_weights h G tile_edge_mapping tile_risks = (<[G := g_risk]> h, Py.Ok G)
    ∧ Forall (λ e, Graph.num e.2 !! "risk" = Some 0) (Graph.edges g_risk)
    ∧ ∀ origin_point dest_point,
        Routing.find_safe_route nearest_nodes search g_risk origin_point dest_point "risk_weight"
        = Routing.find_safe_route nearest_nodes search g_risk origin_point dest_point "length".
Proof.
  intros Hg Hne Hlen Hzero.
  exists (Spec.weighted tile_edge_mapping tile_risks g). unfold Spec.weighted.
  split; [|split].
  - rewrite (apply_risk_weights_store _ _ _ _ _ Hg).
    destruct (Graph.edges g); [done | reflexivity].
  - cbn [Graph.edges]. apply Forall_fmap, Forall_forall. intros [id data] _.
    cbn [compose]. rewrite weight_edge_spec, zero_risk_of by done.
    cbn. by rewrite lookup_insert_ne, lookup_insert_eq.
  - intros origin_point dest_point. unfold Routing.find_safe_route, Routing.shortest_path.
    by rewrite zero_risk_weighted_view.
Qed.

Lemma C3_zero_risk_same_route_witness :
  ∃ g_risk,
    Routing.apply_risk_weights (Scenario.store_of Scenario.one_edge) 1%positive
      Scenario.one_edge_mapping Scenario.zero_risks
    = (<[1%positive := g_risk]> (Scenario.store_of Scenario.one_edge), Py.Ok 1%positive)
    ∧ Forall (λ e, Graph.num e.2 !! "risk" = Some 0) (Graph.edges g_risk)
    ∧ ∀ origin_point dest_point,
        Routing.find_safe_route Osmnx.nearest_nodes Osmnx.dijkstra g_risk
          origin_point dest_point "risk_weight"
        = Routing.find_safe_route Osmnx.nearest_nodes Osmnx.dijkstra g_risk
            origin_point dest_point "length".
Proof.
  apply (C3_zero_risk_same_route Osmnx.nearest_nodes Osmnx.dijkstra
           (Scenario.store_of Scenario.one_edge) 1%positive Scenario.one_edge
           Scenario.one_edge_mapping Scenario.zero_risks).
  - reflexivity.
  - discriminate.
  - repeat constructor; by eexists.
  - computed.
Defined.

(** The scenario of the specification, end to end with the searches above:
    both selectors give the single-edge route, of length 600 and cumulative
    risk 300; against the direction of the edge there is no route. *)
Example scenario_routes :
  let h' := (Routing.apply_risk_weights (Scenario.store_of Scenario.one_edge) 1%positive
               Scenario.one_edge_mapping Scenario.one_edge_risks).1 in
  let g := default Scenario.one_edge (h' !! 1%positive) in
  let route w p q := Routing.find_safe_route Osmnx.nearest_nodes Osmnx.dijkstra g p q w in
  route "risk_weight" (0, 0) (0, Num.of_Z 600) = Some [1; 2]%Z
  ∧ route "length" (0, 0) (0, Num.of_Z 600) = Some [1; 2]%Z
  ∧ route "length" (0, Num.of_Z 600) (0, 0) = None
  ∧ (m ← Routing.calculate_route_metrics g (Some [1; 2]%Z);
     Py.Ok (this (Routing.length m), this (Routing.cumulative_risk m), Routing.num_edges m))
    = Py.Ok (600 # 1, 300 # 1, 1%nat).
Proof. by vm_compute. Qed.

(** ** Route metrics *)

Section MetricsFacts.
Import Graph Loops Routing.
Context (G : MultiDiGraph).

Lemma getitem_first (k : edge_key) (d : EdgeData) (rest : list (edge_key * EdgeData)) :
  getitem ((k, d) :: rest) k = Py.Ok d.
Proof. unfold getitem. cbn. by rewrite decide_True. Qed.

Lemma metrics_step_pair (route : list node) (acc : RouteMetrics) (i : nat) (u v : node) :
  route !! i = Some u → route !! (i + 1)%nat = Some v →
  metrics_step G route acc i = Py.Ok (Spec.add_edge acc (Spec.first_edge G (u, v))).
Proof.
  intros Hu Hv. unfold metrics_step, index. rewrite Hu, Hv. cbn.
  unfold get_edge_data, Spec.first_edge. cbn [fst snd].
  destruct (parallel G u v) as [|[k d] rest]; [done|].
  cbn. by rewrite getitem_first.
Qed.

Lemma metrics_loop_from (pre rest : list node) (acc : RouteMetrics) :
  for_each (metrics_step G (pre ++ rest))
    (seq (List.length pre) (List.length rest - 1)) acc
  = Py.Ok (fold_left Spec.add_edge (map (Spec.first_edge G) (Spec.pairs rest)) acc).
Proof.
  revert pre acc. induction rest as [|u rest IH]; intros pre acc; [done|].
  destruct rest as [|v rest]; [done|].
  replace (List.length (u :: v :: rest) - 1)%nat with (S (List.length (v :: rest) - 1))
    by (cbn; lia).
  cbn [seq for_each].
  rewrite (metrics_step_pair _ _ _ u v).
  - cbn [mbind result_bind Py.bind].
    specialize (IH (pre ++ [u]) (Spec.add_edge acc (Spec.first_edge G (u, v)))).
    rewrite <- app_assoc, length_app in IH. cbn [app List.length] in IH.
    rewrite Nat.add_1_r in IH. exact IH.
  - by rewrite lookup_app_r, Nat.sub_diag.
  - rewrite lookup_app_r by lia.
    by replace (List.length pre + 1 - List.length pre)%nat with 1%nat by lia.
Qed.

Lemma omap_fmap_id {A B} (f : A → option B) (l : list A) :
  omap Datatypes.id (map f l) = omap f l.
Proof. induction l as [|a l IH]; cbn; [done|]. destruct (f a); cbn; by rewrite ?IH. Qed.

Lemma add_edge_none (ds : list (option EdgeData)) (acc : RouteMetrics) :
  fold_left Spec.add_edge ds acc = fold_left (λ a d, Spec.add_edge a (Some d)) (omap Datatypes.id ds) acc.
Proof.
  revert acc. induction ds as [|[d|] ds IH]; intros acc; cbn; [done| apply IH | apply IH].
Qed.

Lemma add_edges_sum (ds : list EdgeData) (acc : RouteMetrics) :
  fold_left (λ a d, Spec.add_edge a (Some d)) ds acc
  = {| length := length acc + length (Spec.metrics_over ds);
       cumulative_risk := cumulative_risk acc + cumulative_risk (Spec.metrics_over ds);
       travel_time := travel_time acc + travel_time (Spec.metrics_over ds);
       num_edges := num_edges acc + num_edges (Spec.metrics_over ds) |}.
Proof.
  revert acc. induction ds as [|d ds IH]; intros [l c t n]; cbn.
  - f_equal; try ring. lia.
  - rewrite IH. cbn. f_equal; try ring. lia.
Qed.

(** The loop computes the sums of the specification over the first
    parallel edge of each consecutive pair that has an edge. *)
Lemma calculate_route_metrics_sums (route : list node) :
  calculate_route_metrics G (Some route)
  = Py.Ok (Spec.metrics_over (omap (Spec.first_edge G) (Spec.pairs route))).
Proof.
  unfold calculate_route_metrics.
  destruct (List.length route <? 2)%nat eqn:Hlen.
  - apply Nat.ltb_lt in Hlen. destruct route as [|u [|v route]]; cbn in *; [done|done|lia].
  - pose proof (metrics_loop_from [] route zero_metrics) as Hloop.
    cbn [app List.length seq] in Hloop. rewrite Hloop.
    rewrite add_edge_none, add_edges_sum, omap_fmap_id. f_equal.
    destruct (Spec.metrics_over _) as [l c t n]. cbn. f_equal; ring.
Qed.

Lemma pairs_length (route : list node) :
  List.length (Spec.pairs route) = (List.length route - 1)%nat.
Proof.
  induction route as [|u [|v route] IH]; [done|done|].
  cbn [Spec.pairs List.length] in *. lia.
Qed.

Lemma pairs_split (before after : list node) (u v : node) :
  Spec.pairs (before ++ u :: v :: after)
  = Spec.pairs (before ++ [u]) ++ (u, v) :: Spec.pairs (v :: after).
Proof.
  induction before as [|w before IH]; [done|].
  destruct before as [|w' before]; [done|].
  change (Spec.pairs ((w :: w' :: before) ++ u :: v :: after))
    with ((w, w') :: Spec.pairs ((w' :: before) ++ u :: v :: after)).
  rewrite IH. done.
Qed.

Lemma omap_length_le {A B} (f : A → option B) (l : list A) :
  (List.length (omap f l) ≤ List.length l)%nat.
Proof. induction l as [|a l IH]; cbn; [done|]. destruct (f a); cbn; lia. Qed.

Lemma no_edge_no_first (u v : node) :
  get_edge_data G u v = None → Spec.first_edge G (u, v) = None.
Proof.
  unfold Spec.first_edge, get_edge_data. cbn [fst snd].
  by destruct (parallel G u v).
Qed.

End MetricsFacts.

(** ** C10: the metrics are total and skip pairs without an edge *)

(** C10: for every graph and every route given to it, [None], empty, a
    single node or longer, [calculate_route_metrics] returns a record and
    raises nothing.  [None] and routes shorter than 2 give the all-zero
    record.  Otherwise the record sums over the consecutive pairs that have
    an edge; a pair without an edge adds nothing, so [num_edges] is at most
    [len(route) - 1] and can be smaller (route 1, 2, 3 where no edge leaves
    node 2: one edge counted for two pairs). *)
Theorem C10_calculate_route_metrics_total (G : Graph.MultiDiGraph) :
  Routing.calculate_route_metrics G None = Py.Ok Routing.zero_metrics
  ∧ Routing.calculate_route_metrics G (Some []) = Py.Ok Routing.zero_metrics
  ∧ (∀ n, Routing.calculate_route_metrics G (Some [n]) = Py.Ok Routing.zero_metrics)
  ∧ (∀ route,
       let taken := omap (Spec.first_edge G) (Spec.pairs route) in
       Routing.calculate_route_metrics G (Some route) = Py.Ok (Spec.metrics_over taken)
       ∧ (Routing.num_edges (Spec.metrics_over taken) ≤ List.length route - 1)%nat
       ∧ ∀ u v before after,
           route = before ++ u :: v :: after →
           Graph.get_edge_data G u v = None →
           Spec.metrics_over taken
           = Spec.metrics_over (omap (Spec.first_edge G)
                                  (Spec.pairs (before ++ [u]) ++ Spec.pairs (v :: after))))
  ∧ (∃ m, Routing.calculate_route_metrics Scenario.parallel_edges (Some [1; 2; 3]%Z) = Py.Ok m
          ∧ Routing.num_edges m = 1%nat
          ∧ (Routing.num_edges m < List.length [1; 2; 3]%Z - 1)%nat).
Proof.
  split; [done|]. split; [done|]. split; [done|]. split.
  - intros route taken. split; [apply calculate_route_metrics_sums|]. split.
    + subst taken. cbn [Spec.metrics_over Routing.num_edges].
      rewrite <- pairs_length. apply omap_length_le.
    + intros u v before after -> Hnone. subst taken.
      rewrite pairs_split, !omap_app. cbn [omap list_omap].
      by rewrite (no_edge_no_first _ _ _ Hnone).
  - eexists. split; [apply calculate_route_metrics_sums|].
    split; [by vm_compute | vm_compute; lia].
Qed.

(** ** C7: which parallel edge the metrics take *)

Section ParallelFacts.
Import Graph Routing.
Context (G : MultiDiGraph).

Lemma get_edge_data_parallel (u v : node) (kd : list (edge_key * EdgeData)) :
  get_edge_data G u v = Some kd → parallel G u v = kd.
Proof. unfold get_edge_data. destruct (parallel G u v); [done | by intros [= <-]]. Qed.

Lemma parallel_in_view (u v : node) (k : edge_key) (d : EdgeData) (weight : string) :
  (k, d) ∈ parallel G u v → ((u, v, k), get_attr d weight 1) ∈ weighted_view G weight.
Proof.
  unfold parallel, weighted_view. rewrite list_elem_of_omap.
  intros ([[[u' v'] k'] d'] & Hin & Heq).
  case_bool_decide as Huv; [|done]. destruct Huv as [-> ->].
  injection Heq as -> ->.
  apply list_elem_of_fmap. by exists ((u, v, k), d).
Qed.

End ParallelFacts.

(** C7, as stated, fails for the metrics.  Between nodes 1 and 2 run two
    parallel edges: key 0, inserted first, of 100 m, and key 1 of 50 m.
    After weighting (no risk anywhere, so [risk_weight] is the length) the
    edge of key 1 is the lightest under both selectors and the edge of key
    0 is not; the metrics of the route 1, 2 are those of the edge of key 0:
    length 100, not 50. *)
Lemma C7_first_edge_counterexample :
  let g := Spec.weighted ∅ ∅ Scenario.parallel_edges in
  ∃ d0 d1,
    Graph.get_edge_data g 1%Z 2%Z = Some [(0%Z, d0); (1%Z, d1)]
    ∧ Spec.lightest "length" [(0%Z, d0); (1%Z, d1)] d1
    ∧ Spec.lightest "risk_weight" [(0%Z, d0); (1%Z, d1)] d1
    ∧ ¬ Spec.lightest "length" [(0%Z, d0); (1%Z, d1)] d0
    ∧ ¬ Spec.lightest "risk_weight" [(0%Z, d0); (1%Z, d1)] d0
    ∧ Routing.calculate_route_metrics g (Some [1; 2]%Z) = Py.Ok (Spec.metrics_over [d0])
    ∧ Routing.length (Spec.metrics_over [d0]) = Num.of_Z 100
    ∧ Routing.length (Spec.metrics_over [d1]) = Num.of_Z 50.
Proof.
  intros g. eexists _, _. split; [reflexivity|].
  split; [unfold Spec.lightest; computed|].
  split; [unfold Spec.lightest; computed|].
  split.
  { unfold Spec.lightest. rewrite Forall_cons, Forall_singleton. intros [_ H].
    revert H. apply (bool_decide_unpack _). by vm_compute. }
  split.
  { unfold Spec.lightest. rewrite Forall_cons, Forall_singleton. intros [_ H].
    revert H. apply (bool_decide_unpack _). by vm_compute. }
  split; [apply calculate_route_metrics_sums|].
  split; computed.
Qed.

(** C7 (amended): when parallel edges run between two consecutive nodes
    of a route, the edge taken for the route's length, cumulative_risk,
    travel_time and edge count is the one under the first key of
    [G.get_edge_data(u, v)], whatever the weights of the others.  The
    shortest-path search, for its part, is handed every parallel edge with
    its own weight. *)
Theorem C7_metrics_take_first_parallel_edge
    (G : Graph.MultiDiGraph) (u v : Graph.node) (k : Graph.edge_key)
    (d : Graph.EdgeData) (rest : list (Graph.edge_key * Graph.EdgeData)) :
  Graph.get_edge_data G u v = Some ((k, d) :: rest) →
  Spec.first_edge G (u, v) = Some d
  ∧ Routing.calculate_route_metrics G (Some [u; v]) = Py.Ok (Spec.metrics_over [d])
  ∧ (∀ route,
       Routing.calculate_route_metrics G (Some route)
       = Py.Ok (Spec.metrics_over (omap (Spec.first_edge G) (Spec.pairs route))))
  ∧ (∀ k' d' weight,
       (k', d') ∈ (k, d) :: rest →
       ((u, v, k'), Graph.get_attr d' weight 1) ∈ Routing.weighted_view G weight).
Proof.
  intros Hkd. apply get_edge_data_parallel in Hkd.
  assert (Spec.first_edge G (u, v) = Some d) as Hfirst.
  { unfold Spec.first_edge. cbn [fst snd]. by rewrite Hkd. }
  split; [done|]. split; [|split].
  - rewrite calculate_route_metrics_sums. cbn [Spec.pairs omap list_omap].
    by rewrite Hfirst.
  - apply calculate_route_metrics_sums.
  - intros k' d' weight Hin. apply parallel_in_view. by rewrite Hkd.
Qed.

Lemma C7_metrics_take_first_parallel_edge_witness :
  let G := Scenario.parallel_edges in
  let d := Scenario.street (Num.of_Z 100) (Num.of_Z 10) in
  let rest := [(1%Z, Scenario.street (Num.of_Z 50) (Num.of_Z 5))] in
  Spec.first_edge G (1%Z, 2%Z) = Some d
  ∧ Routing.calculate_route_metrics G (Some [1%Z; 2%Z]) = Py.Ok (Spec.metrics_over [d])
  ∧ (∀ route,
       Routing.calculate_route_metrics G (Some route)
       = Py.Ok (Spec.metrics_over (omap (Spec.first_edge G) (Spec.pairs route))))
  ∧ (∀ k' d' weight,
       (k', d') ∈ (0%Z, d) :: rest →
       ((1%Z, 2%Z, k'), Graph.get_attr d' weight 1) ∈ Routing.weighted_view G weight).
Proof.
  apply (C7_metrics_take_first_parallel_edge Scenario.parallel_edges 1%Z 2%Z 0%Z
           (Scenario.street (Num.of_Z 100) (Num.of_Z 10))
           [(1%Z, Scenario.street (Num.of_Z 50) (Num.of_Z 5))]).
  reflexivity.
Defined.

(** ** C9: the comparator never divides by zero *)

Lemma div_nonzero (a b : Qc) : b ≠ 0 → Py.div a b = Py.Ok (a / b).
Proof. intros Hb. unfold Py.div, Num.eqb. by rewrite bool_decide_eq_false_2. Qed.

Lemma pos_nonzero (b : Qc) : 0 < b → b ≠ 0.
Proof. intros Hb ->. by apply Qclt_not_eq in Hb. Qed.

(** C9: for every pair of RouteMetrics, [calculate_risk_reduction] returns
    a record and raises nothing.  Its [risk_reduction_pct] is
    (fast.cumulative_risk - safe.cumulative_risk) / fast.cumulative_risk *
    100 when fast.cumulative_risk is not 0, and 0 when it is 0; its
    [length_increase_pct] is 0 when fast.length is 0 (and the analogous
    quotient when fast.length is positive). *)
Theorem C9_calculate_risk_reduction_safe (safe_metrics fast_metrics : Routing.RouteMetrics) :
  let fast_risk := Routing.cumulative_risk fast_metrics in
  let safe_risk := Routing.cumulative_risk safe_metrics in
  let fast_length := Routing.length fast_metrics in
  let safe_length := Routing.length safe_metrics in
  ∃ r,
    Routing.calculate_risk_reduction safe_metrics fast_metrics = Py.Ok r
    ∧ (fast_risk ≠ 0 →
       Routing.risk_reduction_pct r = (fast_risk - safe_risk) / fast_risk * Num.hundred)
    ∧ (fast_risk = 0 → Routing.risk_reduction_pct r = 0)
    ∧ (fast_length = 0 → Routing.length_increase_pct r = 0)
    ∧ (0 < fast_length →
       Routing.length_increase_pct r = (safe_length - fast_length) / fast_length * Num.hundred)
    ∧ Routing.absolute_risk_reduction r = fast_risk - safe_risk
    ∧ Routing.length_difference_m r = safe_length - fast_length.
Proof.
  intros fast_risk safe_risk fast_length safe_length.
  unfold Routing.calculate_risk_reduction.
  fold fast_risk safe_risk fast_length safe_length.
  unfold Num.eqb, Num.gtb.
  destruct (decide (fast_risk = 0)) as [Hr|Hr];
    destruct (decide (0 < fast_length)) as [Hl|Hl].
  - rewrite (bool_decide_eq_true_2 _ Hr), (bool_decide_eq_true_2 _ Hl).
    rewrite (div_nonzero _ _ (pos_nonzero _ Hl)). cbn.
    eexists. split; [reflexivity|]. cbn. repeat split; try done.
    intros Hz. by destruct (pos_nonzero _ Hl).
  - rewrite (bool_decide_eq_true_2 _ Hr), (bool_decide_eq_false_2 _ Hl). cbn.
    eexists. split; [reflexivity|]. cbn. repeat split; done.
  - rewrite (bool_decide_eq_false_2 _ Hr), (bool_decide_eq_true_2 _ Hl).
    rewrite (div_nonzero _ _ Hr), (div_nonzero _ _ (pos_nonzero _ Hl)). cbn.
    eexists. split; [reflexivity|]. cbn. repeat split; try done.
    intros Hz. by destruct (pos_nonzero _ Hl).
  - rewrite (bool_decide_eq_false_2 _ Hr), (bool_decide_eq_false_2 _ Hl).
    rewrite (div_nonzero _ _ Hr). cbn.
    eexists. split; [reflexivity|]. cbn. repeat split; done.
Qed.

(** A fast route without risk and without length against any safe route:
    both percentages are 0. *)
Example risk_reduction_of_zero (safe_metrics : Routing.RouteMetrics) :
  ∃ r, Routing.calculate_risk_reduction safe_metrics Routing.zero_metrics = Py.Ok r
       ∧ Routing.risk_reduction_pct r = 0 ∧ Routing.length_increase_pct r = 0.
Proof. eexists. split; [reflexivity|]. by split. Qed.

(** ** C2: the fractions of an overlay entry sum to 1 *)

Section SumFacts.

Lemma sum_from (l : list Qc) (a : Qc) : fold_left Qcplus l a = a + Num.sum l.
Proof.
  unfold Num.sum. revert a. induction l as [|q l IH]; intros a; cbn.
  - ring.
  - rewrite (IH (a + q)), (IH (0 + q)). ring.
Qed.

Lemma sum_cons (q : Qc) (l : list Qc) : Num.sum (q :: l) = q + Num.sum l.
Proof. unfold Num.sum at 1. cbn. rewrite sum_from. ring. Qed.

Lemma sum_pos (l : list Qc) : l ≠ [] → Forall (λ q, 0 < q) l → 0 < Num.sum l.
Proof.
  intros Hne Hpos. destruct Hpos as [|q l Hq Hl]; [done|]. clear Hne.
  rewrite sum_cons. apply Qcplus_pos_nonneg; [done|].
  induction Hl as [|q' l Hq' _ IH]; [done|].
  rewrite sum_cons. apply Qcplus_nonneg_nonneg; [|done].
  by apply Qclt_le_weak.
Qed.

Lemma sum_scaled (l : list Qc) (t : Qc) :
  t ≠ 0 → Num.sum (map (λ q, q / t) l) = Num.sum l / t.
Proof.
  intros Ht. induction l as [|q l IH]; cbn [map].
  - unfold Num.sum. cbn. by field.
  - rewrite !sum_cons, IH. by field.
Qed.

Lemma within_refl (tol a : Qc) : 0 <= tol → Spec.within tol a a.
Proof.
  intros Htol. unfold Spec.within.
  replace (a - a) with 0 by ring. done.
Qed.

End SumFacts.

Section OverlayFacts.
Import Graph Loops Routing PrepareNetwork.
Context {line polygon : Type}.
Context (line_length : line → Qc).
Context (possible_matches : line → list (string * polygon)).
Context (intersects : line → polygon → bool).
Context (intersection : line → polygon → Py.result Shape).

Lemma contribution_positive (edge_geom : line) (edge_length : Qc)
    (tile_row : string * polygon) (c : Contribution) :
  0 < edge_length →
  contribution_of intersects intersection edge_geom edge_length tile_row = Some c →
  0 < fraction c.
Proof.
  intros Hlen. unfold contribution_of.
  destruct (intersects edge_geom tile_row.2); [|done].
  destruct (intersection edge_geom tile_row.2) as [inter|e]; cbn; [|done].
  destruct (is_empty inter); [done|].
  set (il := match shape_length inter with
             | Some l => l
             | None => if String.eqb (geom_type inter) "Point" then 0 else 0
             end).
  unfold Num.gtb. case_bool_decide as Hil; cbn; [|done].
  rewrite (div_nonzero _ _ (pos_nonzero _ Hlen)). cbn.
  intros [= <-]. cbn. unfold Qcdiv.
  apply Qcmult_pos_pos; [done | by apply Qcinv_pos].
Qed.

Lemma contributions_positive (edge_geom : line) (edge_length : Qc)
    (rows : list (string * polygon)) :
  0 < edge_length →
  Forall (λ c, 0 < fraction c)
    (omap (contribution_of intersects intersection edge_geom edge_length) rows).
Proof.
  intros Hlen. apply Forall_forall. intros c Hc.
  apply list_elem_of_omap in Hc as (row & _ & Hrow).
  by eapply contribution_positive.
Qed.

Lemma scale_all (total : Qc) (tcs : list Contribution) :
  total ≠ 0 →
  comprehension
    (λ tc, f ← Py.div (fraction tc) total;
           Py.Ok {| tile_id := tile_id tc; fraction := f |}) tcs
  = Py.Ok (map (λ tc, {| tile_id := tile_id tc; fraction := fraction tc / total |}) tcs).
Proof.
  intros Ht. induction tcs as [|tc tcs IH]; [done|].
  cbn [comprehension map]. rewrite (div_nonzero _ _ Ht). cbn. by rewrite IH.
Qed.

(** Normalising always returns; positive fractions come out summing to 1. *)
Lemma normalize_returns (tcs : list Contribution) :
  ∃ tcs', normalize tcs = Py.Ok tcs' ∧ List.length tcs' = List.length tcs.
Proof.
  unfold normalize, Num.gtb. case_bool_decide as Ht.
  - rewrite (scale_all _ _ (pos_nonzero _ Ht)). eexists. split; [done|].
    by rewrite length_map.
  - by eexists.
Qed.

Lemma normalize_normalized (tcs tcs' : list Contribution) :
  tcs ≠ [] → Forall (λ c, 0 < fraction c) tcs →
  normalize tcs = Py.Ok tcs' → Spec.normalized tcs'.
Proof.
  intros Hne Hpos. unfold normalize.
  set (total := Num.sum (map fraction tcs)).
  assert (0 < total) as Ht.
  { apply sum_pos; [by destruct tcs | by apply Forall_fmap]. }
  unfold Num.gtb. rewrite (bool_decide_eq_true_2 _ Ht).
  rewrite (scale_all _ _ (pos_nonzero _ Ht)). intros [= <-].
  assert (Num.sum (map fraction
            (map (λ tc, {| tile_id := tile_id tc; fraction := fraction tc / total |}) tcs))
          = 1) as Hsum.
  { rewrite map_map. cbn [fraction].
    rewrite <- (map_map fraction (λ q, q / total)), sum_scaled by by apply pos_nonzero.
    fold total. field. by apply pos_nonzero. }
  split; [by destruct tcs|]. split; [|split; [done|]].
  - apply Forall_fmap. eapply Forall_impl; [exact Hpos|]. intros c Hc. cbn.
    unfold Qcdiv. apply Qcmult_pos_pos; [done | by apply Qcinv_pos].
  - rewrite Hsum. by apply within_refl.
Qed.

(** One row keeps the invariant of the map, and never raises. *)
Lemma mapping_step_invariant (st : TileEdgeMapping * nat) (edge_row : edge_id * line) :
  0 <= line_length edge_row.2 →
  map_Forall (λ _ tcs, Spec.normalized tcs) st.1 →
  ∃ st', mapping_step line_length possible_matches intersects intersection st edge_row
         = Py.Ok st'
         ∧ map_Forall (λ _ tcs, Spec.normalized tcs) st'.1.
Proof.
  destruct edge_row as [edge_idx edge_geom]. cbn [snd]. intros Hlen Hinv.
  unfold mapping_step, Num.eqb. case_bool_decide as Hz; [by eexists|].
  assert (0 < line_length edge_geom) as Hpos.
  { apply Qcle_lt_or_eq in Hlen as [?|Heq]; [done | by destruct Hz]. }
  pose proof (contributions_positive edge_geom _ (possible_matches edge_geom) Hpos) as Hall.
  destruct (omap _ (possible_matches edge_geom)) as [|tc tcs] eqn:Homap; [by eexists|].
  destruct (normalize_returns (tc :: tcs)) as (tcs' & Hn & _). rewrite Hn. cbn.
  eexists. split; [done|]. cbn [fst].
  apply map_Forall_insert_2; [|done].
  by apply (normalize_normalized (tc :: tcs)).
Qed.

Lemma mapping_loop_invariant (edges_gdf : list (edge_id * line)) (st : TileEdgeMapping * nat) :
  Forall (λ row, 0 <= line_length row.2) edges_gdf →
  map_Forall (λ _ tcs, Spec.normalized tcs) st.1 →
  ∃ st', for_each (mapping_step line_length possible_matches intersects intersection)
           edges_gdf st = Py.Ok st'
         ∧ map_Forall (λ _ tcs, Spec.normalized tcs) st'.1.
Proof.
  intros Hlen. revert st. induction Hlen as [|row rows Hrow _ IH]; intros st Hinv.
  - by exists st.
  - destruct (mapping_step_invariant st row Hrow Hinv) as (st1 & Hstep & Hinv1).
    cbn [for_each]. rewrite Hstep. cbn. by apply IH.
Qed.

End OverlayFacts.

(** C2: let the geometry engine be any, with lengths of edges that are
    not negative.  On a network with at least one edge the overlay mapping
    is produced, and every edge present in it has at least one
    contribution, positive fractions, and fractions that sum to 1 (so, to
    1 within 1e-6): each was divided by the total before normalisation. *)
Theorem C2_overlay_fractions_sum_to_one
    {line polygon : Type}
    (line_length : line → Qc)
    (possible_matches : line → list (string * polygon))
    (intersects : line → polygon → bool)
    (intersection : line → polygon → Py.result PrepareNetwork.Shape)
    (edges_gdf : list (Graph.edge_id * line)) :
  edges_gdf ≠ [] →
  Forall (λ row, 0 <= line_length row.2) edges_gdf →
  ∃ edge_tile_mapping,
    PrepareNetwork.create_tile_edge_mapping line_length possible_matches intersects
      intersection edges_gdf = Py.Ok edge_tile_mapping
    ∧ ∀ edge_id tile_contributions,
        edge_tile_mapping !! edge_id = Some tile_contributions →
        tile_contributions ≠ []
        ∧ Forall (λ c, 0 < Routing.fraction c) tile_contributions
        ∧ Num.sum (map Routing.fraction tile_contributions) = 1
        ∧ Spec.within Spec.tolerance (Num.sum (map Routing.fraction tile_contributions)) 1.
Proof.
  intros Hne Hlen.
  destruct (mapping_loop_invariant line_length possible_matches intersects intersection
              edges_gdf (∅, 0%nat) Hlen) as (st & Hloop & Hinv).
  { apply map_Forall_empty. }
  exists st.1. split.
  - unfold PrepareNetwork.create_tile_edge_mapping.
    destruct edges_gdf as [|row rows]; [done|]. rewrite Hloop. cbn.
    rewrite div_nonzero; [done|].
    apply of_Z_nonzero. cbn [List.length]. lia.
  - intros edge_id tcs Hin. exact (Hinv _ _ Hin).
Qed.

Lemma C2_overlay_fractions_witness :
  ∃ edge_tile_mapping,
    Scenario.axis_mapping Scenario.axis_edges = Py.Ok edge_tile_mapping
    ∧ ∀ edge_id tile_contributions,
        edge_tile_mapping !! edge_id = Some tile_contributions →
        tile_contributions ≠ []
        ∧ Forall (λ c, 0 < Routing.fraction c) tile_contributions
        ∧ Num.sum (map Routing.fraction tile_contributions) = 1
        ∧ Spec.within Spec.tolerance (Num.sum (map Routing.fraction tile_contributions)) 1.
Proof.
  apply (C2_overlay_fractions_sum_to_one Geometry1D.seg_length
           (Geometry1D.seg_candidates Scenario.axis_tiles) Geometry1D.seg_intersects
           Geometry1D.seg_intersection Scenario.axis_edges).
  - discriminate.
  - computed.
Defined.

(** The overlay of the scenario: the edge is half in each of the two
    tiles, and an edge without length is left out of the map. *)
Example scenario_overlay :
  (m ← Scenario.axis_mapping Scenario.axis_edges;
   Py.Ok (map (λ kv, (kv.1, map (λ c, (Routing.tile_id c, this (Routing.fraction c))) kv.2))
              (map_to_list m)))
  = Py.Ok [((1, 2, 0)%Z, [("tile_0_0", 1 # 2); ("tile_1_0", 1 # 2)])]
  ∧ (m ← Scenario.axis_mapping [((3, 4, 0)%Z, (Num.of_Z 7, Num.of_Z 7))];
     Py.Ok (map_to_list m)) = Py.Ok [].
Proof. by vm_compute. Qed.

(** ** C8: the horizon depends on the hour only *)

Section HourFacts.
Import Datetime.

Lemma same_hour_floor (t1 t2 : datetime) :
  Spec.same_hour t1 t2 → floor_to_hour t1 = floor_to_hour t2.
Proof.
  intros (Hy & Hm & Hd & Hh). unfold floor_to_hour. by rewrite Hy, Hm, Hd, Hh.
Qed.

Lemma floor_to_hour_idempotent (t : datetime) :
  floor_to_hour (floor_to_hour t) = floor_to_hour t.
Proof. done. Qed.

Lemma floor_same_hour (t : datetime) : Spec.same_hour t (floor_to_hour t).
Proof. by repeat split. Qed.

(** An instant on the hour stays on the hour when whole hours are added. *)
Lemma add_hours_on_the_hour (t t' : datetime) (i : Z) :
  add_hours (floor_to_hour t) i = Py.Ok t' →
  minute t' = 0%Z ∧ second t' = 0%Z ∧ microsecond t' = 0%Z.
Proof.
  unfold add_hours. cbn [floor_to_hour hour minute second microsecond].
  destruct (_ && _); [|done].
  destruct (ord2ymd _) as [[y m] d]. intros [= <-].
  cbn [minute second microsecond].
  replace (hour t * 3600 + 0 * 60 + 0 + i * 3600)%Z with ((hour t + i) * 3600)%Z by lia.
  assert ((((hour t + i) * 3600) mod 86400) mod 3600 = 0)%Z as ->.
  { rewrite Z.mod_mod_divide by (by exists 24%Z). apply Z_mod_mult. }
  done.
Qed.

End HourFacts.

(** C8: two reference instants of the same clock hour are floored to the
    same instant, so the same horizon is generated for both; with the same
    model (a function of the instants asked), tiles, clock and generator
    both calls of [predict_next_4_hours] give the same RiskMap (or, out of
    the calendar's range, the same error). *)
Theorem C8_same_hour_same_risk_map
    (now : Datetime.datetime) (random_seed42 : nat → Qc)
    (model : CynetWrapper.Model) (tiles : list string)
    (t1 t2 : Datetime.datetime) :
  Spec.same_hour t1 t2 →
  Datetime.floor_to_hour t1 = Datetime.floor_to_hour t2
  ∧ CynetWrapper.prediction_hours_of (Datetime.floor_to_hour t1)
    = CynetWrapper.prediction_hours_of (Datetime.floor_to_hour t2)
  ∧ CynetWrapper.predict_next_4_hours now random_seed42 model tiles (Some t1)
    = CynetWrapper.predict_next_4_hours now random_seed42 model tiles (Some t2).
Proof.
  intros Hsame. apply same_hour_floor in Hsame.
  split; [done|]. split; [by rewrite Hsame|].
  unfold CynetWrapper.predict_next_4_hours. cbn [default from_option Datatypes.id].
  by rewrite Hsame.
Qed.

Lemma C8_same_hour_witness :
  Datetime.floor_to_hour Scenario.evening = Datetime.floor_to_hour Scenario.later_that_hour
  ∧ CynetWrapper.prediction_hours_of (Datetime.floor_to_hour Scenario.evening)
    = CynetWrapper.prediction_hours_of (Datetime.floor_to_hour Scenario.later_that_hour)
  ∧ CynetWrapper.predict_next_4_hours Scenario.evening Scenario.random_seed42
      Scenario.no_predict Scenario.two_tiles (Some Scenario.evening)
    = CynetWrapper.predict_next_4_hours Scenario.evening Scenario.random_seed42
        Scenario.no_predict Scenario.two_tiles (Some Scenario.later_that_hour).
Proof.
  apply (C8_same_hour_same_risk_map Scenario.evening Scenario.random_seed42
           Scenario.no_predict Scenario.two_tiles Scenario.evening Scenario.later_that_hour).
  unfold Spec.same_hour. cbn. by repeat split.
Defined.

(** The horizon of 28 February 2024, 23:05: four instants on the hour,
    over midnight into the leap day. *)
Example leap_day_horizon :
  CynetWrapper.prediction_hours_of (Datetime.floor_to_hour Scenario.evening)
  = Py.Ok (map (λ dh : Z * Z,
                  {| Datetime.year := 2024; Datetime.month := 2; Datetime.day := dh.1;
                     Datetime.hour := dh.2; Datetime.minute := 0; Datetime.second := 0;
                     Datetime.microsecond := 0 |})
               [(28, 23); (29, 0); (29, 1); (29, 2)]%Z).
Proof. by vm_compute. Qed.

(** ** C6: what the aggregator returns when the model cannot predict *)

Section FallbackFacts.
Import CynetWrapper.
Context (random_seed42 : nat → Qc).

Lemma imap_same {A} (f : nat → A → A) (l : list A) :
  (∀ i a, f i a = a) → imap f l = l.
Proof.
  revert f. induction l as [|a l IH]; intros f Hf; [done|].
  cbn. rewrite Hf, IH; [done|]. intros i b. apply Hf.
Qed.

Lemma dummy_fold_lookup (its : list (nat * string)) (m0 : gmap string Qc)
    (t : string) (r : Qc) :
  fold_left (λ (tile_risks : gmap string Qc) (it : nat * string),
               <[it.2 := random_seed42 it.1 * Num.frac 3 10]> tile_risks) its m0 !! t
  = Some r →
  m0 !! t = Some r ∨ ∃ i, (i, t) ∈ its ∧ r = random_seed42 i * Num.frac 3 10.
Proof.
  revert m0. induction its as [|[i t'] its IH]; intros m0; cbn [fold_left]; [by left|].
  intros Hr. apply IH in Hr as [Hr | (j & Hj & ->)].
  - cbn [fst snd] in Hr. apply lookup_insert_Some in Hr as [[-> <-] | [_ Hr]].
    + right. exists i. split; [left | done].
    + by left.
  - right. exists j. split; [by right | done].
Qed.

Lemma dummy_fold_dom (its : list (nat * string)) (m0 : gmap string Qc) (t : string) :
  is_Some (fold_left (λ (tile_risks : gmap string Qc) (it : nat * string),
                        <[it.2 := random_seed42 it.1 * Num.frac 3 10]> tile_risks) its m0 !! t)
  ↔ is_Some (m0 !! t) ∨ t ∈ its.*2.
Proof.
  revert m0. induction its as [|[i t'] its IH]; intros m0; cbn [fold_left].
  - rewrite fmap_nil, elem_of_nil. tauto.
  - rewrite IH, fmap_cons, elem_of_cons. cbn [fst snd].
    rewrite lookup_insert_is_Some. destruct (decide (t' = t)) as [->|Hne]; intuition congruence.
Qed.

Lemma dummy_predictions_lookup (tiles : list string) (t : string) (r : Qc) :
  dummy_predictions random_seed42 tiles !! t = Some r →
  ∃ i, tiles !! i = Some t ∧ r = random_seed42 i * Num.frac 3 10.
Proof.
  intros Hr. apply dummy_fold_lookup in Hr as [Hr | (i & Hi & ->)]; [done|].
  exists i. split; [|done].
  apply elem_of_lookup_imap in Hi as (j & t' & [= -> ->] & Hj). done.
Qed.

Lemma dummy_predictions_dom (tiles : list string) (t : string) :
  t ∈ tiles ↔ is_Some (dummy_predictions random_seed42 tiles !! t).
Proof.
  unfold dummy_predictions. rewrite dummy_fold_dom, lookup_empty.
  rewrite fmap_imap, imap_same by done.
  split; [by right | intros [[? [=]] | ?]; done].
Qed.

Lemma dummy_risk_bounds (d : Qc) :
  0 <= d → d < 1 → 0 <= d * Num.frac 3 10 ∧ d * Num.frac 3 10 < Num.frac 3 10.
Proof. unfold Num.frac. intros H0 H1. qc2q. split; lra. Qed.

End FallbackFacts.

(** C6, as stated, fails in its second half.  With a model that has no
    [predict], the aggregator does return a RiskMap, but not a zero one:
    the tiles get seeded pseudo-random risks.  Weighted with that map, the
    600 m edge of the scenario has a [risk_weight] that is not its length,
    so routing by [risk_weight] is not routing by distance. *)
Lemma C6_dummy_predictions_counterexample :
  ∃ tile_risks h' data',
    CynetWrapper.predict_next_4_hours Scenario.evening Scenario.random_seed42
      Scenario.no_predict Scenario.two_tiles None = Py.Ok tile_risks
    ∧ tile_risks !! "tile_0_0" ≠ Some 0
    ∧ Routing.apply_risk_weights (Scenario.store_of Scenario.one_edge) 1%positive
        Scenario.one_edge_mapping tile_risks = (h', Py.Ok 1%positive)
    ∧ Graph.edges <$> h' !! 1%positive = Some [((1, 2, 0)%Z, data')]
    ∧ Graph.get_attr data' "risk_weight" 0 ≠ Graph.get_attr data' "length" 0.
Proof.
  exists (CynetWrapper.dummy_predictions Scenario.random_seed42 Scenario.two_tiles).
  eexists _, _. split; [by vm_compute|]. split; [|split; [|split]].
  - intros H. apply (f_equal (λ o, this <$> o)) in H. by vm_compute in H.
  - rewrite (apply_risk_weights_store _ _ _ _ Scenario.one_edge); reflexivity.
  - rewrite lookup_insert_eq. reflexivity.
  - computed.
Qed.

(** C6 (amended): when the model has no [predict] method and the four
    hours of the horizon lie within the calendar (they do unless the
    reference hour is 21:00 or later on 9999-12-31), the aggregator does not
    abort: it returns a RiskMap holding, for every tile, an explicit
    fallback value, the next draw of the generator seeded with 42 times 0.3,
    hence in [0, 0.3) and in general not 0.  Weighting with it gives
    risk_weight = length * (1 + risk) with these risks; it is the length on
    edges of risk 0 or of length 0, and nothing makes it the length
    elsewhere: routing by risk_weight stays risk-weighted. *)
Theorem C6_missing_predict_falls_back
    (now : Datetime.datetime) (random_seed42 : nat → Qc)
    (model : CynetWrapper.Model) (tiles : list string)
    (reference_time : option Datetime.datetime) (hours : list Datetime.datetime) :
  CynetWrapper.predict model = None →
  CynetWrapper.prediction_hours_of (Datetime.floor_to_hour (default now reference_time))
  = Py.Ok hours →
  (∀ i, 0 <= random_seed42 i ∧ random_seed42 i < 1) →
  ∃ tile_risks,
    CynetWrapper.predict_next_4_hours now random_seed42 model tiles reference_time
    = Py.Ok tile_risks
    ∧ (∀ t, t ∈ tiles ↔ is_Some (tile_risks !! t))
    ∧ (∀ t r, tile_risks !! t = Some r →
         (∃ i, tiles !! i = Some t ∧ r = random_seed42 i * Num.frac 3 10)
         ∧ 0 <= r ∧ r < Num.frac 3 10)
    ∧ (∀ tile_edge_mapping id data,
         let len := Graph.get_attr data "length" 0 in
         let risk := Spec.risk_of tile_edge_mapping tile_risks id in
         let e' := (Routing.weight_edge tile_edge_mapping tile_risks (id, data)).1 in
         Graph.get_attr e'.2 "risk_weight" 0 = len * (1 + risk)
         ∧ (risk = 0 ∨ len = 0 → Graph.get_attr e'.2 "risk_weight" 0 = len)).
Proof.
  intros Hnone Hhours Hdraws.
  exists (CynetWrapper.dummy_predictions random_seed42 tiles).
  split; [|split; [|split]].
  - unfold CynetWrapper.predict_next_4_hours. rewrite Hhours. cbn.
    unfold CynetWrapper.try_predict. by rewrite Hnone.
  - apply dummy_predictions_dom.
  - intros t r Hr. destruct (dummy_predictions_lookup _ _ _ _ Hr) as (i & Hi & ->).
    split; [by exists i|]. destruct (Hdraws i). by apply dummy_risk_bounds.
  - intros tile_edge_mapping id data len risk e'. subst e'.
    rewrite weight_edge_spec. unfold Graph.get_attr at 1 3. cbn [snd Graph.set_attr Graph.num].
    rewrite lookup_insert_eq. cbn [default from_option Datatypes.id].
    split; [done | apply Qc_weight_eq].
Qed.

Lemma seed42_draws_in_range (i : nat) :
  0 <= Scenario.random_seed42 i ∧ Scenario.random_seed42 i < 1.
Proof.
  unfold Scenario.random_seed42.
  assert (Forall (λ d, 0 <= d ∧ d < 1) Scenario.seed42_draws) as Hall
    by (apply (bool_decide_unpack _); vm_compute; exact I).
  destruct (nth_in_or_default i Scenario.seed42_draws 0) as [Hin | ->].
  - apply (proj1 (Forall_forall _ _) Hall). by apply list_elem_of_In.
  - split; [done | by apply (bool_decide_unpack _)].
Qed.

Lemma C6_missing_predict_witness :
  ∃ tile_risks,
    CynetWrapper.predict_next_4_hours Scenario.evening Scenario.random_seed42
      Scenario.no_predict Scenario.two_tiles None = Py.Ok tile_risks
    ∧ (∀ t, t ∈ Scenario.two_tiles ↔ is_Some (tile_risks !! t))
    ∧ (∀ t r, tile_risks !! t = Some r →
         (∃ i, Scenario.two_tiles !! i = Some t
               ∧ r = Scenario.random_seed42 i * Num.frac 3 10)
         ∧ 0 <= r ∧ r < Num.frac 3 10)
    ∧ (∀ tile_edge_mapping id data,
         let len := Graph.get_attr data "length" 0 in
         let risk := Spec.risk_of tile_edge_mapping tile_risks id in
         let e' := (Routing.weight_edge tile_edge_mapping tile_risks (id, data)).1 in
         Graph.get_attr e'.2 "risk_weight" 0 = len * (1 + risk)
         ∧ (risk = 0 ∨ len = 0 → Graph.get_attr e'.2 "risk_weight" 0 = len)).
Proof.
  apply (C6_missing_predict_falls_back Scenario.evening Scenario.random_seed42
           Scenario.no_predict Scenario.two_tiles None
           (map (λ dh : Z * Z,
                   {| Datetime.year := 2024; Datetime.month := 2; Datetime.day := dh.1;
                      Datetime.hour := dh.2; Datetime.minute := 0; Datetime.second := 0;
                      Datetime.microsecond := 0 |})
                [(28, 23); (29, 0); (29, 1); (29, 2)]%Z)).
  - reflexivity.
  - by vm_compute.
  - exact seed42_draws_in_range.
Defined.

(** ** C5: what the grid builder does with bad parameters *)

Section GridFacts.
Import Spatial.




Lemma arange_zero_step (start stop : Qc) :
  arange start stop 0 = Py.Raise Py.ZeroDivisionError.
Proof. done. Qed.




Context {polygon : Type}.
Context (to_utm : Qc * Qc → Qc * Qc).
Context (to_output : Qc * Qc * Qc * Qc → polygon).
Context (centroid : polygon → Qc * Qc).

Abbreviation grid := (create_spatial_grid to_utm to_output centroid).





End GridFacts.



(** A box of 915 m in the flat world, tiles of 305 m: three columns by
    three rows, named by column and row; the same box with a negative tile
    size: no tile. *)
Example grid_three_by_three :
  (tiles ← Scenario.flat_grid (Some Scenario.square_915) (Num.of_Z 305);
   Py.Ok (map Spatial.tile_id tiles))
  = Py.Ok ["tile_0_0"; "tile_0_1"; "tile_0_2";
           "tile_1_0"; "tile_1_1"; "tile_1_2";
           "tile_2_0"; "tile_2_1"; "tile_2_2"]
  ∧ (tiles ← Scenario.flat_grid (Some Scenario.square_915) (Num.of_Z (-305));
     Py.Ok (map Spatial.tile_id tiles)) = Py.Ok [].
Proof. by vm_compute. Qed.

(** * Further properties of the code *)

(** ** The weighter *)

Section WeighterMore.
Import Graph Routing.

(** The edge at a position of the graph, after the call. *)
Lemma apply_risk_weights_edge (h : heap) (G : loc) (g : MultiDiGraph)
    (tile_edge_mapping : TileEdgeMapping) (tile_risks : TileRisks)
    (i : nat) (e : edge_id * EdgeData) :
  h !! G = Some g → edges g !! i = Some e →
  apply_risk_weights h G tile_edge_mapping tile_risks
  = (<[G := Spec.weighted tile_edge_mapping tile_risks g]> h, Py.Ok G)
  ∧ edges (Spec.weighted tile_edge_mapping tile_risks g) !! i
    = Some (weight_edge tile_edge_mapping tile_risks e).1.
Proof.
  intros Hg Hi. split.
  - rewrite (apply_risk_weights_store _ _ _ _ _ Hg). unfold Spec.weighted.
    destruct (edges g); [by rewrite lookup_nil in Hi | done].
  - unfold Spec.weighted. cbn [edges]. by rewrite list_lookup_fmap, Hi.
Qed.

Lemma set_attr_twice (data : EdgeData) (a b c d : Qc) :
  set_attr "risk_weight" a (set_attr "risk" b
    (set_attr "risk_weight" c (set_attr "risk" d data)))
  = set_attr "risk_weight" a (set_attr "risk" b data).
Proof.
  unfold set_attr. cbn. f_equal. apply map_eq. intros k.
  destruct (decide (k = "risk_weight")) as [->|Hrw]; [by rewrite !lookup_insert_eq|].
  destruct (decide (k = "risk")) as [->|Hr].
  - rewrite lookup_insert_ne by done. rewrite lookup_insert_eq.
    rewrite lookup_insert_ne by done. by rewrite lookup_insert_eq.
  - by rewrite !lookup_insert_ne by congruence.
Qed.

Lemma weight_edge_again (m1 m2 : TileEdgeMapping) (r1 r2 : TileRisks)
    (e : edge_id * EdgeData) :
  (weight_edge m2 r2 (weight_edge m1 r1 e).1).1 = (weight_edge m2 r2 e).1.
Proof.
  destruct e as [id data]. rewrite (weight_edge_spec m1 r1), !weight_edge_spec.
  f_equal. rewrite set_attr_twice. f_equal.
  unfold get_attr. cbn. by rewrite !lookup_insert_ne.
Qed.

Lemma weighted_again (m1 m2 : TileEdgeMapping) (r1 r2 : TileRisks) (g : MultiDiGraph) :
  Spec.weighted m2 r2 (Spec.weighted m1 r1 g) = Spec.weighted m2 r2 g.
Proof.
  unfold Spec.weighted. cbn. f_equal. rewrite map_map.
  apply map_ext. intros e. apply weight_edge_again.
Qed.

Lemma apply_risk_weights_weighted (h : heap) (G : loc) (g : MultiDiGraph)
    (m : TileEdgeMapping) (r : TileRisks) :
  h !! G = Some g →
  apply_risk_weights h G m r
  = (<[G := Spec.weighted m r g]> h,
     match edges g with
     | [] => Py.Raise Py.ZeroDivisionError
     | _ :: _ => Py.Ok G
     end).
Proof. intros Hg. by rewrite (apply_risk_weights_store _ _ _ _ _ Hg). Qed.

Lemma weighted_edges_nil (m : TileEdgeMapping) (r : TileRisks) (g : MultiDiGraph) :
  edges (Spec.weighted m r g) = [] ↔ edges g = [].
Proof. unfold Spec.weighted. cbn. by destruct (edges g). Qed.

End WeighterMore.

(** X1: a graph without edges cannot be weighted: the call raises
    ZeroDivisionError (the summary divides by the number of edges
    processed) and leaves the store as it was; through the copy of
    [app.py] the same error comes out, the copy having been made. *)
Theorem X1_apply_risk_weights_no_edges
    (h : Graph.heap) (G : Graph.loc) (g : Graph.MultiDiGraph)
    (tile_edge_mapping : Routing.TileEdgeMapping) (tile_risks : Routing.TileRisks) :
  h !! G = Some g →
  Graph.edges g = [] →
  Routing.apply_risk_weights h G tile_edge_mapping tile_risks
  = (h, Py.Raise Py.ZeroDivisionError)
  ∧ ∃ G_copy,
      h !! G_copy = None
      ∧ App.weight_request h G tile_edge_mapping tile_risks
        = (<[G_copy := g]> h, Py.Raise Py.ZeroDivisionError).
Proof.
  intros Hg He.
  assert ({| Graph.nodes := Graph.nodes g;
             Graph.edges :=
               map (λ e, (Routing.weight_edge tile_edge_mapping tile_risks e).1)
                   (Graph.edges g) |} = g) as Hsame.
  { destruct g as [ns es]. cbn in *. by subst es. }
  split.
  - rewrite (apply_risk_weights_store _ _ _ _ _ Hg), Hsame, He.
    by rewrite insert_id.
  - destruct (copy_fresh h G g Hg) as (G' & Hcopy & Hfresh & _).
    exists G'. split; [done|]. unfold App.weight_request. rewrite Hcopy.
    rewrite (apply_risk_weights_store _ _ _ _ g) by apply lookup_insert_eq.
    by rewrite Hsame, He, insert_insert_eq.
Qed.

Lemma X1_apply_risk_weights_no_edges_witness :
  Routing.apply_risk_weights (Scenario.store_of Scenario.no_streets) 1%positive
    Scenario.one_edge_mapping Scenario.one_edge_risks
  = (Scenario.store_of Scenario.no_streets, Py.Raise Py.ZeroDivisionError)
  ∧ ∃ G_copy,
      Scenario.store_of Scenario.no_streets !! G_copy = None
      ∧ App.weight_request (Scenario.store_of Scenario.no_streets) 1%positive
          Scenario.one_edge_mapping Scenario.one_edge_risks
        = (<[G_copy := Scenario.no_streets]> (Scenario.store_of Scenario.no_streets),
           Py.Raise Py.ZeroDivisionError).
Proof.
  apply (X1_apply_risk_weights_no_edges (Scenario.store_of Scenario.no_streets) 1%positive
           Scenario.no_streets Scenario.one_edge_mapping Scenario.one_edge_risks).
  - reflexivity.
  - reflexivity.
Defined.

(** X2: weighting a graph again replaces the earlier weights: after a
    call with one overlay and RiskMap, a second call with another overlay
    and RiskMap leaves exactly what the second call alone would have left,
    and returns the same.  In particular the call is idempotent. *)
Theorem X2_apply_risk_weights_overrides
    (h : Graph.heap) (G : Graph.loc)
    (m1 m2 : Routing.TileEdgeMapping) (r1 r2 : Routing.TileRisks) :
  Routing.apply_risk_weights (Routing.apply_risk_weights h G m1 r1).1 G m2 r2
  = Routing.apply_risk_weights h G m2 r2.
Proof.
  destruct (h !! G) as [g|] eqn:Hg.
  - rewrite (apply_risk_weights_weighted _ _ _ _ _ Hg). cbn [fst].
    rewrite (apply_risk_weights_weighted _ _ (Spec.weighted m1 r1 g))
      by apply lookup_insert_eq.
    rewrite (apply_risk_weights_weighted _ _ _ _ _ Hg).
    rewrite insert_insert_eq, weighted_again. f_equal.
    pose proof (weighted_edges_nil m1 r1 g) as Hnil.
    destruct (Graph.edges (Spec.weighted m1 r1 g)), (Graph.edges g); try done.
    + by destruct Hnil as [Hnil _]; specialize (Hnil eq_refl).
    + by destruct Hnil as [_ Hnil]; specialize (Hnil eq_refl).
  - unfold Routing.apply_risk_weights at 2. rewrite Hg. cbn [fst].
    unfold Routing.apply_risk_weights. by rewrite Hg.
Qed.

Section AverageFacts.
Import Graph Routing.

Lemma foldr_sum (l : list Qc) : foldr Qcplus 0 l = Num.sum l.
Proof. induction l as [|q l IH]; [done|]. cbn [foldr]. by rewrite sum_cons, IH. Qed.

Lemma tile_risk_bounds (tile_risks : TileRisks) (t : string) :
  Spec.risk_map_ok tile_risks →
  0 <= default 0 (tile_risks !! t) ∧ default 0 (tile_risks !! t) <= 1.
Proof.
  intros Hok. destruct (tile_risks !! t) as [r|] eqn:Ht; cbn.
  - exact (Hok _ _ Ht).
  - split; [done | by apply (bool_decide_unpack _)].
Qed.

(** A sum of products with factors in [0, 1] is at most the sum of the
    other factors. *)
Lemma weighted_sum_le (tile_risks : TileRisks) (cs : list Contribution) :
  Spec.risk_map_ok tile_risks →
  Forall (λ c, 0 <= fraction c) cs →
  foldr Qcplus 0 (map (λ c, default 0 (tile_risks !! tile_id c) * fraction c) cs)
  <= Num.sum (map fraction cs).
Proof.
  intros Hok Hcs. induction Hcs as [|c cs Hc _ IH]; [done|].
  cbn [map foldr]. rewrite sum_cons.
  destruct (tile_risk_bounds tile_risks (tile_id c) Hok) as [H0 H1].
  revert H0 H1 Hc IH.
  generalize (default 0 (tile_risks !! tile_id c)) (fraction c)
             (foldr Qcplus 0
                (map (λ c, default 0 (tile_risks !! tile_id c) * fraction c) cs))
             (Num.sum (map fraction cs)).
  intros r f s t H0 H1 Hf Hst. qc2q. nra.
Qed.

(** The risk of an edge is at most the sum of the fractions of its
    entry, both accumulated from 0 in the order of the entry. *)
Lemma risk_of_le_total (tile_edge_mapping : TileEdgeMapping) (tile_risks : TileRisks)
    (id : edge_id) :
  Spec.risk_map_ok tile_risks → Spec.overlay_ok tile_edge_mapping →
  Spec.risk_of tile_edge_mapping tile_risks id
  <= Num.sum (map fraction (default [] (tile_edge_mapping !! id))).
Proof.
  intros Hok Hpos. unfold Spec.risk_of.
  destruct (tile_edge_mapping !! id) as [cs|] eqn:Hcs; [|done].
  cbn [default from_option Datatypes.id]. apply weighted_sum_le; [done|].
  exact (Hpos _ _ Hcs).
Qed.

Lemma weight_between (len risk total : Qc) :
  0 <= len → 0 <= risk → risk <= total →
  len <= len * (1 + risk) ∧ len * (1 + risk) <= len * (1 + total).
Proof. intros Hl H0 H1. qc2q. split; nra. Qed.

(** The two attributes written on an edge, read back. *)
Lemma weight_edge_attrs (tile_edge_mapping : TileEdgeMapping) (tile_risks : TileRisks)
    (id : edge_id) (data : EdgeData) :
  let e' := (weight_edge tile_edge_mapping tile_risks (id, data)).1 in
  e'.1 = id
  ∧ get_attr e'.2 "risk" 0 = Spec.risk_of tile_edge_mapping tile_risks id
  ∧ get_attr e'.2 "risk_weight" 0
    = get_attr data "length" 0 * (1 + Spec.risk_of tile_edge_mapping tile_risks id)
  ∧ get_attr e'.2 "length" 0 = get_attr data "length" 0.
Proof.
  cbn zeta. rewrite weight_edge_spec. unfold get_attr. cbn [fst snd set_attr num].
  split; [done|]. split; [|split].
  - by rewrite lookup_insert_ne, lookup_insert_eq.
  - by rewrite lookup_insert_eq.
  - by rewrite !lookup_insert_ne.
Qed.

Lemma risk_of_mono (tile_edge_mapping : TileEdgeMapping) (r1 r2 : TileRisks)
    (id : edge_id) :
  Spec.overlay_ok tile_edge_mapping → Spec.risk_le r1 r2 →
  Spec.risk_of tile_edge_mapping r1 id <= Spec.risk_of tile_edge_mapping r2 id.
Proof.
  intros Hok Hle. unfold Spec.risk_of.
  destruct (tile_edge_mapping !! id) as [cs|] eqn:Hcs; [|done].
  specialize (Hok _ _ Hcs). cbn in Hok. clear Hcs.
  induction Hok as [|c cs Hc _ IH]; [done|]. cbn [map foldr].
  specialize (Hle (tile_id c)). revert Hle Hc IH.
  generalize (default 0 (r1 !! tile_id c)) (default 0 (r2 !! tile_id c)) (fraction c)
             (foldr Qcplus 0 (map (λ c, default 0 (r1 !! tile_id c) * fraction c) cs))
             (foldr Qcplus 0 (map (λ c, default 0 (r2 !! tile_id c) * fraction c) cs)).
  intros a b f s t Hab Hf Hst. qc2q. nra.
Qed.

Lemma zero_below_ok (r1 r2 : TileRisks) :
  Spec.risk_map_zero r1 → Spec.risk_map_ok r2 → Spec.risk_le r1 r2.
Proof.
  intros Hz Hok t. rewrite (zero_tile_risk r1 Hz).
  by destruct (tile_risk_bounds r2 t Hok).
Qed.

End AverageFacts.

(** X3: with tile risks in [0,1] and fractions that are not negative, the
    risk written on an edge lies between 0 and the running total of the
    fractions of its overlay entry, that is, the risk the same loop gives
    the edge when every tile risk is 1: the fractions added up from 0 in the
    order of the entry, in the arithmetic of the code (0 without an entry).
    The weight written lies between the length and the weight that running
    total would give, length * (1 + total).  The bound is the running total
    and not 1: fractions normalised on floating point need not add up to 1
    exactly, and the risk of an edge can then exceed 1 by a rounding
    error. *)
Theorem X3_edge_risk_weighted_average
    (h : Graph.heap) (G : Graph.loc) (g : Graph.MultiDiGraph)
    (tile_edge_mapping : Routing.TileEdgeMapping) (tile_risks : Routing.TileRisks)
    (i : nat) (id : Graph.edge_id) (data : Graph.EdgeData) :
  h !! G = Some g →
  Graph.edges g !! i = Some (id, data) →
  Spec.risk_map_ok tile_risks →
  Spec.overlay_ok tile_edge_mapping →
  0 <= Graph.get_attr data "length" 0 →
  let total := Num.sum (map Routing.fraction (default [] (tile_edge_mapping !! id))) in
  ∃ g' data',
    Routing.apply_risk_weights h G tile_edge_mapping tile_risks = (<[G := g']> h, Py.Ok G)
    ∧ Graph.edges g' !! i = Some (id, data')
    ∧ 0 <= Graph.get_attr data' "risk" 0
    ∧ Graph.get_attr data' "risk" 0 <= total
    ∧ Graph.get_attr data "length" 0 <= Graph.get_attr data' "risk_weight" 0
    ∧ Graph.get_attr data' "risk_weight" 0 <= Graph.get_attr data "length" 0 * (1 + total).
Proof.
  intros Hg Hi Hok Hpos Hlen total.
  destruct (apply_risk_weights_edge h G g tile_edge_mapping tile_risks i _ Hg Hi)
    as [Happly Hedge].
  destruct (weight_edge_attrs tile_edge_mapping tile_risks id data)
    as (Hid & Hrisk & Hrw & _).
  destruct (Routing.weight_edge tile_edge_mapping tile_risks (id, data)).1
    as [id' data'] eqn:He. cbn [fst snd] in *. subst id'.
  exists (Spec.weighted tile_edge_mapping tile_risks g), data'.
  split; [done|]. split; [done|]. rewrite Hrisk, Hrw.
  pose proof (risk_of_nonneg tile_edge_mapping tile_risks id Hok Hpos) as H0.
  pose proof (risk_of_le_total tile_edge_mapping tile_risks id Hok Hpos) as H1.
  destruct (weight_between _ _ _ Hlen H0 H1). done.
Qed.

Lemma X3_edge_risk_weighted_average_witness :
  let total := Num.sum (map Routing.fraction
                          (default [] (Scenario.one_edge_mapping !! (1, 2, 0)%Z))) in
  ∃ g' data',
    Routing.apply_risk_weights (Scenario.store_of Scenario.one_edge) 1%positive
      Scenario.one_edge_mapping Scenario.one_edge_risks
    = (<[1%positive := g']> (Scenario.store_of Scenario.one_edge), Py.Ok 1%positive)
    ∧ Graph.edges g' !! 0%nat = Some ((1, 2, 0)%Z, data')
    ∧ 0 <= Graph.get_attr data' "risk" 0
    ∧ Graph.get_attr data' "risk" 0 <= total
    ∧ Graph.get_attr (Scenario.street (Num.of_Z 600) (Num.of_Z 60)) "length" 0
      <= Graph.get_attr data' "risk_weight" 0
    ∧ Graph.get_attr data' "risk_weight" 0
      <= Graph.get_attr (Scenario.street (Num.of_Z 600) (Num.of_Z 60)) "length" 0
         * (1 + total).
Proof.
  apply (X3_edge_risk_weighted_average (Scenario.store_of Scenario.one_edge) 1%positive
           Scenario.one_edge Scenario.one_edge_mapping Scenario.one_edge_risks
           0%nat (1, 2, 0)%Z (Scenario.street (Num.of_Z 600) (Num.of_Z 60))).
  - reflexivity.
  - reflexivity.
  - computed.
  - computed.
  - computed.
Defined.

(** X4: the weighting is monotone in the RiskMap: when no tile has a
    lower risk (a missing tile counting for 0), fractions are not negative
    and the length is not negative, neither the risk nor the weight written
    on an edge gets lower. *)
Theorem X4_weight_monotone_in_risk
    (tile_edge_mapping : Routing.TileEdgeMapping) (r1 r2 : Routing.TileRisks)
    (id : Graph.edge_id) (data : Graph.EdgeData) :
  Spec.overlay_ok tile_edge_mapping →
  Spec.risk_le r1 r2 →
  0 <= Graph.get_attr data "length" 0 →
  let e1 := (Routing.weight_edge tile_edge_mapping r1 (id, data)).1 in
  let e2 := (Routing.weight_edge tile_edge_mapping r2 (id, data)).1 in
  Graph.get_attr e1.2 "risk" 0 <= Graph.get_attr e2.2 "risk" 0
  ∧ Graph.get_attr e1.2 "risk_weight" 0 <= Graph.get_attr e2.2 "risk_weight" 0.
Proof.
  intros Hok Hle Hlen e1 e2. subst e1 e2.
  destruct (weight_edge_attrs tile_edge_mapping r1 id data) as (_ & -> & -> & _).
  destruct (weight_edge_attrs tile_edge_mapping r2 id data) as (_ & -> & -> & _).
  pose proof (risk_of_mono tile_edge_mapping r1 r2 id Hok Hle) as Hmono.
  split; [done|].
  revert Hlen Hmono.
  generalize (Graph.get_attr data "length" 0) (Spec.risk_of tile_edge_mapping r1 id)
             (Spec.risk_of tile_edge_mapping r2 id).
  intros len a b Hlen Hab. qc2q. nra.
Qed.

Lemma X4_weight_monotone_witness :
  let data := Scenario.street (Num.of_Z 600) (Num.of_Z 60) in
  let e1 := (Routing.weight_edge Scenario.one_edge_mapping Scenario.zero_risks
               ((1, 2, 0)%Z, data)).1 in
  let e2 := (Routing.weight_edge Scenario.one_edge_mapping Scenario.one_edge_risks
               ((1, 2, 0)%Z, data)).1 in
  Graph.get_attr e1.2 "risk" 0 <= Graph.get_attr e2.2 "risk" 0
  ∧ Graph.get_attr e1.2 "risk_weight" 0 <= Graph.get_attr e2.2 "risk_weight" 0.
Proof.
  apply (X4_weight_monotone_in_risk Scenario.one_edge_mapping Scenario.zero_risks
           Scenario.one_edge_risks (1, 2, 0)%Z (Scenario.street (Num.of_Z 600) (Num.of_Z 60))).
  - computed.
  - apply zero_below_ok; computed.
  - computed.
Defined.

(** ** The metrics and the comparator *)

Section MetricsMore.
Import Graph Loops Routing.

(** Sums over edges of non-negative length and risk in [0, 1]. *)
Lemma metrics_over_bounds (ds : list EdgeData) :
  Forall (λ d, 0 <= get_attr d "length" 0
               ∧ 0 <= get_attr d "risk" 0 ∧ get_attr d "risk" 0 <= 1) ds →
  0 <= cumulative_risk (Spec.metrics_over ds)
  ∧ cumulative_risk (Spec.metrics_over ds) <= length (Spec.metrics_over ds).
Proof.
  intros Hds. induction Hds as [|d ds (Hl & H0 & H1) _ [IH0 IH1]]; [done|].
  cbn in *. revert Hl H0 H1 IH0 IH1.
  generalize (get_attr d "length" 0) (get_attr d "risk" 0)
             (foldr Qcplus 0 (map (λ d, get_attr d "risk" 0 * get_attr d "length" 0) ds))
             (foldr Qcplus 0 (map (λ d, get_attr d "length" 0) ds)).
  intros l r c s Hl H0 H1 IH0 IH1. qc2q. split; nra.
Qed.

Lemma first_edge_in (G : MultiDiGraph) (uv : node * node) (d : EdgeData) :
  Spec.first_edge G uv = Some d → ∃ id, (id, d) ∈ edges G.
Proof.
  unfold Spec.first_edge. destruct (parallel G uv.1 uv.2) as [|[k d'] rest] eqn:Hp; [done|].
  cbn. intros [= <-].
  assert ((k, d') ∈ parallel G uv.1 uv.2) as Hin by (rewrite Hp; left).
  unfold parallel in Hin. apply list_elem_of_omap in Hin as ([[[u' v'] k'] d''] & Hin & Heq).
  case_bool_decide; [|done]. injection Heq as -> ->. by eexists.
Qed.

Lemma taken_edges_in (G : MultiDiGraph) (ps : list (node * node))
    (P : edge_id * EdgeData → Prop) :
  Forall P (edges G) →
  Forall (λ d, ∃ id, P (id, d)) (omap (Spec.first_edge G) ps).
Proof.
  intros HP. apply Forall_forall. intros d Hd.
  apply list_elem_of_omap in Hd as (uv & _ & Huv).
  apply first_edge_in in Huv as [id Hin].
  exists id. by eapply Forall_forall in HP.
Qed.

(** Two networks that differ in [risk] and [risk_weight] only have the
    same parallel edges, up to those two attributes. *)
Lemma same_network_parallel (g g' : MultiDiGraph) (u v : node) :
  Spec.same_network g g' →
  Forall2 (λ kd kd' : edge_key * EdgeData,
             get_attr kd'.2 "length" 0 = get_attr kd.2 "length" 0
             ∧ get_attr kd'.2 "travel_time" 0 = get_attr kd.2 "travel_time" 0)
    (parallel g u v) (parallel g' u v).
Proof.
  intros [_ Hedges]. unfold parallel.
  induction Hedges as [|[[[a b] k] d] [[[a' b'] k'] d'] es es' He _ IH]; [constructor|].
  destruct He as (Hid & _ & _ & Hnum). cbn in Hid. injection Hid as -> -> ->.
  cbn [omap list_omap]. case_bool_decide; [|done].
  constructor; [|done]. unfold get_attr. cbn.
  by rewrite !Hnum.
Qed.

Lemma same_network_first (g g' : MultiDiGraph) (uv : node * node) :
  Spec.same_network g g' →
  option_Forall2 (λ d d' : EdgeData,
                    get_attr d' "length" 0 = get_attr d "length" 0
                    ∧ get_attr d' "travel_time" 0 = get_attr d "travel_time" 0)
    (Spec.first_edge g uv) (Spec.first_edge g' uv).
Proof.
  intros Hsame. unfold Spec.first_edge.
  destruct (same_network_parallel g g' uv.1 uv.2 Hsame) as [|kd kd' rest rest' Hkd _];
    cbn; by constructor.
Qed.

Lemma same_network_taken (g g' : MultiDiGraph) (ps : list (node * node)) :
  Spec.same_network g g' →
  Forall2 (λ d d' : EdgeData,
             get_attr d' "length" 0 = get_attr d "length" 0
             ∧ get_attr d' "travel_time" 0 = get_attr d "travel_time" 0)
    (omap (Spec.first_edge g) ps) (omap (Spec.first_edge g') ps).
Proof.
  intros Hsame. induction ps as [|uv ps IH]; [constructor|].
  cbn [omap list_omap].
  destruct (same_network_first g g' uv Hsame) as [d d' Hd|]; [by constructor | done].
Qed.

Lemma metrics_over_same (ds ds' : list EdgeData) :
  Forall2 (λ d d' : EdgeData,
             get_attr d' "length" 0 = get_attr d "length" 0
             ∧ get_attr d' "travel_time" 0 = get_attr d "travel_time" 0) ds ds' →
  length (Spec.metrics_over ds') = length (Spec.metrics_over ds)
  ∧ travel_time (Spec.metrics_over ds') = travel_time (Spec.metrics_over ds)
  ∧ num_edges (Spec.metrics_over ds') = num_edges (Spec.metrics_over ds).
Proof.
  intros H. induction H as [|d d' ds ds' [Hl Ht] _ (IHl & IHt & IHn)]; [done|].
  cbn in *. by rewrite Hl, Ht, IHl, IHt, IHn.
Qed.

End MetricsMore.

(** X6: on a graph whose edges carry a length that is not negative and
    a risk attribute in [0,1] (each read as 0 when missing), the cumulative
    risk of every route lies between 0 and the length of the route: both
    are added up over the same edges in the same order, and each term
    risk * length is at most the length. *)
Theorem X6_cumulative_risk_at_most_length
    (G : Graph.MultiDiGraph) (route : list Graph.node) :
  Forall (λ e : Graph.edge_id * Graph.EdgeData,
            0 <= Graph.get_attr e.2 "length" 0
            ∧ 0 <= Graph.get_attr e.2 "risk" 0 ∧ Graph.get_attr e.2 "risk" 0 <= 1)
    (Graph.edges G) →
  ∃ metrics,
    Routing.calculate_route_metrics G (Some route) = Py.Ok metrics
    ∧ 0 <= Routing.cumulative_risk metrics
    ∧ Routing.cumulative_risk metrics <= Routing.length metrics.
Proof.
  intros Hb. eexists. split; [apply calculate_route_metrics_sums|].
  apply metrics_over_bounds.
  eapply Forall_impl; [exact (taken_edges_in _ (Spec.pairs route) _ Hb)|].
  by intros d [id Hd].
Qed.

Lemma X6_cumulative_risk_witness :
  ∃ metrics,
    Routing.calculate_route_metrics
      (Spec.weighted Scenario.one_edge_mapping Scenario.one_edge_risks Scenario.one_edge)
      (Some [1; 2]%Z) = Py.Ok metrics
    ∧ 0 <= Routing.cumulative_risk metrics
    ∧ Routing.cumulative_risk metrics <= Routing.length metrics.
Proof.
  apply (X6_cumulative_risk_at_most_length
           (Spec.weighted Scenario.one_edge_mapping Scenario.one_edge_risks Scenario.one_edge)
           [1; 2]%Z).
  computed.
Defined.

(** X7: weighting changes the cumulative risk of a route and nothing
    else of its metrics: on the weighted graph the length, the travel time
    and the number of edges of every route are those of the graph before
    the call. *)
Theorem X7_weighting_keeps_length_and_time
    (h : Graph.heap) (G : Graph.loc) (g : Graph.MultiDiGraph)
    (tile_edge_mapping : Routing.TileEdgeMapping) (tile_risks : Routing.TileRisks)
    (route : option (list Graph.node)) :
  h !! G = Some g →
  ∃ g_risk before after,
    (Routing.apply_risk_weights h G tile_edge_mapping tile_risks).1 !! G = Some g_risk
    ∧ Routing.calculate_route_metrics g route = Py.Ok before
    ∧ Routing.calculate_route_metrics g_risk route = Py.Ok after
    ∧ Routing.length after = Routing.length before
    ∧ Routing.travel_time after = Routing.travel_time before
    ∧ Routing.num_edges after = Routing.num_edges before.
Proof.
  intros Hg. exists (Spec.weighted tile_edge_mapping tile_risks g).
  rewrite (apply_risk_weights_weighted _ _ _ _ _ Hg). cbn [fst].
  destruct route as [route|].
  - eexists _, _. rewrite !calculate_route_metrics_sums.
    split; [apply lookup_insert_eq|]. split; [done|]. split; [done|].
    apply metrics_over_same, same_network_taken, weighted_same_network.
  - exists Routing.zero_metrics, Routing.zero_metrics.
    split; [apply lookup_insert_eq|]. by repeat split.
Qed.

Lemma X7_weighting_keeps_length_witness :
  ∃ g_risk before after,
    (Routing.apply_risk_weights (Scenario.store_of Scenario.one_edge) 1%positive
       Scenario.one_edge_mapping Scenario.one_edge_risks).1 !! 1%positive = Some g_risk
    ∧ Routing.calculate_route_metrics Scenario.one_edge (Some [1; 2]%Z) = Py.Ok before
    ∧ Routing.calculate_route_metrics g_risk (Some [1; 2]%Z) = Py.Ok after
    ∧ Routing.length after = Routing.length before
    ∧ Routing.travel_time after = Routing.travel_time before
    ∧ Routing.num_edges after = Routing.num_edges before.
Proof.
  apply (X7_weighting_keeps_length_and_time (Scenario.store_of Scenario.one_edge) 1%positive
           Scenario.one_edge Scenario.one_edge_mapping Scenario.one_edge_risks
           (Some [1; 2]%Z)).
  reflexivity.
Defined.

Section ComparatorMore.
Import Graph Loops Routing.

Lemma calculate_route_metrics_of (G : MultiDiGraph) (route : option (list node)) :
  calculate_route_metrics G route = Py.Ok (Spec.metrics_of G route).
Proof. destruct route; [apply calculate_route_metrics_sums | done]. Qed.

Lemma quotient_times (a b : Qc) : b ≠ 0 → a / b * Num.hundred * b = Num.hundred * a.
Proof. intros Hb. by field. Qed.

Lemma self_quotient (a : Qc) : (a - a) / a * Num.hundred = 0.
Proof. unfold Qcdiv. replace (a - a) with 0 by ring. ring. Qed.

(** A route against itself: every figure of the comparison is 0. *)
Lemma calculate_risk_reduction_self (m : RouteMetrics) :
  ∃ r, calculate_risk_reduction m m = Py.Ok r
       ∧ risk_reduction_pct r = 0 ∧ absolute_risk_reduction r = 0
       ∧ length_difference_m r = 0 ∧ length_increase_pct r = 0.
Proof.
  unfold calculate_risk_reduction, Num.eqb, Num.gtb.
  destruct (decide (cumulative_risk m = 0)) as [Hr|Hr];
    destruct (decide (0 < length m)) as [Hl|Hl].
  - rewrite (bool_decide_eq_true_2 _ Hr), (bool_decide_eq_true_2 _ Hl).
    rewrite (div_nonzero _ _ (pos_nonzero _ Hl)). cbn.
    eexists. split; [reflexivity|]. cbn. rewrite self_quotient. repeat split; ring.
  - rewrite (bool_decide_eq_true_2 _ Hr), (bool_decide_eq_false_2 _ Hl). cbn.
    eexists. split; [reflexivity|]. cbn. repeat split; ring.
  - rewrite (bool_decide_eq_false_2 _ Hr), (bool_decide_eq_true_2 _ Hl).
    rewrite (div_nonzero _ _ Hr), (div_nonzero _ _ (pos_nonzero _ Hl)). cbn.
    eexists. split; [reflexivity|]. cbn. rewrite !self_quotient. repeat split; ring.
  - rewrite (bool_decide_eq_false_2 _ Hr), (bool_decide_eq_false_2 _ Hl).
    rewrite (div_nonzero _ _ Hr). cbn.
    eexists. split; [reflexivity|]. cbn. rewrite self_quotient. repeat split; ring.
Qed.

Lemma percentage_bounds (fast safe : Qc) :
  0 < fast → 0 <= safe →
  let pct := (fast - safe) / fast * Num.hundred in
  pct <= Num.hundred ∧ (0 <= pct ↔ safe <= fast) ∧ pct * fast = Num.hundred * (fast - safe).
Proof.
  intros Hfast Hsafe pct.
  pose proof (quotient_times (fast - safe) fast (pos_nonzero _ Hfast)) as Hq.
  fold pct in Hq. clearbody pct. split; [|split; [|done]].
  - unfold Num.hundred, Num.of_Z in *. qc2q. unfold inject_Z in *. nra.
  - unfold Num.hundred, Num.of_Z in *. split; intros H; qc2q; unfold inject_Z in *; nra.
Qed.

Lemma compare_loop (G : MultiDiGraph) (items : list (string * option (list node)))
    (acc : list ComparisonRow) :
  for_each
    (λ comparison (item : string * option (list node)),
       metrics ← calculate_route_metrics G item.2;
       Py.Ok (comparison ++ [{| route_name := item.1; row_metrics := metrics |}]))
    items acc
  = Py.Ok (acc ++ map (λ item, {| route_name := item.1;
                                  row_metrics := Spec.metrics_of G item.2 |}) items).
Proof.
  revert acc. induction items as [|item items IH]; intros acc; cbn [for_each map].
  - by rewrite app_nil_r.
  - rewrite calculate_route_metrics_of. cbn. rewrite IH. by rewrite <- app_assoc.
Qed.

End ComparatorMore.

(** X8: with a fast route of positive cumulative risk and a safe route
    whose cumulative risk is not negative, the risk reduction is at most
    100 percent; it is not negative exactly when the safe route is no
    riskier than the fast one; and it is the absolute reduction taken as a
    percentage of the fast route's risk. *)
Theorem X8_risk_reduction_bounds (safe_metrics fast_metrics : Routing.RouteMetrics) :
  0 < Routing.cumulative_risk fast_metrics →
  0 <= Routing.cumulative_risk safe_metrics →
  ∃ r,
    Routing.calculate_risk_reduction safe_metrics fast_metrics = Py.Ok r
    ∧ Routing.risk_reduction_pct r <= Num.hundred
    ∧ (0 <= Routing.risk_reduction_pct r
       ↔ Routing.cumulative_risk safe_metrics <= Routing.cumulative_risk fast_metrics)
    ∧ Routing.risk_reduction_pct r * Routing.cumulative_risk fast_metrics
      = Num.hundred * Routing.absolute_risk_reduction r.
Proof.
  intros Hfast Hsafe.
  unfold Routing.calculate_risk_reduction, Num.eqb, Num.gtb.
  rewrite (bool_decide_eq_false_2 _ (pos_nonzero _ Hfast)).
  rewrite (div_nonzero _ _ (pos_nonzero _ Hfast)). cbn.
  assert (∃ x, (if bool_decide (0 < Routing.length fast_metrics)
                then q ← Py.div (Routing.length safe_metrics - Routing.length fast_metrics)
                                (Routing.length fast_metrics);
                     Py.Ok (q * Num.hundred)
                else Py.Ok 0) = Py.Ok x) as [x ->].
  { case_bool_decide as Hl; [|by eexists].
    rewrite (div_nonzero _ _ (pos_nonzero _ Hl)). by eexists. }
  cbn [mbind result_bind Py.bind]. eexists. split; [reflexivity|].
  cbn [Routing.risk_reduction_pct Routing.absolute_risk_reduction].
  by apply percentage_bounds.
Qed.

Lemma X8_risk_reduction_bounds_witness :
  let safe := {| Routing.length := Num.of_Z 700; Routing.cumulative_risk := Num.of_Z 100;
                 Routing.travel_time := Num.of_Z 70; Routing.num_edges := 3 |} in
  let fast := {| Routing.length := Num.of_Z 600; Routing.cumulative_risk := Num.of_Z 300;
                 Routing.travel_time := Num.of_Z 60; Routing.num_edges := 1 |} in
  ∃ r,
    Routing.calculate_risk_reduction safe fast = Py.Ok r
    ∧ Routing.risk_reduction_pct r <= Num.hundred
    ∧ (0 <= Routing.risk_reduction_pct r
       ↔ Routing.cumulative_risk safe <= Routing.cumulative_risk fast)
    ∧ Routing.risk_reduction_pct r * Routing.cumulative_risk fast
      = Num.hundred * Routing.absolute_risk_reduction r.
Proof.
  apply (X8_risk_reduction_bounds
           {| Routing.length := Num.of_Z 700; Routing.cumulative_risk := Num.of_Z 100;
              Routing.travel_time := Num.of_Z 70; Routing.num_edges := 3 |}
           {| Routing.length := Num.of_Z 600; Routing.cumulative_risk := Num.of_Z 300;
              Routing.travel_time := Num.of_Z 60; Routing.num_edges := 1 |}).
  - computed.
  - computed.
Defined.

(** X9: the comparison table has one row per route of the dict, in the
    order of the dict, carrying the name and the metrics that
    [calculate_route_metrics] gives for the route ([None] included); built
    from no route at all, the selection of its columns raises KeyError. *)
Theorem X9_compare_routes_rows (G : Graph.MultiDiGraph) :
  Routing.compare_routes G [] = Py.Raise Py.KeyError
  ∧ ∀ item items,
      ∃ rows,
        Routing.compare_routes G (item :: items) = Py.Ok rows
        ∧ map Routing.route_name rows = map fst (item :: items)
        ∧ Forall2 (λ it row,
                     Routing.calculate_route_metrics G it.2
                     = Py.Ok (Routing.row_metrics row))
            (item :: items) rows.
Proof.
  split; [done|]. intros item items.
  unfold Routing.compare_routes. rewrite compare_loop. cbn [app map].
  eexists. split; [reflexivity|]. split.
  - cbn. f_equal. rewrite map_map. by apply map_ext.
  - constructor; [apply calculate_route_metrics_of|].
    induction items as [|it items IH]; constructor;
      [apply calculate_route_metrics_of | exact IH].
Qed.

(** ** The request of [app.py] *)

(** X10: a request served with a RiskMap that is 0 on every tile, on a
    network with at least one edge whose edges all carry a length.  The
    cached network is left as it was.  Whenever the step ends with a
    comparison, the safe route is the fast route, their metrics are equal,
    and the risk reduction, the length difference and the length increase
    shown are all 0; and it does end with a comparison as soon as a route
    by length exists and its geometry can be built. *)
Theorem X10_zero_risk_request
    {gdf : Type}
    (nearest_nodes : Graph.MultiDiGraph → Qc → Qc → Graph.node)
    (search : list Graph.node → list (Graph.edge_id * Qc) → Graph.node → Graph.node
              → option (list Graph.node))
    (route_to_gdf : Graph.MultiDiGraph → list Graph.node → Py.result gdf)
    (h : Graph.heap) (G : Graph.loc) (g : Graph.MultiDiGraph)
    (tile_edge_mapping : Routing.TileEdgeMapping) (tile_risks : Routing.TileRisks)
    (origin_point dest_point : Qc * Qc) :
  h !! G = Some g →
  Graph.edges g ≠ [] →
  Forall (λ e, is_Some (Graph.num e.2 !! "length")) (Graph.edges g) →
  Spec.risk_map_zero tile_risks →
  let out := App.calculate_routes nearest_nodes search route_to_gdf h G
               tile_edge_mapping tile_risks origin_point dest_point in
  let g_risk := Spec.weighted tile_edge_mapping tile_risks g in
  out.1 !! G = Some g
  ∧ (∀ c, out.2 = Py.Ok (App.Compared c) →
       App.safe_route c = App.fast_route c
       ∧ App.safe_metrics c = App.fast_metrics c
       ∧ Routing.risk_reduction_pct (App.reduction c) = 0
       ∧ Routing.absolute_risk_reduction (App.reduction c) = 0
       ∧ Routing.length_difference_m (App.reduction c) = 0
       ∧ Routing.length_increase_pct (App.reduction c) = 0)
  ∧ (∀ route frame,
       Routing.find_safe_route nearest_nodes search g_risk origin_point dest_point "length"
       = Some route →
       route_to_gdf g_risk route = Py.Ok frame →
       ∃ c, out.2 = Py.Ok (App.Compared c) ∧ App.fast_route c = route).
Proof.
  intros Hg Hne Hlen Hzero out g_risk. subst out.
  unfold App.calculate_routes, App.weight_request.
  destruct (copy_fresh h G g Hg) as (G' & -> & Hfresh & Hneq).
  rewrite (apply_risk_weights_weighted _ _ g) by apply lookup_insert_eq.
  rewrite insert_insert_eq. destruct (Graph.edges g) as [|e0 es] eqn:He; [done|].
  rewrite lookup_insert_eq. fold g_risk.
  assert (Routing.find_safe_route nearest_nodes search g_risk origin_point dest_point
            "risk_weight"
          = Routing.find_safe_route nearest_nodes search g_risk origin_point dest_point
              "length") as Hsame.
  { unfold Routing.find_safe_route, Routing.shortest_path. subst g_risk.
    unfold Spec.weighted. rewrite zero_risk_weighted_view; [done | done |].
    by rewrite He. }
  rewrite Hsame. cbn [fst snd].
  split; [by rewrite lookup_insert_ne|].
  destruct (Routing.find_safe_route nearest_nodes search g_risk origin_point dest_point
              "length") as [route|]; [|split; [done | by intros ? ? [=]]].
  cbn [Routing.route_to_geodataframe].
  rewrite calculate_route_metrics_of.
  destruct (calculate_risk_reduction_self (Spec.metrics_of g_risk (Some route)))
    as (r & Hr & Hpct & Habs & Hdiff & Hinc).
  destruct (route_to_gdf g_risk route) as [frame|e] eqn:Hgdf.
  - cbn [mbind result_bind Py.bind]. rewrite Hr. cbn [mbind result_bind Py.bind]. split.
    + intros c [= <-]. by cbn.
    + intros route' frame' [= <-] _. by eexists.
  - cbn [mbind result_bind Py.bind]. split; [done|].
    intros route' frame' [= <-]. by rewrite Hgdf.
Qed.

Lemma X10_zero_risk_request_witness :
  let out := App.calculate_routes Osmnx.nearest_nodes Osmnx.dijkstra
               (λ _ route, Py.Ok route) (Scenario.store_of Scenario.one_edge) 1%positive
               Scenario.one_edge_mapping Scenario.zero_risks
               (0, 0) (0, Num.of_Z 600) in
  let g_risk := Spec.weighted Scenario.one_edge_mapping Scenario.zero_risks
                  Scenario.one_edge in
  out.1 !! 1%positive = Some Scenario.one_edge
  ∧ (∀ c, out.2 = Py.Ok (App.Compared c) →
       App.safe_route c = App.fast_route c
       ∧ App.safe_metrics c = App.fast_metrics c
       ∧ Routing.risk_reduction_pct (App.reduction c) = 0
       ∧ Routing.absolute_risk_reduction (App.reduction c) = 0
       ∧ Routing.length_difference_m (App.reduction c) = 0
       ∧ Routing.length_increase_pct (App.reduction c) = 0)
  ∧ (∀ route frame,
       Routing.find_safe_route Osmnx.nearest_nodes Osmnx.dijkstra g_risk
         (0, 0) (0, Num.of_Z 600) "length" = Some route →
       (λ (_ : Graph.MultiDiGraph) (route : list Graph.node), Py.Ok route) g_risk route
       = Py.Ok frame →
       ∃ c, out.2 = Py.Ok (App.Compared c) ∧ App.fast_route c = route).
Proof.
  apply (X10_zero_risk_request Osmnx.nearest_nodes Osmnx.dijkstra
           (λ _ route, Py.Ok route) (Scenario.store_of Scenario.one_edge) 1%positive
           Scenario.one_edge Scenario.one_edge_mapping Scenario.zero_risks
           (0, 0) (0, Num.of_Z 600)).
  - reflexivity.
  - discriminate.
  - repeat constructor; by eexists.
  - computed.
Defined.

(** ** The aggregator *)

Section AggregateFacts.
Import Loops CynetWrapper.

Lemma max_from (l : list Qc) (a : Qc) :
  let m := fold_left Num.max2 l a in
  m ∈ a :: l ∧ a <= m ∧ Forall (λ p, p <= m) l.
Proof.
  cbn zeta. revert a. induction l as [|b l IH]; intros a; cbn [fold_left].
  - split; [left | split; [apply Qcle_refl | constructor]].
  - destruct (IH (Num.max2 a b)) as (Hin & Hge & Hall).
    assert (a <= Num.max2 a b ∧ b <= Num.max2 a b ∧ (Num.max2 a b = a ∨ Num.max2 a b = b))
      as (Ha & Hb & Hor).
    { unfold Num.max2. case_bool_decide as Hlt.
      - split; [by apply Qclt_le_weak|]. split; [apply Qcle_refl | by right].
      - split; [apply Qcle_refl|]. split; [by apply Qcnot_lt_le | by left]. }
    split; [|split].
    + apply elem_of_cons in Hin as [Hin | Hin]; [|by do 2 right].
      rewrite Hin. destruct Hor as [-> | ->]; [left | right; left].
    + by eapply Qcle_trans.
    + constructor; [by eapply Qcle_trans | done].
Qed.

Lemma max_of_spec (l : list Qc) :
  match max_of l with
  | Py.Ok m => l ≠ [] ∧ m ∈ l ∧ Forall (λ p, p <= m) l
  | Py.Raise e => l = [] ∧ e = Py.ValueError
  end.
Proof.
  destruct l as [|a l]; [done|]. cbn.
  destruct (max_from l a) as (Hin & Hge & Hall).
  split; [done|]. split; [done|]. by constructor.
Qed.

(** A loop that fills a dict from the items of another, when no body
    raises: the dict of the values. *)
Lemma fill_loop {A B} (f : A → Py.result B) (g : A → B) (l : list (string * A))
    (acc : gmap string B) :
  NoDup l.*1 →
  Forall (λ kv, f kv.2 = Py.Ok (g kv.2)) l →
  for_each (λ (m : gmap string B) (kv : string * A), x ← f kv.2; Py.Ok (<[kv.1 := x]> m))
    l acc
  = Py.Ok ((g <$> (list_to_map l : gmap string A)) ∪ acc).
Proof.
  intros Hnd Hall. revert acc.
  induction Hall as [|[k v] l Hkv _ IH]; intros acc; cbn [for_each].
  - cbn. by rewrite fmap_empty, (left_id_L ∅ (∪)).
  - cbn [fst snd] in *. rewrite Hkv. cbn [mbind result_bind Py.bind].
    apply NoDup_cons in Hnd as [Hk Hnd]. rewrite (IH Hnd).
    cbn [list_to_map foldr]. cbn [fst snd]. rewrite fmap_insert. f_equal.
    rewrite <- insert_union_l. symmetry. apply insert_union_r.
    rewrite lookup_fmap. apply fmap_None. by apply not_elem_of_list_to_map_1.
Qed.

(** The same loop when a body raises and every failing body raises the
    same exception. *)
Lemma fill_loop_raises {A B} (f : A → Py.result B) (e : Py.exn) (l : list (string * A))
    (acc : gmap string B) :
  Forall (λ kv, ∀ e', f kv.2 = Py.Raise e' → e' = e) l →
  Exists (λ kv, f kv.2 = Py.Raise e) l →
  for_each (λ (m : gmap string B) (kv : string * A), x ← f kv.2; Py.Ok (<[kv.1 := x]> m))
    l acc
  = Py.Raise e.
Proof.
  intros Hall Hex. revert acc.
  induction Hall as [|[k v] l Hkv Hall IH]; intros acc; [by apply Exists_nil in Hex|].
  cbn [for_each fst snd] in *.
  destruct (f v) as [x|e'] eqn:Hf; cbn [mbind result_bind Py.bind] in *.
  - apply IH. apply Exists_cons in Hex as [Hex | Hex]; [|done].
    cbn [snd] in Hex. congruence.
  - by rewrite (Hkv e' eq_refl).
Qed.

Lemma known_method (method : string) :
  String.eqb method "max" || String.eqb method "mean" || String.eqb method "sum" = true →
  method = "max" ∨ method = "mean" ∨ method = "sum".
Proof.
  intros H. apply orb_true_iff in H as [H | H]; [apply orb_true_iff in H as [H | H]|];
    apply String.eqb_eq in H; auto.
Qed.

Lemma aggregate_value_spec (method : string) (v : Prediction) :
  method = "max" ∨ method = "mean" ∨ method = "sum" →
  (∀ l, v = Sequence l → l ≠ []) →
  ∃ x, aggregate_value method v = Py.Ok x ∧ Spec.aggregates method v x.
Proof.
  intros Hm Hne. destruct v as [l|q]; [|by eexists].
  specialize (Hne l eq_refl). unfold aggregate_value, Spec.aggregates.
  destruct Hm as [-> | [-> | ->]]; cbn [String.eqb Ascii.eqb Bool.eqb].
  - pose proof (max_of_spec l) as Hmax. destruct (max_of l) as [m|e]; [|by destruct Hmax].
    destruct Hmax as (_ & Hin & Hall). cbn. eexists. split; [done|].
    exists m. by repeat split.
  - destruct l as [|a l]; [done|]. cbn [np_mean]. eexists. split; [done|].
    eexists. by repeat split.
  - eexists. split; [done|]. eexists. by repeat split.
Qed.

End AggregateFacts.

(** X11: for the methods max, mean and sum, and predictions in which no
    sequence is empty, the aggregation returns a dict with the keys of the
    predictions; a value that is not a sequence is passed through, the
    maximum of a sequence is one of its elements and no element exceeds
    it, the sum is the sum of its elements, and the mean is a number, not
    nan. *)
Theorem X11_aggregate_tile_predictions_values
    (predictions : gmap string CynetWrapper.Prediction) (method : string) :
  method = "max" ∨ method = "mean" ∨ method = "sum" →
  map_Forall (λ _ v, ∀ l, v = CynetWrapper.Sequence l → l ≠ []) predictions →
  ∃ aggregated,
    CynetWrapper.aggregate_tile_predictions predictions method = Py.Ok aggregated
    ∧ dom aggregated = dom predictions
    ∧ ∀ k, option_Forall2 (Spec.aggregates method) (predictions !! k) (aggregated !! k).
Proof.
  intros Hm Hne. exists (Spec.settled method <$> predictions).
  split; [|split].
  - unfold CynetWrapper.aggregate_tile_predictions.
    replace (String.eqb method "max" || String.eqb method "mean" || String.eqb method "sum")
      with true by (by destruct Hm as [-> | [-> | ->]]).
    rewrite (fill_loop _ (Spec.settled method)).
    + by rewrite list_to_map_to_list, (right_id_L ∅ (∪)).
    + apply NoDup_fst_map_to_list.
    + apply Forall_forall. intros [k v] Hkv. apply elem_of_map_to_list in Hkv.
      cbn [snd]. destruct (aggregate_value_spec method v Hm (Hne _ _ Hkv)) as (x & Hx & _).
      unfold Spec.settled. by rewrite Hx.
  - apply dom_fmap_L.
  - intros k. rewrite lookup_fmap. destruct (predictions !! k) as [v|] eqn:Hk; cbn.
    + constructor.
      destruct (aggregate_value_spec method v Hm (Hne _ _ Hk)) as (x & Hx & Hagg).
      unfold Spec.settled. by rewrite Hx.
    + constructor.
Qed.

Lemma four_hours_nonempty :
  map_Forall (λ _ v, ∀ l, v = CynetWrapper.Sequence l → l ≠ []) Scenario.four_hours.
Proof.
  intros k v Hk l ->. unfold Scenario.four_hours in Hk.
  apply lookup_insert_Some in Hk as [[_ [= <-]] | [_ Hk]]; [done|].
  apply lookup_insert_Some in Hk as [[_ [=]] | [_ Hk]]. by rewrite lookup_empty in Hk.
Qed.

Lemma X11_aggregate_values_witness :
  ∃ aggregated,
    CynetWrapper.aggregate_tile_predictions Scenario.four_hours "mean" = Py.Ok aggregated
    ∧ dom aggregated = dom Scenario.four_hours
    ∧ ∀ k, option_Forall2 (Spec.aggregates "mean") (Scenario.four_hours !! k)
             (aggregated !! k).
Proof.
  apply (X11_aggregate_tile_predictions_values Scenario.four_hours "mean").
  - right. left. reflexivity.
  - exact four_hours_nonempty.
Defined.

(** The aggregation scenario of the specification: maximum 0.9, and the
    mean 0.375 (on exact numbers). *)
Example scenario_aggregation :
  (m ← CynetWrapper.aggregate_tile_predictions Scenario.four_hours "max";
   Py.Ok (m !! "tile_0_0")) = Py.Ok (Some (CynetWrapper.Finite (Num.frac 9 10)))
  ∧ (m ← CynetWrapper.aggregate_tile_predictions Scenario.four_hours "mean";
     Py.Ok (m !! "tile_0_0")) = Py.Ok (Some (CynetWrapper.Finite (Num.frac 375 1000))).
Proof.
  split; [vm_compute; reflexivity|].
  vm_compute. do 3 f_equal. by apply Qc_is_canon.
Qed.

Section AggregateEdges.
Import Loops CynetWrapper.

Lemma aggregate_value_no_max (method : string) (v : Prediction) :
  method ≠ "max" → aggregate_value method v = Py.Ok (Spec.settled method v).
Proof.
  intros Hm. unfold Spec.settled. destruct v as [l|q]; [|done].
  unfold aggregate_value. destruct (String.eqb_spec method "max"); [done|].
  by destruct (String.eqb method "mean").
Qed.

Lemma aggregate_no_max (predictions : gmap string Prediction) (method : string) :
  method = "mean" ∨ method = "sum" →
  aggregate_tile_predictions predictions method = Py.Ok (Spec.settled method <$> predictions).
Proof.
  intros Hm. unfold aggregate_tile_predictions.
  replace (String.eqb method "max" || String.eqb method "mean" || String.eqb method "sum")
    with true by (by destruct Hm as [-> | ->]).
  rewrite (fill_loop _ (Spec.settled method)).
  - by rewrite list_to_map_to_list, (right_id_L ∅ (∪)).
  - apply NoDup_fst_map_to_list.
  - apply Forall_forall. intros [k v] _. apply aggregate_value_no_max.
    by destruct Hm as [-> | ->].
Qed.

Lemma aggregate_value_raises (method : string) (v : Prediction) (e : Py.exn) :
  aggregate_value method v = Py.Raise e → e = Py.ValueError.
Proof.
  destruct v as [l|q]; [|done]. unfold aggregate_value.
  destruct (String.eqb method "max").
  - pose proof (max_of_spec l) as Hmax. destruct (max_of l); [done|].
    cbn. intros [= <-]. by destruct Hmax.
  - by destruct (String.eqb method "mean").
Qed.

End AggregateEdges.

(** X12: with a key whose sequence is empty, the aggregation raises
    ValueError under "max", returns nan for that key under "mean" and 0
    under "sum"; a method other than the three raises ValueError whatever
    the predictions. *)
Theorem X12_aggregate_empty_sequence
    (predictions : gmap string CynetWrapper.Prediction) (k : string) :
  predictions !! k = Some (CynetWrapper.Sequence []) →
  CynetWrapper.aggregate_tile_predictions predictions "max" = Py.Raise Py.ValueError
  ∧ (∃ aggregated,
       CynetWrapper.aggregate_tile_predictions predictions "mean" = Py.Ok aggregated
       ∧ aggregated !! k = Some CynetWrapper.NaN)
  ∧ (∃ aggregated,
       CynetWrapper.aggregate_tile_predictions predictions "sum" = Py.Ok aggregated
       ∧ aggregated !! k = Some (CynetWrapper.Finite 0))
  ∧ ∀ method, method ∉ ["max"; "mean"; "sum"] →
      CynetWrapper.aggregate_tile_predictions predictions method = Py.Raise Py.ValueError.
Proof.
  intros Hk. split; [|split; [|split]].
  - unfold CynetWrapper.aggregate_tile_predictions. cbn [String.eqb Ascii.eqb Bool.eqb orb].
    apply fill_loop_raises.
    + apply Forall_forall. intros [k' v] _ e. apply aggregate_value_raises.
    + apply Exists_exists. exists (k, CynetWrapper.Sequence []).
      split; [by apply elem_of_map_to_list | done].
  - eexists. split; [by apply aggregate_no_max; left|].
    by rewrite lookup_fmap, Hk.
  - eexists. split; [by apply aggregate_no_max; right|].
    by rewrite lookup_fmap, Hk.
  - intros method Hm. unfold CynetWrapper.aggregate_tile_predictions.
    destruct (String.eqb_spec method "max") as [->|_]; [exfalso; apply Hm; set_solver|].
    destruct (String.eqb_spec method "mean") as [->|_]; [exfalso; apply Hm; set_solver|].
    destruct (String.eqb_spec method "sum") as [->|_]; [exfalso; apply Hm; set_solver|].
    done.
Qed.

Lemma X12_aggregate_empty_sequence_witness :
  CynetWrapper.aggregate_tile_predictions Scenario.with_empty "max" = Py.Raise Py.ValueError
  ∧ (∃ aggregated,
       CynetWrapper.aggregate_tile_predictions Scenario.with_empty "mean" = Py.Ok aggregated
       ∧ aggregated !! "tile_2_0" = Some CynetWrapper.NaN)
  ∧ (∃ aggregated,
       CynetWrapper.aggregate_tile_predictions Scenario.with_empty "sum" = Py.Ok aggregated
       ∧ aggregated !! "tile_2_0" = Some (CynetWrapper.Finite 0))
  ∧ ∀ method, method ∉ ["max"; "mean"; "sum"] →
      CynetWrapper.aggregate_tile_predictions Scenario.with_empty method
      = Py.Raise Py.ValueError.
Proof.
  apply (X12_aggregate_empty_sequence Scenario.with_empty "tile_2_0").
  reflexivity.
Defined.

(** ** The aggregator over the four hours *)

Section PredictFacts.
Import Loops Datetime CynetWrapper.

Lemma tile_value_spec (predictions : gmap string (list Qc)) (t : string) :
  match predictions !! t with
  | Some probs =>
      probs ≠ [] → Spec.tile_value predictions t ∈ probs
                   ∧ Forall (λ p, p <= Spec.tile_value predictions t) probs
  | None => Spec.tile_value predictions t = 0
  end.
Proof.
  unfold Spec.tile_value. destruct (predictions !! t) as [[|a l]|]; [done| |done].
  intros _. destruct (max_from l a) as (Hin & Hge & Hall). split; [done | by constructor].
Qed.

(** The loop of the [try] when no listed tile has an empty sequence. *)
Lemma predict_loop (predictions : gmap string (list Qc)) (tiles : list string)
    (acc : gmap string Qc) :
  Forall (λ t, predictions !! t ≠ Some []) tiles →
  for_each (λ (tile_risks : gmap string Qc) tile_id,
              match predictions !! tile_id with
              | Some probs => m ← max_of probs; Py.Ok (<[tile_id := m]> tile_risks)
              | None => Py.Ok (<[tile_id := 0]> tile_risks)
              end) tiles acc
  = Py.Ok (fold_left (λ m t, <[t := Spec.tile_value predictions t]> m) tiles acc).
Proof.
  intros Hall. revert acc.
  induction Hall as [|t tiles Ht _ IH]; intros acc; cbn [for_each fold_left]; [done|].
  unfold Spec.tile_value at 2.
  destruct (predictions !! t) as [[|a l]|]; [done| |]; cbn; apply IH.
Qed.

(** The loop of the [try] when a listed tile has an empty sequence. *)
Lemma predict_loop_raises (predictions : gmap string (list Qc)) (tiles : list string)
    (acc : gmap string Qc) :
  Exists (λ t, predictions !! t = Some []) tiles →
  for_each (λ (tile_risks : gmap string Qc) tile_id,
              match predictions !! tile_id with
              | Some probs => m ← max_of probs; Py.Ok (<[tile_id := m]> tile_risks)
              | None => Py.Ok (<[tile_id := 0]> tile_risks)
              end) tiles acc
  = Py.Raise Py.ValueError.
Proof.
  intros Hex. revert acc.
  induction tiles as [|t tiles IH]; intros acc; [by apply Exists_nil in Hex|].
  cbn [for_each]. destruct (predictions !! t) as [[|a l]|] eqn:Ht; [done| |];
    cbn; apply IH; by apply Exists_cons in Hex as [Hex | Hex]; [congruence|].
Qed.

Lemma keyed_fold_lookup {V} (val : string → V) (tiles : list string) (acc : gmap string V)
    (t : string) :
  fold_left (λ m t, <[t := val t]> m) tiles acc !! t
  = if decide (t ∈ tiles) then Some (val t) else acc !! t.
Proof.
  revert acc. induction tiles as [|t' tiles IH]; intros acc; cbn [fold_left].
  - by rewrite decide_False by apply not_elem_of_nil.
  - rewrite IH. destruct (decide (t ∈ tiles)) as [Hin | Hin].
    + by rewrite decide_True by (by right).
    + destruct (decide (t = t')) as [-> | Hne].
      * by rewrite lookup_insert_eq, decide_True by left.
      * rewrite lookup_insert_ne by done. rewrite decide_False; [done|].
        intros [?|?]%elem_of_cons; done.
Qed.

Lemma add_hours_hour (t t' : datetime) (i : Z) :
  (0 <= hour t + i)%Z →
  add_hours (floor_to_hour t) i = Py.Ok t' →
  hour t' = ((hour t + i) mod 24)%Z
  ∧ (year t', month t', day t') = ord2ymd (toordinal t + (hour t + i) / 24).
Proof.
  unfold add_hours. cbn [floor_to_hour hour minute second microsecond].
  replace (hour t * 3600 + 0 * 60 + 0 + i * 3600)%Z with ((hour t + i) * 3600)%Z by lia.
  assert (toordinal (floor_to_hour t) = toordinal t) as -> by done.
  assert (((hour t + i) * 3600) / 86400 = (hour t + i) / 24)%Z as ->.
  { replace 86400%Z with (3600 * 24)%Z by done.
    rewrite <- Z.div_div by lia. by rewrite Z.div_mul by lia. }
  intros Hnn. destruct (_ && _); [|done].
  destruct (ord2ymd _) as [[y m] d]. intros [= <-]. cbn [hour year month day].
  split; [|done].
  replace 86400%Z with (3600 * 24)%Z by done.
  rewrite (Z.mul_comm _ 3600), Zmult_mod_distr_l.
  rewrite (Z.mul_comm 3600), Z.div_mul by lia. done.
Qed.

Lemma add_hours_in_range (t : datetime) (i : Z) :
  (0 <= hour t < 24)%Z → (0 <= i < 24)%Z →
  (0 < toordinal t < MAXORDINAL)%Z →
  ∃ t', add_hours (floor_to_hour t) i = Py.Ok t'.
Proof.
  intros Hh Hi Hord. unfold add_hours. cbn [floor_to_hour hour minute second microsecond].
  replace (hour t * 3600 + 0 * 60 + 0 + i * 3600)%Z with ((hour t + i) * 3600)%Z by lia.
  assert (toordinal (floor_to_hour t) = toordinal t) as -> by done.
  assert (0 <= ((hour t + i) * 3600) / 86400 <= 1)%Z as Hd.
  { split; [apply Z.div_pos; lia|]. apply Z.lt_succ_r, Z.div_lt_upper_bound; lia. }
  assert ((0 <? toordinal t + (hour t + i) * 3600 / 86400)%Z
          && (toordinal t + (hour t + i) * 3600 / 86400 <=? MAXORDINAL)%Z = true) as ->.
  { apply andb_true_iff. split; [apply Z.ltb_lt | apply Z.leb_le]; lia. }
  destruct (ord2ymd _) as [[y m] d]. by eexists.
Qed.

Lemma add_hours_overflow (t : datetime) (i : Z) :
  toordinal t = MAXORDINAL → (24 <= hour t + i)%Z →
  add_hours (floor_to_hour t) i = Py.Raise Py.OverflowError.
Proof.
  intros Hord Hi. unfold add_hours. cbn [floor_to_hour hour minute second microsecond].
  replace (hour t * 3600 + 0 * 60 + 0 + i * 3600)%Z with ((hour t + i) * 3600)%Z by lia.
  assert (toordinal (floor_to_hour t) = toordinal t) as -> by done.
  assert (1 <= ((hour t + i) * 3600) / 86400)%Z as Hd
    by (apply Z.div_le_lower_bound; lia).
  assert ((toordinal t + (hour t + i) * 3600 / 86400 <=? MAXORDINAL)%Z = false) as ->
    by (apply Z.leb_gt; lia).
  by rewrite andb_false_r.
Qed.

Lemma add_hours_raises (t : datetime) (i : Z) (e : Py.exn) :
  add_hours t i = Py.Raise e → e = Py.OverflowError.
Proof.
  unfold add_hours. destruct (_ && _); [|by intros [= <-]].
  by destruct (ord2ymd _) as [[y m] d].
Qed.

Lemma comprehension_raises {A B} (f : A → Py.result B) (e : Py.exn) (l : list A) :
  Forall (λ a, ∀ e', f a = Py.Raise e' → e' = e) l →
  Exists (λ a, f a = Py.Raise e) l →
  comprehension f l = Py.Raise e.
Proof.
  intros Hall Hex. induction Hall as [|a l Ha Hall IH]; [by apply Exists_nil in Hex|].
  cbn [comprehension]. destruct (f a) as [b|e'] eqn:Hf; cbn [mbind result_bind Py.bind].
  - rewrite IH; [done|]. apply Exists_cons in Hex as [Hex | Hex]; [congruence | done].
  - by rewrite (Ha e' eq_refl).
Qed.

Lemma comprehension_lookup {A B} (f : A → Py.result B) (l : list A) (bs : list B) :
  comprehension f l = Py.Ok bs →
  List.length bs = List.length l
  ∧ ∀ i b, bs !! i = Some b → ∃ a, l !! i = Some a ∧ f a = Py.Ok b.
Proof.
  revert bs. induction l as [|a l IH]; intros bs; cbn [comprehension].
  - intros [= <-]. split; [done|]. intros i b. by rewrite lookup_nil.
  - destruct (f a) as [b|] eqn:Hf; [|done]. cbn [mbind result_bind Py.bind].
    destruct (comprehension f l) as [bs'|]; [|done]. cbn [mbind result_bind Py.bind].
    intros [= <-]. destruct (IH bs' eq_refl) as [Hlen Hbs].
    split; [by cbn; rewrite Hlen|].
    intros [|i] b'; cbn; [intros [= <-]; by exists a | apply Hbs].
Qed.

Lemma comprehension_total {A B} (f : A → Py.result B) (l : list A) :
  Forall (λ a, ∃ b, f a = Py.Ok b) l → ∃ bs, comprehension f l = Py.Ok bs.
Proof.
  induction 1 as [|a l [b Hb] _ [bs IH]]; [by eexists|].
  cbn [comprehension]. rewrite Hb, IH. by eexists.
Qed.

End PredictFacts.

(** X13: with a model whose [predict] returns, for the horizon asked, a
    dict in which no tile of the grid has an empty sequence, the aggregator
    returns a RiskMap keyed by exactly the tiles of the grid; the risk of a
    tile the model lists is the maximum of its probabilities (one of them,
    and none exceeds it), and a tile the model does not list gets 0. *)
Theorem X13_predict_next_4_hours_maximum
    (now : Datetime.datetime) (random_seed42 : nat → Qc)
    (model : CynetWrapper.Model) (tiles : list string)
    (reference_time : option Datetime.datetime)
    (predict' : list Datetime.datetime → Py.result (gmap string (list Qc)))
    (hours : list Datetime.datetime) (predictions : gmap string (list Qc)) :
  CynetWrapper.predict model = Some predict' →
  CynetWrapper.prediction_hours_of (Datetime.floor_to_hour (default now reference_time))
  = Py.Ok hours →
  predict' hours = Py.Ok predictions →
  Forall (λ t, predictions !! t ≠ Some []) tiles →
  ∃ tile_risks,
    CynetWrapper.predict_next_4_hours now random_seed42 model tiles reference_time
    = Py.Ok tile_risks
    ∧ (∀ t, t ∈ tiles ↔ is_Some (tile_risks !! t))
    ∧ ∀ t, t ∈ tiles →
        match predictions !! t with
        | Some probs => ∃ m, tile_risks !! t = Some m ∧ m ∈ probs ∧ Forall (λ p, p <= m) probs
        | None => tile_risks !! t = Some 0
        end.
Proof.
  intros Hmodel Hhours Hpred Hne.
  exists (fold_left (λ m t, <[t := Spec.tile_value predictions t]> m) tiles ∅).
  split; [|split].
  - unfold CynetWrapper.predict_next_4_hours. rewrite Hhours.
    cbn [mbind result_bind Py.bind]. unfold CynetWrapper.try_predict.
    rewrite Hmodel, Hpred. cbn [mbind result_bind Py.bind].
    by rewrite predict_loop.
  - intros t. rewrite keyed_fold_lookup. destruct (decide (t ∈ tiles)) as [Hin | Hin].
    + split; [by eexists | done].
    + rewrite lookup_empty. split; [done | by intros [? [=]]].
  - intros t Hin. rewrite keyed_fold_lookup, decide_True by done.
    pose proof (tile_value_spec predictions t) as Hval.
    destruct (predictions !! t) as [probs|] eqn:Ht; [|by rewrite Hval].
    eexists. split; [done|]. apply Hval. intros ->.
    by apply (proj1 (Forall_forall _ _) Hne t Hin).
Qed.

Lemma X13_predict_maximum_witness :
  ∃ tile_risks,
    CynetWrapper.predict_next_4_hours Scenario.evening Scenario.random_seed42
      Scenario.forecast Scenario.two_tiles None = Py.Ok tile_risks
    ∧ (∀ t, t ∈ Scenario.two_tiles ↔ is_Some (tile_risks !! t))
    ∧ ∀ t, t ∈ Scenario.two_tiles →
        match ({[ "tile_0_0" := [Num.frac 1 10; Num.frac 9 10; Num.frac 3 10; Num.frac 2 10] ]}
                 : gmap string (list Qc)) !! t with
        | Some probs => ∃ m, tile_risks !! t = Some m ∧ m ∈ probs ∧ Forall (λ p, p <= m) probs
        | None => tile_risks !! t = Some 0
        end.
Proof.
  apply (X13_predict_next_4_hours_maximum Scenario.evening Scenario.random_seed42
           Scenario.forecast Scenario.two_tiles None
           (λ _, Py.Ok {[ "tile_0_0" := [Num.frac 1 10; Num.frac 9 10;
                                         Num.frac 3 10; Num.frac 2 10] ]})
           (map (λ dh : Z * Z,
                   {| Datetime.year := 2024; Datetime.month := 2; Datetime.day := dh.1;
                      Datetime.hour := dh.2; Datetime.minute := 0; Datetime.second := 0;
                      Datetime.microsecond := 0 |})
                [(28, 23); (29, 0); (29, 1); (29, 2)]%Z)).
  - reflexivity.
  - by vm_compute.
  - reflexivity.
  - apply (bool_decide_unpack _). vm_compute. exact I.
Defined.

(** The aggregation scenario through the aggregator: the tile with the
    probabilities 0.1, 0.9, 0.3, 0.2 gets 0.9, the tile the model does not
    know gets 0. *)
Example scenario_maximum :
  (m ← CynetWrapper.predict_next_4_hours Scenario.evening Scenario.random_seed42
         Scenario.forecast Scenario.two_tiles None;
   Py.Ok (m !! "tile_0_0", m !! "tile_1_0"))
  = Py.Ok (Some (Num.frac 9 10), Some 0).
Proof. vm_compute. reflexivity. Qed.

(** X14: an exception raised by the model's [predict] is swallowed only
    if it is an AttributeError, in which case the seeded fallback values
    are returned; any other exception leaves the aggregator as it is. *)
Theorem X14_predict_errors
    (now : Datetime.datetime) (random_seed42 : nat → Qc)
    (model : CynetWrapper.Model) (tiles : list string)
    (reference_time : option Datetime.datetime)
    (predict' : list Datetime.datetime → Py.result (gmap string (list Qc)))
    (hours : list Datetime.datetime) (e : Py.exn) :
  CynetWrapper.predict model = Some predict' →
  CynetWrapper.prediction_hours_of (Datetime.floor_to_hour (default now reference_time))
  = Py.Ok hours →
  predict' hours = Py.Raise e →
  CynetWrapper.predict_next_4_hours now random_seed42 model tiles reference_time
  = match e with
    | Py.AttributeError => Py.Ok (CynetWrapper.dummy_predictions random_seed42 tiles)
    | _ => Py.Raise e
    end.
Proof.
  intros Hmodel Hhours Hpred.
  unfold CynetWrapper.predict_next_4_hours. rewrite Hhours.
  cbn [mbind result_bind Py.bind]. unfold CynetWrapper.try_predict.
  rewrite Hmodel, Hpred. cbn [mbind result_bind Py.bind].
  by destruct e.
Qed.

Lemma X14_predict_errors_witness :
  CynetWrapper.predict_next_4_hours Scenario.evening Scenario.random_seed42
    Scenario.unreachable Scenario.two_tiles None
  = Py.Raise (Py.OtherError "ConnectionError").
Proof.
  apply (X14_predict_errors Scenario.evening Scenario.random_seed42
           Scenario.unreachable Scenario.two_tiles None
           (λ _, Py.Raise (Py.OtherError "ConnectionError"))
           (map (λ dh : Z * Z,
                   {| Datetime.year := 2024; Datetime.month := 2; Datetime.day := dh.1;
                      Datetime.hour := dh.2; Datetime.minute := 0; Datetime.second := 0;
                      Datetime.microsecond := 0 |})
                [(28, 23); (29, 0); (29, 1); (29, 2)]%Z)
           (Py.OtherError "ConnectionError")).
  - reflexivity.
  - by vm_compute.
  - reflexivity.
Defined.

(** X15: when the model lists a tile of the grid with an empty sequence
    of probabilities, the aggregator raises ValueError: the tile gets
    neither 0 nor a fallback value, and no RiskMap is returned. *)
Theorem X15_empty_probabilities_raise
    (now : Datetime.datetime) (random_seed42 : nat → Qc)
    (model : CynetWrapper.Model) (tiles : list string)
    (reference_time : option Datetime.datetime)
    (predict' : list Datetime.datetime → Py.result (gmap string (list Qc)))
    (hours : list Datetime.datetime) (predictions : gmap string (list Qc)) (t : string) :
  CynetWrapper.predict model = Some predict' →
  CynetWrapper.prediction_hours_of (Datetime.floor_to_hour (default now reference_time))
  = Py.Ok hours →
  predict' hours = Py.Ok predictions →
  t ∈ tiles →
  predictions !! t = Some [] →
  CynetWrapper.predict_next_4_hours now random_seed42 model tiles reference_time
  = Py.Raise Py.ValueError.
Proof.
  intros Hmodel Hhours Hpred Hin Ht.
  unfold CynetWrapper.predict_next_4_hours. rewrite Hhours.
  cbn [mbind result_bind Py.bind]. unfold CynetWrapper.try_predict.
  rewrite Hmodel, Hpred. cbn [mbind result_bind Py.bind].
  rewrite predict_loop_raises; [done|]. apply Exists_exists. by exists t.
Qed.

Lemma X15_empty_probabilities_witness :
  CynetWrapper.predict_next_4_hours Scenario.evening Scenario.random_seed42
    Scenario.silent Scenario.two_tiles None
  = Py.Raise Py.ValueError.
Proof.
  apply (X15_empty_probabilities_raise Scenario.evening Scenario.random_seed42
           Scenario.silent Scenario.two_tiles None
           (λ _, Py.Ok {[ "tile_1_0" := [] ]})
           (map (λ dh : Z * Z,
                   {| Datetime.year := 2024; Datetime.month := 2; Datetime.day := dh.1;
                      Datetime.hour := dh.2; Datetime.minute := 0; Datetime.second := 0;
                      Datetime.microsecond := 0 |})
                [(28, 23); (29, 0); (29, 1); (29, 2)]%Z)
           {[ "tile_1_0" := [] ]} "tile_1_0").
  - reflexivity.
  - by vm_compute.
  - reflexivity.
  - apply (bool_decide_unpack _). vm_compute. exact I.
  - reflexivity.
Defined.

(** X16: for a reference instant with an hour of the day in 0..23, on a
    day that is not the last of the calendar, the horizon is generated: it
    has four instants, each on the hour; the i-th has hour (h + i) mod 24
    and the date of the reference day, or of the next day once h + i
    passes midnight. *)
Theorem X16_prediction_hours_shape (t : Datetime.datetime) :
  (0 <= Datetime.hour t < 24)%Z →
  (0 < Datetime.toordinal t < Datetime.MAXORDINAL)%Z →
  ∃ hours,
    CynetWrapper.prediction_hours_of (Datetime.floor_to_hour t) = Py.Ok hours
    ∧ List.length hours = 4%nat
    ∧ ∀ (i : nat) t', hours !! i = Some t' →
        Datetime.minute t' = 0%Z ∧ Datetime.second t' = 0%Z
        ∧ Datetime.microsecond t' = 0%Z
        ∧ Datetime.hour t' = ((Datetime.hour t + Z.of_nat i) mod 24)%Z
        ∧ (Datetime.year t', Datetime.month t', Datetime.day t')
          = Datetime.ord2ymd (Datetime.toordinal t + (Datetime.hour t + Z.of_nat i) / 24).
Proof.
  intros Hh Hord. unfold CynetWrapper.prediction_hours_of.
  destruct (comprehension_total (λ i : Z, Datetime.add_hours (Datetime.floor_to_hour t) i)
              [0; 1; 2; 3]%Z) as [hours Hhours].
  { repeat constructor; apply add_hours_in_range; lia. }
  exists hours. split; [done|].
  destruct (comprehension_lookup _ _ _ Hhours) as [Hlen Hat].
  split; [done|]. intros i t' Hi. destruct (Hat i t' Hi) as (z & Hz & Hadd).
  assert (z = Z.of_nat i) as ->.
  { destruct i as [|[|[|[|i]]]]; cbn in Hz; by inversion Hz. }
  destruct (add_hours_on_the_hour _ _ _ Hadd) as (Hm & Hs & Hus).
  destruct (add_hours_hour t t' (Z.of_nat i) ltac:(lia) Hadd) as [Hhour Hdate].
  done.
Qed.

Lemma X16_prediction_hours_witness :
  ∃ hours,
    CynetWrapper.prediction_hours_of (Datetime.floor_to_hour Scenario.evening) = Py.Ok hours
    ∧ List.length hours = 4%nat
    ∧ ∀ (i : nat) t', hours !! i = Some t' →
        Datetime.minute t' = 0%Z ∧ Datetime.second t' = 0%Z
        ∧ Datetime.microsecond t' = 0%Z
        ∧ Datetime.hour t' = ((Datetime.hour Scenario.evening + Z.of_nat i) mod 24)%Z
        ∧ (Datetime.year t', Datetime.month t', Datetime.day t')
          = Datetime.ord2ymd (Datetime.toordinal Scenario.evening
                              + (Datetime.hour Scenario.evening + Z.of_nat i) / 24).
Proof.
  apply (X16_prediction_hours_shape Scenario.evening).
  - vm_compute. split; [discriminate | reflexivity].
  - vm_compute. split; reflexivity.
Defined.

(** X17: on the last day of the calendar, from 21:00 on, the horizon
    leaves the calendar and the aggregator raises OverflowError, whatever
    the model: the fallback for a model without [predict] is not reached. *)
Theorem X17_horizon_overflow
    (now : Datetime.datetime) (random_seed42 : nat → Qc)
    (model : CynetWrapper.Model) (tiles : list string) (t : Datetime.datetime) :
  Datetime.toordinal t = Datetime.MAXORDINAL →
  (21 <= Datetime.hour t)%Z →
  CynetWrapper.predict_next_4_hours now random_seed42 model tiles (Some t)
  = Py.Raise Py.OverflowError.
Proof.
  intros Hord Hh. unfold CynetWrapper.predict_next_4_hours.
  cbn [default from_option Datatypes.id]. unfold CynetWrapper.prediction_hours_of.
  rewrite (comprehension_raises _ Py.OverflowError); [done| |].
  - apply Forall_forall. intros i _ e. apply add_hours_raises.
  - do 3 apply Exists_cons_tl. apply Exists_cons_hd. apply add_hours_overflow; [done | lia].
Qed.

Lemma X17_horizon_overflow_witness :
  CynetWrapper.predict_next_4_hours Scenario.evening Scenario.random_seed42
    Scenario.no_predict Scenario.two_tiles (Some Scenario.last_evening)
  = Py.Raise Py.OverflowError.
Proof.
  apply (X17_horizon_overflow Scenario.evening Scenario.random_seed42
           Scenario.no_predict Scenario.two_tiles Scenario.last_evening).
  - reflexivity.
  - vm_compute. discriminate.
Defined.

(** ** Placeholder predictions *)

Section PlaceholderFacts.
Import CynetWrapper.
Context (random_seed42 : nat → Qc) (default_risk : Qc).

Lemma placeholder_fold_last (its : list (nat * string)) (m0 : gmap string Qc)
    (p i : nat) (t : string) :
  its !! p = Some (i, t) →
  (∀ q j, (p < q)%nat → its !! q ≠ Some (j, t)) →
  fold_left (λ (tile_risks : gmap string Qc) (it : nat * string),
               <[it.2 := random_seed42 it.1 * default_risk]> tile_risks) its m0 !! t
  = Some (random_seed42 i * default_risk).
Proof.
  induction its as [|[j t'] its IH] using rev_ind; [done|].
  intros Hp Hlast. rewrite fold_left_app. cbn [fold_left fst snd].
  destruct (decide (p = List.length its)) as [-> | Hne].
  - rewrite lookup_app_r, Nat.sub_diag in Hp by done. cbn in Hp.
    injection Hp as -> ->. by rewrite lookup_insert_eq.
  - assert (p < List.length its)%nat as Hlt.
    { apply lookup_lt_Some in Hp. rewrite length_app in Hp. cbn in Hp. lia. }
    rewrite lookup_app_l in Hp by done.
    assert (t' ≠ t) as Hdiff.
    { intros ->. apply (Hlast (List.length its) j Hlt).
      by rewrite lookup_app_r, Nat.sub_diag by done. }
    rewrite lookup_insert_ne by done. apply IH; [done|].
    intros q k Hq Hk. apply (Hlast q k Hq).
    by rewrite lookup_app_l by (by eapply lookup_lt_Some).
Qed.

Lemma placeholder_fold_dom (its : list (nat * string)) (m0 : gmap string Qc) (t : string) :
  is_Some (fold_left (λ (tile_risks : gmap string Qc) (it : nat * string),
                        <[it.2 := random_seed42 it.1 * default_risk]> tile_risks) its m0 !! t)
  ↔ is_Some (m0 !! t) ∨ t ∈ its.*2.
Proof.
  revert m0. induction its as [|[i t'] its IH]; intros m0; cbn [fold_left].
  - rewrite fmap_nil, elem_of_nil. tauto.
  - rewrite IH, fmap_cons, elem_of_cons. cbn [fst snd].
    rewrite lookup_insert_is_Some. destruct (decide (t' = t)) as [->|Hne]; intuition congruence.
Qed.

Lemma placeholder_fold_lookup (its : list (nat * string)) (m0 : gmap string Qc)
    (t : string) (r : Qc) :
  fold_left (λ (tile_risks : gmap string Qc) (it : nat * string),
               <[it.2 := random_seed42 it.1 * default_risk]> tile_risks) its m0 !! t
  = Some r →
  m0 !! t = Some r ∨ ∃ i, (i, t) ∈ its ∧ r = random_seed42 i * default_risk.
Proof.
  revert m0. induction its as [|[i t'] its IH]; intros m0; cbn [fold_left]; [by left|].
  intros Hr. apply IH in Hr as [Hr | (j & Hj & ->)].
  - cbn [fst snd] in Hr. apply lookup_insert_Some in Hr as [[-> <-] | [_ Hr]].
    + right. exists i. split; [left | done].
    + by left.
  - right. exists j. split; [by right | done].
Qed.

Lemma draw_scaled (d : Qc) :
  0 <= d → d < 1 → 0 <= default_risk →
  0 <= d * default_risk ∧ d * default_risk <= default_risk.
Proof. intros H0 H1 Hr. qc2q. split; nra. Qed.

End PlaceholderFacts.

(** X18: with draws in [0, 1) and a default risk that is not negative,
    the placeholder RiskMap is keyed by exactly the tiles of the grid and
    every value lies between 0 and the default risk; the tile at a position
    gets the draw of that position times the default risk, unless the same
    tile id occurs again later, in which case the last occurrence decides.
    At a default risk of 0.3 it is the fallback of the aggregator. *)
Theorem X18_create_prediction_placeholder
    (random_seed42 : nat → Qc) (tiles : list string) (default_risk : Qc) :
  (∀ i, 0 <= random_seed42 i ∧ random_seed42 i < 1) →
  0 <= default_risk →
  let tile_risks := CynetWrapper.create_prediction_placeholder random_seed42 tiles
                      default_risk in
  (∀ t, t ∈ tiles ↔ is_Some (tile_risks !! t))
  ∧ (∀ t r, tile_risks !! t = Some r → 0 <= r ∧ r <= default_risk)
  ∧ (∀ i t, tiles !! i = Some t → (∀ j, (i < j)%nat → tiles !! j ≠ Some t) →
       tile_risks !! t = Some (random_seed42 i * default_risk))
  ∧ CynetWrapper.dummy_predictions random_seed42 tiles
    = CynetWrapper.create_prediction_placeholder random_seed42 tiles (Num.frac 3 10).
Proof.
  intros Hdraws Hrisk tile_risks. subst tile_risks.
  unfold CynetWrapper.create_prediction_placeholder. split; [|split; [|split]].
  - intros t. rewrite placeholder_fold_dom, lookup_empty.
    rewrite fmap_imap, imap_same by done.
    split; [by right | intros [[? [=]] | ?]; done].
  - intros t r Hr. apply placeholder_fold_lookup in Hr as [Hr | (i & _ & ->)]; [done|].
    destruct (Hdraws i). by apply draw_scaled.
  - intros i t Hi Hlast. apply (placeholder_fold_last _ _ _ _ i).
    + by rewrite list_lookup_imap, Hi.
    + intros q j Hq. rewrite list_lookup_imap.
      destruct (tiles !! q) as [t'|] eqn:Ht'; [|done]. cbn. intros [= -> ->].
      by apply (Hlast j Hq).
  - done.
Qed.

Lemma X18_create_prediction_placeholder_witness :
  let tile_risks := CynetWrapper.create_prediction_placeholder Scenario.random_seed42
                      Scenario.two_tiles (Num.frac 1 10) in
  (∀ t, t ∈ Scenario.two_tiles ↔ is_Some (tile_risks !! t))
  ∧ (∀ t r, tile_risks !! t = Some r → 0 <= r ∧ r <= Num.frac 1 10)
  ∧ (∀ i t, Scenario.two_tiles !! i = Some t →
       (∀ j, (i < j)%nat → Scenario.two_tiles !! j ≠ Some t) →
       tile_risks !! t = Some (Scenario.random_seed42 i * Num.frac 1 10))
  ∧ CynetWrapper.dummy_predictions Scenario.random_seed42 Scenario.two_tiles
    = CynetWrapper.create_prediction_placeholder Scenario.random_seed42 Scenario.two_tiles
        (Num.frac 3 10).
Proof.
  apply (X18_create_prediction_placeholder Scenario.random_seed42 Scenario.two_tiles
           (Num.frac 1 10)).
  - exact seed42_draws_in_range.
  - computed.
Defined.

(** ** Triplets *)

Section TripletFacts.
Import Loops CynetWrapper.

(** The positions [np.where] returns, counted from an offset: none when
    the tile is not among the ids, and otherwise the first is the first
    position of the tile. *)
Lemma where_from (k : nat) (ids : list string) (tile_id : string) :
  match omap (λ it : nat * string, if bool_decide (it.2 = tile_id) then Some it.1 else None)
             (imap (λ i t, ((k + i)%nat, t)) ids) with
  | [] => tile_id ∉ ids
  | p :: _ => ∃ i, p = (k + i)%nat ∧ Spec.first_at ids tile_id i
  end.
Proof.
  revert k. induction ids as [|t ids IH]; intros k; [cbn; apply not_elem_of_nil|].
  rewrite imap_cons. cbn [omap list_omap snd fst]. case_bool_decide as Ht.
  - subst t. exists 0%nat. split; [lia|]. split; [done | lia].
  - rewrite (imap_ext _ (λ i t, ((S k + i)%nat, t))) by (intros; cbn; f_equal; lia).
    specialize (IH (S k)). destruct (omap _ _) as [|p ps].
    + intros [?|?]%elem_of_cons; done.
    + destruct IH as (i & -> & Hi & Hfirst). exists (S i).
      split; [lia|]. split; [done|].
      intros [|j] Hj; cbn; [congruence | apply Hfirst; lia].
Qed.

Lemma where_equal_spec (numpy : Numpy) (ids : list string) (tile_id : string) :
  ∃ tile_index,
    where_equal numpy (CoordArray ids) tile_id = Py.Ok tile_index
    ∧ match tile_index with
      | [] => tile_id ∉ ids
      | i :: _ => Spec.first_at ids tile_id i
      end.
Proof.
  pose proof (where_from 0 ids tile_id) as H. unfold where_equal.
  eexists. split; [done|].
  destruct (omap _ _) as [|p ps]; [done|]. by destruct H as (i & -> & Hi).
Qed.

Lemma validate_well_formed (triplet : Triplet) :
  validate_triplet_format triplet = Py.Ok true ↔ Spec.well_formed triplet.
Proof.
  unfold validate_triplet_format, Spec.well_formed.
  destruct triplet as [[rows|] [dates|] [[nrows ncols cell|]|]]; cbn;
    try (split; [done | by intros (? & ? & ? & ? & ? & ?)]).
  case_bool_decide as Hshape; cbn.
  - split; [done|]. intros (? & ? & ? & [= <-] & [= <-] & [= -> -> _]). done.
  - injection Hshape as -> ->.
    split; [|done]. intros _. by eexists _, _, _.
Qed.

End TripletFacts.

(** X19: the validation of a triplet returns True exactly when the three
    keys are there and the matrix is an array of as many rows as tile ids
    and as many columns as instants; it never returns False.  A missing key
    and an array of another shape raise ValueError; a matrix that is a
    plain list of lists raises AttributeError when its shape is read, before
    its type is looked at. *)
Theorem X19_validate_triplet_format (triplet : CynetWrapper.Triplet) :
  (CynetWrapper.validate_triplet_format triplet = Py.Ok true ↔ Spec.well_formed triplet)
  ∧ CynetWrapper.validate_triplet_format triplet ≠ Py.Ok false
  ∧ (CynetWrapper.row_coords triplet = None ∨ CynetWrapper.col_dates triplet = None
     ∨ CynetWrapper.timeseries triplet = None →
     CynetWrapper.validate_triplet_format triplet = Py.Raise Py.ValueError)
  ∧ (∀ rows dates nrows ncols cell,
       CynetWrapper.row_coords triplet = Some rows →
       CynetWrapper.col_dates triplet = Some dates →
       CynetWrapper.timeseries triplet = Some (CynetWrapper.NdArray nrows ncols cell) →
       (nrows, ncols) ≠ (List.length (CynetWrapper.coords_ids rows), List.length dates) →
       CynetWrapper.validate_triplet_format triplet = Py.Raise Py.ValueError)
  ∧ (∀ rows dates,
       CynetWrapper.row_coords triplet = Some rows →
       CynetWrapper.col_dates triplet = Some dates →
       CynetWrapper.timeseries triplet = Some CynetWrapper.NotArray →
       CynetWrapper.validate_triplet_format triplet = Py.Raise Py.AttributeError).
Proof.
  split; [apply validate_well_formed|]. split; [|split; [|split]].
  - unfold CynetWrapper.validate_triplet_format.
    destruct triplet as [[rows|] [dates|] [[nrows ncols cell|]|]]; cbn; try done.
    by case_bool_decide.
  - unfold CynetWrapper.validate_triplet_format.
    destruct triplet as [[rows|] [dates|] [matrix|]]; cbn; try done.
    intros [[=] | [[=] | [=]]].
  - intros rows dates nrows ncols cell Hr Hd Hm Hshape.
    unfold CynetWrapper.validate_triplet_format. rewrite Hr, Hd, Hm. cbn.
    by rewrite bool_decide_true.
  - intros rows dates Hr Hd Hm.
    unfold CynetWrapper.validate_triplet_format. by rewrite Hr, Hd, Hm.
Qed.

(** The scenarios: the well-formed triplet passes, with the ids in an
    array or in a list; the list of lists and the short matrix do not. *)
Example scenario_validation :
  CynetWrapper.validate_triplet_format Scenario.triplet_ok = Py.Ok true
  ∧ CynetWrapper.validate_triplet_format Scenario.triplet_listed = Py.Ok true
  ∧ CynetWrapper.validate_triplet_format Scenario.triplet_nested = Py.Raise Py.AttributeError
  ∧ CynetWrapper.validate_triplet_format Scenario.triplet_short = Py.Raise Py.ValueError.
Proof. by vm_compute. Qed.

(** X20: on a triplet that passes the validation and holds its tile ids in
    an array, the look-up of a tile does not raise, whatever the release of
    numpy: it returns None exactly when the tile is not among the ids, and
    otherwise the row of the first position of the tile, which has one
    count per instant. *)
Theorem X20_get_tile_timeseries_valid
    (numpy : CynetWrapper.Numpy)
    (triplet : CynetWrapper.Triplet) (ids : list string) (tile_id : string) :
  CynetWrapper.validate_triplet_format triplet = Py.Ok true →
  CynetWrapper.row_coords triplet = Some (CynetWrapper.CoordArray ids) →
  ∃ found,
    CynetWrapper.get_tile_timeseries numpy triplet tile_id = Py.Ok found
    ∧ (found = None ↔ tile_id ∉ ids)
    ∧ ∀ row, found = Some row →
        Some (List.length row) = List.length <$> CynetWrapper.col_dates triplet
        ∧ ∃ i nrows ncols cell,
            Spec.first_at ids tile_id i
            ∧ CynetWrapper.timeseries triplet = Some (CynetWrapper.NdArray nrows ncols cell)
            ∧ row = map (cell i) (seq 0 ncols).
Proof.
  intros Hvalid Hrows. apply validate_well_formed in Hvalid.
  destruct Hvalid as (rows & dates & cell & Hr & Hd & Hm).
  rewrite Hrows in Hr. injection Hr as <-. cbn [CynetWrapper.coords_ids] in Hm.
  unfold CynetWrapper.get_tile_timeseries. rewrite Hrows, Hm, Hd.
  cbn [CynetWrapper.item mbind result_bind Py.bind].
  destruct (where_equal_spec numpy ids tile_id) as (tile_index & -> & Hwhere).
  cbn [mbind result_bind Py.bind].
  destruct tile_index as [|i rest].
  - exists None. split; [done|]. split; [done|]. by intros row [=].
  - cbn [List.length]. rewrite bool_decide_false by done.
    cbn [Loops.index lookup list_lookup mbind result_bind Py.bind].
    destruct Hwhere as [Hi Hfirst].
    rewrite bool_decide_true by (by eapply lookup_lt_Some).
    eexists. split; [done|]. split.
    + split; [done|]. intros Hnot. exfalso. apply Hnot. by eapply list_elem_of_lookup_2.
    + intros row [= <-]. split; [by cbn; rewrite length_map, length_seq|].
      by eexists i, _, _, cell.
Qed.

Lemma X20_get_tile_timeseries_witness :
  ∃ found,
    CynetWrapper.get_tile_timeseries CynetWrapper.Since_2_1 Scenario.triplet_ok "tile_1_0"
    = Py.Ok found
    ∧ (found = None ↔ "tile_1_0" ∉ Scenario.two_tiles)
    ∧ ∀ row, found = Some row →
        Some (List.length row)
        = List.length <$> CynetWrapper.col_dates Scenario.triplet_ok
        ∧ ∃ i nrows ncols cell,
            Spec.first_at Scenario.two_tiles "tile_1_0" i
            ∧ CynetWrapper.timeseries Scenario.triplet_ok
              = Some (CynetWrapper.NdArray nrows ncols cell)
            ∧ row = map (cell i) (seq 0 ncols).
Proof.
  apply (X20_get_tile_timeseries_valid CynetWrapper.Since_2_1 Scenario.triplet_ok
           Scenario.two_tiles "tile_1_0").
  - reflexivity.
  - reflexivity.
Defined.

(** X21: what the look-up does outside that case.  With the tile ids in a
    plain list the comparison with the tile id is a single False, and no
    tile is ever found, one of the list included and also on a triplet that
    passes the validation: on numpy before 2.1 the look-up returns None, on
    numpy from 2.1 on it raises ValueError.  Without the key row_coords it
    raises KeyError; and when the tile is found at a position the matrix has
    no row for, it raises IndexError. *)
Theorem X21_get_tile_timeseries_edges
    (triplet : CynetWrapper.Triplet) (tile_id : string) :
  (∀ ids, CynetWrapper.row_coords triplet = Some (CynetWrapper.CoordList ids) →
     CynetWrapper.get_tile_timeseries CynetWrapper.Before_2_1 triplet tile_id = Py.Ok None
     ∧ CynetWrapper.get_tile_timeseries CynetWrapper.Since_2_1 triplet tile_id
       = Py.Raise Py.ValueError)
  ∧ (∀ numpy, CynetWrapper.row_coords triplet = None →
     CynetWrapper.get_tile_timeseries numpy triplet tile_id = Py.Raise Py.KeyError)
  ∧ (∀ numpy ids i nrows ncols cell,
       CynetWrapper.row_coords triplet = Some (CynetWrapper.CoordArray ids) →
       Spec.first_at ids tile_id i →
       CynetWrapper.timeseries triplet = Some (CynetWrapper.NdArray nrows ncols cell) →
       (nrows <= i)%nat →
       CynetWrapper.get_tile_timeseries numpy triplet tile_id = Py.Raise Py.IndexError).
Proof.
  split; [|split].
  - intros ids Hrows. unfold CynetWrapper.get_tile_timeseries. by rewrite Hrows.
  - intros numpy Hrows. unfold CynetWrapper.get_tile_timeseries. by rewrite Hrows.
  - intros numpy ids i nrows ncols cell Hrows [Hi Hfirst] Hm Hlt.
    unfold CynetWrapper.get_tile_timeseries. rewrite Hrows, Hm.
    cbn [CynetWrapper.item mbind result_bind Py.bind].
    destruct (where_equal_spec numpy ids tile_id) as (tile_index & -> & Hwhere).
    cbn [mbind result_bind Py.bind].
    destruct tile_index as [|i' rest].
    + exfalso. apply Hwhere. by eapply list_elem_of_lookup_2.
    + destruct Hwhere as [Hi' Hfirst'].
      assert (i' = i) as ->.
      { destruct (Nat.lt_trichotomy i' i) as [Hlt' | [-> | Hgt]]; [|done|].
        - by destruct (Hfirst i' Hlt').
        - by destruct (Hfirst' i Hgt). }
      cbn [List.length]. rewrite bool_decide_false by done.
      cbn [Loops.index lookup list_lookup mbind result_bind Py.bind].
      rewrite bool_decide_false by lia. done.
Qed.

(** The scenarios: a tile of a valid triplet is not found when the ids
    are a list; the second tile of the short matrix has no row. *)
Example scenario_lookup :
  CynetWrapper.validate_triplet_format Scenario.triplet_listed = Py.Ok true
  ∧ CynetWrapper.get_tile_timeseries CynetWrapper.Before_2_1 Scenario.triplet_listed
      "tile_0_0" = Py.Ok None
  ∧ CynetWrapper.get_tile_timeseries CynetWrapper.Since_2_1 Scenario.triplet_listed
      "tile_0_0" = Py.Raise Py.ValueError
  ∧ CynetWrapper.get_tile_timeseries CynetWrapper.Since_2_1 Scenario.triplet_ok "tile_1_0"
    = Py.Ok (Some [10; 11; 12]%Z)
  ∧ CynetWrapper.get_tile_timeseries CynetWrapper.Since_2_1 Scenario.triplet_short
      "tile_1_0" = Py.Raise Py.IndexError.
Proof. by vm_compute. Qed.

(** ** Metrics of a model *)

Section ScoreFacts.
Import CynetWrapper.

Lemma fails_iff (a : Attribute) :
  Spec.fails a ↔ match a with Value (Py.Raise _) => True | _ => False end.
Proof.
  unfold Spec.fails. destruct a as [| |[v|e]]; split; try done; try (by intros [? [=]]).
  intros _. by eexists.
Qed.

End ScoreFacts.

(** X22: the metrics read from a model are among AUC, TPR and FPR, and a
    failing conversion ends the reading: nothing at all is returned when it
    is that of [auc], and FPR is returned exactly when [fpr] is there and
    no conversion failed.  When no conversion fails, each attribute that is
    there gives its metric, None for an attribute that is None. *)
Theorem X22_extract_model_metrics (model : CynetWrapper.Scores) :
  let metrics := CynetWrapper.extract_model_metrics model in
  (∀ k, is_Some (metrics !! k) → k ∈ ["AUC"; "TPR"; "FPR"])
  ∧ (Spec.fails (CynetWrapper.auc model) → metrics = ∅)
  ∧ (Spec.fails (CynetWrapper.tpr model) →
     metrics !! "TPR" = None ∧ metrics !! "FPR" = None)
  ∧ (is_Some (metrics !! "FPR") ↔
       is_Some (Spec.reading (CynetWrapper.fpr model))
       ∧ ¬ Spec.fails (CynetWrapper.auc model) ∧ ¬ Spec.fails (CynetWrapper.tpr model))
  ∧ (¬ Spec.fails (CynetWrapper.auc model) → ¬ Spec.fails (CynetWrapper.tpr model) →
     ¬ Spec.fails (CynetWrapper.fpr model) →
     metrics !! "AUC" = Spec.reading (CynetWrapper.auc model)
     ∧ metrics !! "TPR" = Spec.reading (CynetWrapper.tpr model)
     ∧ metrics !! "FPR" = Spec.reading (CynetWrapper.fpr model)).
Proof.
  intros metrics. subst metrics. unfold CynetWrapper.extract_model_metrics.
  destruct model as [a t f].
  cbn [CynetWrapper.auc CynetWrapper.tpr CynetWrapper.fpr].
  split; [|split; [|split; [|split]]].
  - intros k [v Hk]. revert Hk.
    destruct a as [| |[va|ea]], t as [| |[vt|et]], f as [| |[vf|ef]];
      cbn [CynetWrapper.extract_one]; intros Hk;
      repeat (apply lookup_insert_Some in Hk as [[<- _] | [_ Hk]];
              [rewrite !elem_of_cons; auto|]);
      by rewrite lookup_empty in Hk.
  - intros [e ->]. done.
  - intros [e ->]. destruct a as [| |[va|ea]]; cbn [CynetWrapper.extract_one]; done.
  - rewrite !fails_iff, !is_Some_alt.
    destruct a as [| |[va|ea]], t as [| |[vt|et]], f as [| |[vf|ef]];
      cbn [CynetWrapper.extract_one Spec.reading];
      rewrite ?lookup_insert_eq, ?lookup_insert_ne, ?lookup_empty by done; tauto.
  - rewrite !fails_iff.
    destruct a as [| |[va|ea]], t as [| |[vt|et]], f as [| |[vf|ef]];
      cbn [CynetWrapper.extract_one Spec.reading]; try tauto; intros _ _ _;
      by rewrite ?lookup_insert_eq, ?lookup_insert_ne, ?lookup_empty by done.
Qed.

(** The scenario: a model whose [auc] is no number yields no metric at
    all, though its [tpr] and [fpr] are fine. *)
Example scenario_metrics :
  CynetWrapper.extract_model_metrics Scenario.bad_auc = ∅.
Proof. reflexivity. Qed.

(** ** The lattice of the grid *)

Section LatticeFacts.
Import Spatial.












Context {polygon : Type}.
Context (to_utm : Qc * Qc → Qc * Qc).
Context (to_output : Qc * Qc * Qc * Qc → polygon).
Context (centroid : polygon → Qc * Qc).


End LatticeFacts.





(** ** The overlay as shares of the counted length *)

Section ShareFacts.
Import Graph Loops Routing PrepareNetwork.
Context {line polygon : Type}.
Context (line_length : line → Qc).
Context (possible_matches : line → list (string * polygon)).
Context (intersects : line → polygon → bool).
Context (intersection : line → polygon → Py.result Shape).

Lemma contribution_of_overlap (edge_geom : line) (edge_length : Qc)
    (tile_row : string * polygon) :
  edge_length ≠ 0 →
  contribution_of intersects intersection edge_geom edge_length tile_row
  = (λ l, {| tile_id := tile_row.1; fraction := l / edge_length |})
      <$> Spec.overlap intersects intersection edge_geom tile_row.2.
Proof.
  intros Hlen. unfold contribution_of, Spec.overlap.
  destruct (intersects edge_geom tile_row.2); [|done].
  destruct (intersection edge_geom tile_row.2) as [inter|e]; cbn; [|done].
  destruct (is_empty inter); [done|].
  destruct (shape_length inter) as [l|].
  - unfold Num.gtb. case_bool_decide; [|done]. cbn. by rewrite (div_nonzero _ _ Hlen).
  - assert (Num.gtb (if String.eqb (geom_type inter) "Point" then 0 else 0) 0 = false) as ->
      by (by destruct (String.eqb _ _)).
    done.
Qed.

Lemma contributions_of_overlaps (edge_geom : line) (edge_length : Qc) :
  edge_length ≠ 0 →
  omap (contribution_of intersects intersection edge_geom edge_length)
       (possible_matches edge_geom)
  = map (λ tl : string * Qc, {| tile_id := tl.1; fraction := tl.2 / edge_length |})
        (Spec.overlaps possible_matches intersects intersection edge_geom).
Proof.
  intros Hlen. unfold Spec.overlaps.
  induction (possible_matches edge_geom) as [|row rows IH]; [done|].
  cbn [omap list_omap]. rewrite contribution_of_overlap by done.
  destruct (Spec.overlap intersects intersection edge_geom row.2) as [l|]; cbn; [|done].
  by rewrite <- IH.
Qed.

Lemma overlaps_positive (edge_geom : line) :
  Forall (λ q, 0 < q) (Spec.overlaps possible_matches intersects intersection edge_geom).*2.
Proof.
  unfold Spec.overlaps. induction (possible_matches edge_geom) as [|row rows IH]; [constructor|].
  cbn [omap list_omap]. unfold Spec.overlap at 1.
  destruct (intersects edge_geom row.2); [|done].
  destruct (intersection edge_geom row.2) as [inter|e]; [|done].
  destruct (is_empty inter); [done|].
  destruct (shape_length inter) as [l|]; [|done].
  case_bool_decide; [|done]. cbn. by constructor.
Qed.

(** Dividing by the length of the edge and then by the total is dividing
    by the sum of the overlaps: the length of the edge cancels. *)
Lemma normalize_shares (edge_geom : line) (edge_length : Qc) :
  0 < edge_length →
  Spec.overlaps possible_matches intersects intersection edge_geom ≠ [] →
  normalize
    (map (λ tl : string * Qc, {| tile_id := tl.1; fraction := tl.2 / edge_length |})
         (Spec.overlaps possible_matches intersects intersection edge_geom))
  = Py.Ok (Spec.shares possible_matches intersects intersection edge_geom).
Proof.
  intros Hlen Hne. unfold Spec.shares.
  pose proof (overlaps_positive edge_geom) as Hpos.
  set (ov := Spec.overlaps possible_matches intersects intersection edge_geom) in *.
  assert (0 < Num.sum ov.*2) as Hsum.
  { apply sum_pos; [by destruct ov | done]. }
  assert (Num.sum (map fraction
            (map (λ tl : string * Qc,
                    {| tile_id := tl.1; fraction := tl.2 / edge_length |}) ov))
          = Num.sum ov.*2 / edge_length) as Htotal.
  { rewrite map_map. cbn [fraction].
    rewrite <- (sum_scaled _ _ (pos_nonzero _ Hlen)). f_equal.
    by rewrite <- list_fmap_compose. }
  unfold normalize. rewrite Htotal.
  assert (0 < Num.sum ov.*2 / edge_length) as Hq.
  { unfold Qcdiv. apply Qcmult_pos_pos; [done | by apply Qcinv_pos]. }
  unfold Num.gtb. rewrite (bool_decide_eq_true_2 _ Hq).
  rewrite (scale_all _ _ (pos_nonzero _ Hq)). f_equal.
  rewrite map_map. apply map_ext. intros [t l]. cbn. f_equal.
  field. split; [by apply pos_nonzero | by apply pos_nonzero].
Qed.

Lemma mapping_step_entry (st : TileEdgeMapping * nat) (edge_idx : edge_id)
    (edge_geom : line) :
  0 <= line_length edge_geom →
  mapping_step line_length possible_matches intersects intersection st (edge_idx, edge_geom)
  = Py.Ok (match Spec.entry line_length possible_matches intersects intersection edge_geom with
           | Some tcs => (<[edge_idx := tcs]> st.1, S st.2)
           | None => st
           end).
Proof.
  intros Hlen. unfold mapping_step, Spec.entry, Num.eqb. case_bool_decide as Hz; [done|].
  assert (0 < line_length edge_geom) as Hpos.
  { apply Qcle_lt_or_eq in Hlen as [?|Heq]; [done | by destruct Hz]. }
  rewrite contributions_of_overlaps by done.
  pose proof (normalize_shares edge_geom _ Hpos) as Hnorm.
  unfold Spec.shares in *.
  destruct (Spec.overlaps possible_matches intersects intersection edge_geom)
    as [|tl ov] eqn:Hov; [done|].
  cbn [map] in *. rewrite Hnorm by done. done.
Qed.

Lemma mapping_loop_entries (edges_gdf : list (edge_id * line)) (st : TileEdgeMapping * nat) :
  Forall (λ row, 0 <= line_length row.2) edges_gdf →
  NoDup edges_gdf.*1 →
  ∃ st',
    for_each (mapping_step line_length possible_matches intersects intersection) edges_gdf st
    = Py.Ok st'
    ∧ (∀ edge_idx edge_geom, (edge_idx, edge_geom) ∈ edges_gdf →
         st'.1 !! edge_idx
         = match Spec.entry line_length possible_matches intersects intersection edge_geom with
           | Some tcs => Some tcs
           | None => st.1 !! edge_idx
           end)
    ∧ (∀ edge_idx, edge_idx ∉ edges_gdf.*1 → st'.1 !! edge_idx = st.1 !! edge_idx).
Proof.
  intros Hlen. revert st. induction Hlen as [|[idx geom] rows Hrow _ IH]; intros st Hnd.
  - exists st. split; [done|]. split; [|done]. intros ? ? H. by apply elem_of_nil in H.
  - rewrite fmap_cons in Hnd. apply NoDup_cons in Hnd as [Hidx Hnd]. cbn [fst snd] in *.
    cbn [for_each]. rewrite (mapping_step_entry st idx geom Hrow).
    cbn [mbind result_bind Py.bind].
    destruct (IH (match Spec.entry line_length possible_matches intersects intersection geom
                  with
                  | Some tcs => (<[idx := tcs]> st.1, S st.2)
                  | None => st
                  end) Hnd) as (st' & Hloop & Hin & Hout).
    exists st'. split; [done|]. split.
    + intros edge_idx edge_geom [[= -> ->] | Hmem]%elem_of_cons.
      * rewrite (Hout idx Hidx).
        destruct (Spec.entry line_length possible_matches intersects intersection geom);
          cbn [fst]; [by rewrite lookup_insert_eq | done].
      * rewrite (Hin _ _ Hmem).
        destruct (Spec.entry line_length possible_matches intersects intersection edge_geom);
          [done|].
        assert (edge_idx ≠ idx) as Hne.
        { intros ->. apply Hidx. apply list_elem_of_fmap. by exists (idx, edge_geom). }
        destruct (Spec.entry line_length possible_matches intersects intersection geom);
          cbn [fst]; [by rewrite lookup_insert_ne | done].
    + intros edge_idx Hnot. rewrite fmap_cons, not_elem_of_cons in Hnot.
      destruct Hnot as [Hne Hnot]. cbn [fst] in Hne. rewrite (Hout _ Hnot).
      destruct (Spec.entry line_length possible_matches intersects intersection geom);
        cbn [fst]; [by rewrite lookup_insert_ne | done].
Qed.

End ShareFacts.

Section ShareOrder.
Import Graph Loops Routing PrepareNetwork.
Context {line polygon : Type}.
Context (possible_matches : line → list (string * polygon)).
Context (intersects : line → polygon → bool).
Context (intersection : line → polygon → Py.result Shape).

Lemma member_at_most_sum (l : list Qc) (q : Qc) :
  Forall (λ p, 0 < p) l → q ∈ l → q <= Num.sum l.
Proof.
  intros Hpos. induction Hpos as [|p l Hp Hl IH]; [by intros ?%elem_of_nil|].
  rewrite sum_cons. intros [-> | Hin]%elem_of_cons.
  - assert (0 <= Num.sum l) as Hs.
    { destruct l as [|a l']; [done|]. by apply Qclt_le_weak, sum_pos. }
    revert Hs. generalize (Num.sum l). intros t Ht. qc2q. lra.
  - specialize (IH Hin). revert Hp IH. generalize (Num.sum l). intros t Hp Ht. qc2q. lra.
Qed.

Lemma quotient_le (a b t : Qc) : 0 < t → a <= b → a / t <= b / t.
Proof.
  intros Ht Hab. unfold Qcdiv.
  apply Qcmult_le_mono_nonneg_r; [by apply Qclt_le_weak, Qcinv_pos | done].
Qed.

Lemma shares_shared (edge_geom : line) :
  Spec.overlaps possible_matches intersects intersection edge_geom ≠ [] →
  Spec.shared (Spec.overlaps possible_matches intersects intersection edge_geom)
              (Spec.shares possible_matches intersects intersection edge_geom).
Proof.
  intros Hne. unfold Spec.shares.
  pose proof (overlaps_positive possible_matches intersects intersection edge_geom) as Hpos.
  set (ov := Spec.overlaps possible_matches intersects intersection edge_geom) in *.
  assert (0 < Num.sum ov.*2) as Hsum by (apply sum_pos; [by destruct ov | done]).
  split; [|split; [|split]].
  - by rewrite map_map.
  - apply Forall_fmap, Forall_forall. intros [t l] Hin. cbn.
    assert (l ∈ ov.*2) as Hl by (apply list_elem_of_fmap; by exists (t, l)).
    split.
    + unfold Qcdiv. apply Qcmult_pos_pos; [|by apply Qcinv_pos].
      exact (proj1 (Forall_forall _ _) Hpos l Hl).
    + replace 1 with (Num.sum ov.*2 / Num.sum ov.*2) by (field; by apply pos_nonzero).
      apply quotient_le; [done|]. by apply member_at_most_sum.
  - intros i j ci cj li lj Hi Hj Hli Hlj Hle.
    rewrite list_lookup_fmap in Hi. rewrite list_lookup_fmap in Hj.
    rewrite list_lookup_fmap in Hli. rewrite list_lookup_fmap in Hlj.
    destruct (ov !! i) as [[ti li']|]; [|done]. destruct (ov !! j) as [[tj lj']|]; [|done].
    cbn in *. injection Hi as <-. injection Hj as <-.
    injection Hli as ->. injection Hlj as ->. cbn. by apply quotient_le.
  - intros Hone. destruct ov as [|[t l] [|? ?]]; [done| |done]. cbn.
    f_equal. unfold Num.sum. cbn. apply Forall_inv in Hpos. cbn in Hpos.
    field. replace (0 + l) with l by ring. by apply pos_nonzero.
Qed.

End ShareOrder.

(** X25: on a network with at least one edge, lengths that are not
    negative and one row per edge identifier, the overlay map has an entry
    for exactly the edges of non-zero length with at least one counted tile
    (a candidate tile that intersects the edge, in a non-empty intersection
    of positive length, computed without exception).  The entry lists the
    counted tiles in their order, each with a fraction in (0, 1]; a tile
    that holds no less of the edge than another has no smaller a fraction;
    and a single counted tile gets the fraction 1 whatever part of the edge
    lies in it, so the part of an edge that lies in no tile is made up for
    by its tiles.  An identifier that is not a row has no entry. *)
Theorem X25_overlay_shares
    {line polygon : Type}
    (line_length : line → Qc)
    (possible_matches : line → list (string * polygon))
    (intersects : line → polygon → bool)
    (intersection : line → polygon → Py.result PrepareNetwork.Shape)
    (edges_gdf : list (Graph.edge_id * line)) :
  edges_gdf ≠ [] →
  Forall (λ row, 0 <= line_length row.2) edges_gdf →
  NoDup edges_gdf.*1 →
  ∃ edge_tile_mapping,
    PrepareNetwork.create_tile_edge_mapping line_length possible_matches intersects
      intersection edges_gdf = Py.Ok edge_tile_mapping
    ∧ (∀ edge_idx edge_geom, (edge_idx, edge_geom) ∈ edges_gdf →
         let counted := Spec.overlaps possible_matches intersects intersection edge_geom in
         (line_length edge_geom = 0 ∨ counted = [] → edge_tile_mapping !! edge_idx = None)
         ∧ (line_length edge_geom ≠ 0 → counted ≠ [] →
            ∃ tile_contributions,
              edge_tile_mapping !! edge_idx = Some tile_contributions
              ∧ Spec.shared counted tile_contributions))
    ∧ (∀ edge_idx, edge_idx ∉ edges_gdf.*1 → edge_tile_mapping !! edge_idx = None).
Proof.
  intros Hne Hlen Hnd.
  destruct (mapping_loop_entries line_length possible_matches intersects intersection
              edges_gdf (∅, 0%nat) Hlen Hnd) as (st & Hloop & Hin & Hout).
  exists st.1. split; [|split].
  - unfold PrepareNetwork.create_tile_edge_mapping.
    destruct edges_gdf as [|row rows]; [done|]. rewrite Hloop. cbn.
    rewrite div_nonzero; [done|].
    apply of_Z_nonzero. cbn [List.length]. lia.
  - intros edge_idx edge_geom Hmem counted. subst counted.
    rewrite (Hin _ _ Hmem). cbn [fst]. rewrite lookup_empty. unfold Spec.entry.
    pose proof (shares_shared possible_matches intersects intersection edge_geom) as Hsh.
    unfold Spec.shares in *.
    case_bool_decide as Hz; [split; [done | by intros ?]|].
    destruct (Spec.overlaps possible_matches intersects intersection edge_geom)
      as [|tl rest].
    + split; [done | by intros _ ?].
    + split; [by intros [? | ?]|]. intros _ _. eexists. split; [done|].
      by apply Hsh.
  - intros edge_idx Hnot. by rewrite (Hout _ Hnot).
Qed.

Lemma X25_overlay_shares_witness :
  ∃ edge_tile_mapping,
    Scenario.axis_mapping Scenario.overhanging_edges = Py.Ok edge_tile_mapping
    ∧ (∀ edge_idx edge_geom, (edge_idx, edge_geom) ∈ Scenario.overhanging_edges →
         let counted := Spec.overlaps (Geometry1D.seg_candidates Scenario.axis_tiles)
                          Geometry1D.seg_intersects Geometry1D.seg_intersection edge_geom in
         (Geometry1D.seg_length edge_geom = 0 ∨ counted = [] →
          edge_tile_mapping !! edge_idx = None)
         ∧ (Geometry1D.seg_length edge_geom ≠ 0 → counted ≠ [] →
            ∃ tile_contributions,
              edge_tile_mapping !! edge_idx = Some tile_contributions
              ∧ Spec.shared counted tile_contributions))
    ∧ (∀ edge_idx, edge_idx ∉ Scenario.overhanging_edges.*1 →
         edge_tile_mapping !! edge_idx = None).
Proof.
  apply (X25_overlay_shares Geometry1D.seg_length
           (Geometry1D.seg_candidates Scenario.axis_tiles) Geometry1D.seg_intersects
           Geometry1D.seg_intersection Scenario.overhanging_edges).
  - discriminate.
  - computed.
  - apply (bool_decide_unpack _). vm_compute. exact I.
Defined.

(** The edge that leaves the grid: 110 of its 200 m lie in the second
    tile and none in any other, and its stored fraction of that tile is 1. *)
Example scenario_overhang :
  (m ← Scenario.axis_mapping Scenario.overhanging_edges;
   Py.Ok (map (λ c, (Routing.tile_id c, this (Routing.fraction c)))
              <$> m !! (2, 3, 0)%Z))
  = Py.Ok (Some [("tile_1_0", 1 # 1)]).
Proof. by vm_compute. Qed.

(** ** From the preprocessing to the weights *)

Section PipelineFacts.
Import Graph Loops Routing.

Lemma maximum_in_unit (predictions : gmap string (list Qc)) (t : string) :
  map_Forall (λ _ probs, Forall (λ p, 0 <= p ∧ p <= 1) probs) predictions →
  0 <= Spec.tile_value predictions t ∧ Spec.tile_value predictions t <= 1.
Proof.
  intros Hunit. pose proof (tile_value_spec predictions t) as Hval.
  unfold Spec.tile_value in *.
  destruct (predictions !! t) as [[|a l]|] eqn:Ht;
    [split; [done | by apply (bool_decide_unpack _)] | |
     split; [done | by apply (bool_decide_unpack _)]].
  destruct (Hval ltac:(done)) as [Hin _].
  exact (proj1 (Forall_forall _ _) (Hunit _ _ Ht) _ Hin).
Qed.

(** What the aggregator returns is a RiskMap: from a model whose
    probabilities are in [0, 1], and from the fallback. *)
Lemma aggregator_risk_map_ok (now : Datetime.datetime) (random_seed42 : nat → Qc)
    (model : CynetWrapper.Model) (tiles : list string)
    (reference_time : option Datetime.datetime) (hours : list Datetime.datetime) :
  CynetWrapper.prediction_hours_of (Datetime.floor_to_hour (default now reference_time))
  = Py.Ok hours →
  (∀ i, 0 <= random_seed42 i ∧ random_seed42 i < 1) →
  match CynetWrapper.predict model with
  | None => True
  | Some predict' =>
      ∃ predictions,
        predict' hours = Py.Ok predictions
        ∧ Forall (λ t, predictions !! t ≠ Some []) tiles
        ∧ map_Forall (λ _ probs, Forall (λ p, 0 <= p ∧ p <= 1) probs) predictions
  end →
  ∃ tile_risks,
    CynetWrapper.predict_next_4_hours now random_seed42 model tiles reference_time
    = Py.Ok tile_risks
    ∧ Spec.risk_map_ok tile_risks
    ∧ ∀ t, t ∈ tiles ↔ is_Some (tile_risks !! t).
Proof.
  intros Hhours Hdraws Hmodel.
  unfold CynetWrapper.predict_next_4_hours. rewrite Hhours.
  cbn [mbind result_bind Py.bind]. unfold CynetWrapper.try_predict.
  destruct (CynetWrapper.predict model) as [predict'|].
  - destruct Hmodel as (predictions & Hpred & Hne & Hunit). rewrite Hpred.
    cbn [mbind result_bind Py.bind]. rewrite predict_loop by done.
    eexists. split; [done|]. split.
    + intros t r Hr. rewrite keyed_fold_lookup in Hr.
      destruct (decide (t ∈ tiles)); [|by rewrite lookup_empty in Hr].
      injection Hr as <-. by apply maximum_in_unit.
    + intros t. rewrite keyed_fold_lookup. destruct (decide (t ∈ tiles)) as [Hin | Hin].
      * split; [by eexists | done].
      * rewrite lookup_empty. split; [done | by intros [? [=]]].
  - eexists. split; [done|]. split; [|apply dummy_predictions_dom].
    intros t r Hr. destruct (dummy_predictions_lookup _ _ _ _ Hr) as (i & _ & ->).
    destruct (Hdraws i) as [H0 H1]. destruct (dummy_risk_bounds _ H0 H1) as [Hlo Hhi].
    split; [done|]. apply Qclt_le_weak. eapply Qclt_trans; [exact Hhi|].
    by apply (bool_decide_unpack _).
Qed.

Lemma normalized_overlay (tile_edge_mapping : TileEdgeMapping) :
  map_Forall (λ _ tcs, Spec.normalized tcs) tile_edge_mapping →
  Spec.overlay_ok tile_edge_mapping.
Proof.
  intros Hinv id cs Hcs. destruct (Hinv _ _ Hcs) as (_ & Hpos & _).
  eapply Forall_impl; [exact Hpos|]. intros c Hc. by apply Qclt_le_weak.
Qed.

Lemma weighted_edges_weights (tile_edge_mapping : TileEdgeMapping) (tile_risks : TileRisks)
    (g : MultiDiGraph) :
  Spec.risk_map_ok tile_risks → Spec.overlay_ok tile_edge_mapping →
  Forall (λ e, 0 <= get_attr e.2 "length" 0) (edges g) →
  Forall (λ e : edge_id * EdgeData,
            0 <= get_attr e.2 "risk" 0
            ∧ 0 <= get_attr e.2 "length" 0
            ∧ get_attr e.2 "length" 0 <= get_attr e.2 "risk_weight" 0)
    (edges (Spec.weighted tile_edge_mapping tile_risks g)).
Proof.
  intros Hok Hpos Hlen. unfold Spec.weighted. cbn [edges].
  apply Forall_fmap. eapply Forall_impl; [exact Hlen|].
  intros [id data] Hl. cbn [compose snd] in *.
  destruct (weight_edge_attrs tile_edge_mapping tile_risks id data)
    as (_ & -> & -> & ->).
  pose proof (risk_of_nonneg tile_edge_mapping tile_risks id Hok Hpos) as H0.
  split; [done|]. split; [done|]. by apply Qc_weight_ge.
Qed.

End PipelineFacts.

(** X26: the aggregator returns a RiskMap in the sense of the weighter.
    When the horizon is within the calendar and the model either has no
    [predict] (with draws in [0, 1)) or predicts, for every tile it lists,
    a sequence of probabilities in [0, 1] that is not empty, the result is
    keyed by the tiles of the grid and every risk lies in [0, 1]. *)
Theorem X26_aggregator_risk_map
    (now : Datetime.datetime) (random_seed42 : nat → Qc)
    (model : CynetWrapper.Model) (tiles : list string)
    (reference_time : option Datetime.datetime) (hours : list Datetime.datetime) :
  CynetWrapper.prediction_hours_of (Datetime.floor_to_hour (default now reference_time))
  = Py.Ok hours →
  (∀ i, 0 <= random_seed42 i ∧ random_seed42 i < 1) →
  match CynetWrapper.predict model with
  | None => True
  | Some predict' =>
      ∃ predictions,
        predict' hours = Py.Ok predictions
        ∧ Forall (λ t, predictions !! t ≠ Some []) tiles
        ∧ map_Forall (λ _ probs, Forall (λ p, 0 <= p ∧ p <= 1) probs) predictions
  end →
  ∃ tile_risks,
    CynetWrapper.predict_next_4_hours now random_seed42 model tiles reference_time
    = Py.Ok tile_risks
    ∧ Spec.risk_map_ok tile_risks
    ∧ ∀ t, t ∈ tiles ↔ is_Some (tile_risks !! t).
Proof. apply aggregator_risk_map_ok. Qed.

Lemma forecast_in_unit :
  ∃ predictions : gmap string (list Qc),
    Py.Ok ({[ "tile_0_0" := [Num.frac 1 10; Num.frac 9 10; Num.frac 3 10; Num.frac 2 10] ]}
             : gmap string (list Qc)) = Py.Ok predictions
    ∧ Forall (λ t, predictions !! t ≠ Some []) Scenario.two_tiles
    ∧ map_Forall (λ _ probs, Forall (λ p, 0 <= p ∧ p <= 1) probs) predictions.
Proof.
  eexists. split; [done|]. split.
  - apply (bool_decide_unpack _). vm_compute. exact I.
  - apply (bool_decide_unpack _). vm_compute. exact I.
Qed.

Lemma X26_aggregator_risk_map_witness :
  ∃ tile_risks,
    CynetWrapper.predict_next_4_hours Scenario.evening Scenario.random_seed42
      Scenario.forecast Scenario.two_tiles None = Py.Ok tile_risks
    ∧ Spec.risk_map_ok tile_risks
    ∧ ∀ t, t ∈ Scenario.two_tiles ↔ is_Some (tile_risks !! t).
Proof.
  apply (X26_aggregator_risk_map Scenario.evening Scenario.random_seed42
           Scenario.forecast Scenario.two_tiles None
           (map (λ dh : Z * Z,
                   {| Datetime.year := 2024; Datetime.month := 2; Datetime.day := dh.1;
                      Datetime.hour := dh.2; Datetime.minute := 0; Datetime.second := 0;
                      Datetime.microsecond := 0 |})
                [(28, 23); (29, 0); (29, 1); (29, 2)]%Z)).
  - by vm_compute.
  - exact seed42_draws_in_range.
  - exact forecast_in_unit.
Defined.

(** X27: from the preprocessing to the weights.  With the overlay built
    by [create_tile_edge_mapping] (any geometry engine, lengths not
    negative), the RiskMap returned by the aggregator (from a model
    without [predict], or one that predicts probabilities in [0, 1]) and a
    network with at least one edge and lengths that are not negative, the
    three steps succeed one after the other, and every edge of the weighted
    network has a risk that is not negative and a risk_weight that is at
    least its length, hence not negative: the weights the search is given
    are those a shortest-path search accepts. *)
Theorem X27_pipeline_weights_bounded
    {line polygon : Type}
    (line_length : line → Qc)
    (possible_matches : line → list (string * polygon))
    (intersects : line → polygon → bool)
    (intersection : line → polygon → Py.result PrepareNetwork.Shape)
    (edges_gdf : list (Graph.edge_id * line))
    (now : Datetime.datetime) (random_seed42 : nat → Qc)
    (model : CynetWrapper.Model) (tiles : list string)
    (reference_time : option Datetime.datetime) (hours : list Datetime.datetime)
    (h : Graph.heap) (G : Graph.loc) (g : Graph.MultiDiGraph) :
  edges_gdf ≠ [] →
  Forall (λ row, 0 <= line_length row.2) edges_gdf →
  CynetWrapper.prediction_hours_of (Datetime.floor_to_hour (default now reference_time))
  = Py.Ok hours →
  (∀ i, 0 <= random_seed42 i ∧ random_seed42 i < 1) →
  match CynetWrapper.predict model with
  | None => True
  | Some predict' =>
      ∃ predictions,
        predict' hours = Py.Ok predictions
        ∧ Forall (λ t, predictions !! t ≠ Some []) tiles
        ∧ map_Forall (λ _ probs, Forall (λ p, 0 <= p ∧ p <= 1) probs) predictions
  end →
  h !! G = Some g →
  Graph.edges g ≠ [] →
  Forall (λ e, 0 <= Graph.get_attr e.2 "length" 0) (Graph.edges g) →
  ∃ edge_tile_mapping tile_risks g',
    PrepareNetwork.create_tile_edge_mapping line_length possible_matches intersects
      intersection edges_gdf = Py.Ok edge_tile_mapping
    ∧ CynetWrapper.predict_next_4_hours now random_seed42 model tiles reference_time
      = Py.Ok tile_risks
    ∧ Routing.apply_risk_weights h G edge_tile_mapping tile_risks = (<[G := g']> h, Py.Ok G)
    ∧ List.length (Graph.edges g') = List.length (Graph.edges g)
    ∧ Forall (λ e : Graph.edge_id * Graph.EdgeData,
                0 <= Graph.get_attr e.2 "risk" 0
                ∧ 0 <= Graph.get_attr e.2 "length" 0
                ∧ Graph.get_attr e.2 "length" 0 <= Graph.get_attr e.2 "risk_weight" 0)
        (Graph.edges g').
Proof.
  intros Hne Hlen Hhours Hdraws Hmodel Hg Hedges Hlengths.
  destruct (mapping_loop_invariant line_length possible_matches intersects intersection
              edges_gdf (∅, 0%nat) Hlen) as (st & Hloop & Hinv).
  { apply map_Forall_empty. }
  destruct (aggregator_risk_map_ok now random_seed42 model tiles reference_time hours
              Hhours Hdraws Hmodel) as (tile_risks & Hrisks & Hok & _).
  exists st.1, tile_risks, (Spec.weighted st.1 tile_risks g).
  split; [|split; [done|split; [|split]]].
  - unfold PrepareNetwork.create_tile_edge_mapping.
    destruct edges_gdf as [|row rows]; [done|]. rewrite Hloop. cbn.
    rewrite div_nonzero; [done|].
    apply of_Z_nonzero. cbn [List.length]. lia.
  - rewrite (apply_risk_weights_weighted _ _ _ _ _ Hg). by destruct (Graph.edges g).
  - unfold Spec.weighted. cbn [Graph.edges]. by rewrite length_map.
  - apply weighted_edges_weights; [done | by apply normalized_overlay | done].
Qed.

Lemma X27_pipeline_weights_witness :
  ∃ edge_tile_mapping tile_risks g',
    Scenario.axis_mapping Scenario.overhanging_edges = Py.Ok edge_tile_mapping
    ∧ CynetWrapper.predict_next_4_hours Scenario.evening Scenario.random_seed42
        Scenario.no_predict Scenario.two_tiles None = Py.Ok tile_risks
    ∧ Routing.apply_risk_weights (Scenario.store_of Scenario.one_edge) 1%positive
        edge_tile_mapping tile_risks
      = (<[1%positive := g']> (Scenario.store_of Scenario.one_edge), Py.Ok 1%positive)
    ∧ List.length (Graph.edges g') = List.length (Graph.edges Scenario.one_edge)
    ∧ Forall (λ e : Graph.edge_id * Graph.EdgeData,
                0 <= Graph.get_attr e.2 "risk" 0
                ∧ 0 <= Graph.get_attr e.2 "length" 0
                ∧ Graph.get_attr e.2 "length" 0 <= Graph.get_attr e.2 "risk_weight" 0)
        (Graph.edges g').
Proof.
  apply (X27_pipeline_weights_bounded Geometry1D.seg_length
           (Geometry1D.seg_candidates Scenario.axis_tiles) Geometry1D.seg_intersects
           Geometry1D.seg_intersection Scenario.overhanging_edges
           Scenario.evening Scenario.random_seed42 Scenario.no_predict Scenario.two_tiles
           None
           (map (λ dh : Z * Z,
                   {| Datetime.year := 2024; Datetime.month := 2; Datetime.day := dh.1;
                      Datetime.hour := dh.2; Datetime.minute := 0; Datetime.second := 0;
                      Datetime.microsecond := 0 |})
                [(28, 23); (29, 0); (29, 1); (29, 2)]%Z)
           (Scenario.store_of Scenario.one_edge) 1%positive Scenario.one_edge).
  - discriminate.
  - computed.
  - by vm_compute.
  - exact seed42_draws_in_range.
  - exact I.
  - reflexivity.
  - discriminate.
  - computed.
Defined.

(** ** The risk shown to the user *)

Section SummaryFacts.
Import Loops.

Lemma of_nat_succ (n : nat) :
  Num.of_Z (Z.of_nat (S n)) = 1 + Num.of_Z (Z.of_nat n).
Proof.
  unfold Num.of_Z. rewrite Nat2Z.inj_succ. qc2q. unfold inject_Z, Qeq, Qplus. cbn. lia.
Qed.

Lemma sum_at_most (l : list Qc) (m : Qc) :
  Forall (λ p, p <= m) l → Num.sum l <= Num.of_Z (Z.of_nat (List.length l)) * m.
Proof.
  induction 1 as [|p l Hp _ IH].
  - change (0 <= Num.of_Z 0 * m).
    assert (Num.of_Z 0 = 0) as -> by (by apply Qc_is_canon). by rewrite Qcmult_0_l.
  - cbn [List.length]. rewrite sum_cons, of_nat_succ.
    revert Hp IH. generalize (Num.sum l) (Num.of_Z (Z.of_nat (List.length l))).
    intros s n Hp IH. qc2q. lra.
Qed.

Lemma sum_at_least (l : list Qc) : Forall (λ p, 0 <= p) l → 0 <= Num.sum l.
Proof.
  induction 1 as [|p l Hp _ IH]; [done|]. rewrite sum_cons.
  revert Hp IH. generalize (Num.sum l). intros s Hp IH. qc2q. lra.
Qed.

Lemma of_nat_pos (n : nat) : (0 < n)%nat → 0 < Num.of_Z (Z.of_nat n).
Proof.
  intros Hn. unfold Num.of_Z. qc2q. unfold Qlt, inject_Z. cbn. lia.
Qed.

(** On exact numbers, the mean of a sequence that is not empty lies
    between 0 and any bound of its elements when none is negative. *)
Lemma mean_at_most (l : list Qc) (m : Qc) :
  l ≠ [] → Forall (λ p, 0 <= p) l → Forall (λ p, p <= m) l →
  0 <= Num.sum l / Num.of_Z (Z.of_nat (List.length l))
  ∧ Num.sum l / Num.of_Z (Z.of_nat (List.length l)) <= m.
Proof.
  intros Hne H0 Hm.
  assert (0 < Num.of_Z (Z.of_nat (List.length l))) as Hn.
  { apply of_nat_pos. destruct l; [done | cbn; lia]. }
  pose proof (sum_at_least l H0) as Hs0. pose proof (sum_at_most l m Hm) as Hsm.
  pose proof (Qcinv_pos _ Hn) as Hinv.
  assert (Num.of_Z (Z.of_nat (List.length l)) * / Num.of_Z (Z.of_nat (List.length l)) = 1)
    as Hone by (apply Qcmult_inv_r; by apply pos_nonzero).
  unfold Qcdiv. revert Hs0 Hsm Hinv Hone.
  generalize (Num.sum l) (Num.of_Z (Z.of_nat (List.length l)))
             (/ Num.of_Z (Z.of_nat (List.length l))).
  intros s n i Hs0 Hsm Hinv Hone. clear -Hs0 Hsm Hinv Hone.
  assert (s * i <= n * m * i) as Hle.
  { apply Qcmult_le_mono_nonneg_r; [by apply Qclt_le_weak | done]. }
  replace (n * m * i) with (m * (n * i)) in Hle by ring. rewrite Hone in Hle.
  replace (m * 1) with m in Hle by ring. split; [|done].
  clear Hle Hsm Hone. qc2q. nra.
Qed.

End SummaryFacts.

(** X28: the "Predicting crime risk" step of the app.  With a horizon
    within the calendar and a model without [predict], or one that predicts
    probabilities in [0, 1], the RiskMap is produced; if the merge of the
    risks into the grid raises, the step raises the same.  Otherwise a grid
    with at least one tile gives an average and a maximum that both lie in
    [0, 1], the maximum being the risk of some tile and no tile having a
    higher risk, and a grid without tiles makes the step raise
    ZeroDivisionError, at the average of the empty RiskMap.  (That the
    average is at most the maximum is not stated: added up and divided on
    floating point, an average can exceed the maximum by a rounding error.) *)
Theorem X28_predict_risk_summary
    {frame : Type} (now : Datetime.datetime) (random_seed42 : nat → Qc)
    (tiles_with_risk_of : list string → Routing.TileRisks → Py.result frame)
    (model : CynetWrapper.Model) (tiles : list string)
    (departure_time : Datetime.datetime) (hours : list Datetime.datetime) :
  CynetWrapper.prediction_hours_of (Datetime.floor_to_hour departure_time) = Py.Ok hours →
  (∀ i, 0 <= random_seed42 i ∧ random_seed42 i < 1) →
  match CynetWrapper.predict model with
  | None => True
  | Some predict' =>
      ∃ predictions,
        predict' hours = Py.Ok predictions
        ∧ Forall (λ t, predictions !! t ≠ Some []) tiles
        ∧ map_Forall (λ _ probs, Forall (λ p, 0 <= p ∧ p <= 1) probs) predictions
  end →
  ∃ tile_risks,
    CynetWrapper.predict_next_4_hours now random_seed42 model tiles (Some departure_time)
    = Py.Ok tile_risks
    ∧ match tiles_with_risk_of tiles tile_risks with
      | Py.Raise e =>
          App.predict_risk now random_seed42 tiles_with_risk_of model tiles departure_time
          = Py.Raise e
      | Py.Ok tiles_with_risk =>
          (tiles = [] →
           App.predict_risk now random_seed42 tiles_with_risk_of model tiles departure_time
           = Py.Raise Py.ZeroDivisionError)
          ∧ (tiles ≠ [] →
             ∃ avg_risk max_risk,
               App.predict_risk now random_seed42 tiles_with_risk_of model tiles
                 departure_time
               = Py.Ok (tile_risks, tiles_with_risk, avg_risk, max_risk)
               ∧ (0 <= avg_risk ∧ avg_risk <= 1)
               ∧ (0 <= max_risk ∧ max_risk <= 1)
               ∧ (∃ t, t ∈ tiles ∧ tile_risks !! t = Some max_risk)
               ∧ ∀ t r, tile_risks !! t = Some r → r <= max_risk)
      end.
Proof.
  intros Hhours Hdraws Hmodel.
  destruct (aggregator_risk_map_ok now random_seed42 model tiles (Some departure_time)
              hours Hhours Hdraws Hmodel) as (tile_risks & Hrisks & Hok & Hdom).
  exists tile_risks. split; [done|].
  unfold App.predict_risk. rewrite Hrisks. cbn [mbind result_bind Py.bind].
  destruct (tiles_with_risk_of tiles tile_risks) as [tiles_with_risk|e];
    cbn [mbind result_bind Py.bind]; [|done].
  split.
  - intros ->. assert (tile_risks = ∅) as ->.
    { apply map_empty. intros t. apply eq_None_not_Some. intros Ht.
      apply Hdom in Ht. by apply elem_of_nil in Ht. }
    by rewrite map_to_list_empty.
  - intros Hne.
    assert (Forall (λ p, 0 <= p ∧ p <= 1) (map_to_list tile_risks).*2) as Hunit.
    { apply Forall_fmap, Forall_forall. intros [t r] Htr.
      apply elem_of_map_to_list in Htr. exact (Hok _ _ Htr). }
    assert ((map_to_list tile_risks).*2 ≠ []) as Hvalues.
    { destruct tiles as [|t tiles]; [done|].
      destruct (proj1 (Hdom t) ltac:(left)) as [r Hr].
      apply elem_of_map_to_list in Hr. intros Hnil.
      apply (fmap_nil_inv snd) in Hnil. rewrite Hnil in Hr. by apply elem_of_nil in Hr. }
    rewrite <- (length_fmap snd (map_to_list tile_risks)).
    rewrite div_nonzero.
    2:{ apply of_Z_nonzero. destruct ((map_to_list tile_risks).*2); [done | cbn; lia]. }
    cbn [mbind result_bind Py.bind].
    pose proof (max_of_spec (map_to_list tile_risks).*2) as Hmax.
    destruct (Loops.max_of _) as [m|e]; [|by destruct Hmax].
    destruct Hmax as (_ & Hin & Hall). cbn [mbind result_bind Py.bind].
    eexists _, _. split; [done|].
    split.
    { apply mean_at_most; [done | |].
      - eapply Forall_impl; [exact Hunit|]. by intros p [? ?].
      - eapply Forall_impl; [exact Hunit|]. by intros p [? ?]. }
    split; [exact (proj1 (Forall_forall _ _) Hunit m Hin)|]. split.
    + apply list_elem_of_fmap in Hin as ([t r] & -> & Htr).
      apply elem_of_map_to_list in Htr. exists t. split; [|done].
      apply Hdom. by eexists.
    + intros t r Hr. apply (proj1 (Forall_forall _ _) Hall).
      apply list_elem_of_fmap. exists (t, r). split; [done|].
      by apply elem_of_map_to_list.
Qed.

Lemma X28_predict_risk_summary_witness :
  ∃ tile_risks,
    CynetWrapper.predict_next_4_hours Scenario.evening Scenario.random_seed42
      Scenario.forecast Scenario.two_tiles (Some Scenario.evening) = Py.Ok tile_risks
    ∧ match Scenario.merged Scenario.two_tiles tile_risks with
      | Py.Raise e =>
          App.predict_risk Scenario.evening Scenario.random_seed42 Scenario.merged
            Scenario.forecast Scenario.two_tiles Scenario.evening
          = Py.Raise e
      | Py.Ok tiles_with_risk =>
          (Scenario.two_tiles = [] →
           App.predict_risk Scenario.evening Scenario.random_seed42 Scenario.merged
             Scenario.forecast Scenario.two_tiles Scenario.evening
           = Py.Raise Py.ZeroDivisionError)
          ∧ (Scenario.two_tiles ≠ [] →
             ∃ avg_risk max_risk,
               App.predict_risk Scenario.evening Scenario.random_seed42 Scenario.merged
                 Scenario.forecast Scenario.two_tiles Scenario.evening
               = Py.Ok (tile_risks, tiles_with_risk, avg_risk, max_risk)
               ∧ (0 <= avg_risk ∧ avg_risk <= 1)
               ∧ (0 <= max_risk ∧ max_risk <= 1)
               ∧ (∃ t, t ∈ Scenario.two_tiles ∧ tile_risks !! t = Some max_risk)
               ∧ ∀ t r, tile_risks !! t = Some r → r <= max_risk)
      end.
Proof.
  apply (X28_predict_risk_summary Scenario.evening Scenario.random_seed42 Scenario.merged
           Scenario.forecast Scenario.two_tiles Scenario.evening
           (map (λ dh : Z * Z,
                   {| Datetime.year := 2024; Datetime.month := 2; Datetime.day := dh.1;
                      Datetime.hour := dh.2; Datetime.minute := 0; Datetime.second := 0;
                      Datetime.microsecond := 0 |})
                [(28, 23); (29, 0); (29, 1); (29, 2)]%Z)).
  - by vm_compute.
  - exact seed42_draws_in_range.
  - exact forecast_in_unit.
Defined.

(** The scenario in the app: the two tiles with the risks 0.9 and 0 have
    the maximum 0.9 and an average of 0.45; no tile, no summary. *)
Example scenario_summary :
  (r ← App.predict_risk Scenario.evening Scenario.random_seed42 Scenario.merged
         Scenario.forecast Scenario.two_tiles Scenario.evening;
   Py.Ok (this r.1.2, this r.2)) = Py.Ok (9 # 20, 9 # 10)
  ∧ App.predict_risk Scenario.evening Scenario.random_seed42 Scenario.merged
      Scenario.forecast [] Scenario.evening = Py.Raise Py.ZeroDivisionError.
Proof. by vm_compute. Qed.

(** ** The fastest route and the RiskMap *)

Section FastRouteFacts.
Import Graph Routing.

Lemma weighted_view_length (m : TileEdgeMapping) (r : TileRisks) (g : MultiDiGraph) :
  weighted_view (Spec.weighted m r g) "length" = weighted_view g "length".
Proof.
  unfold weighted_view, Spec.weighted. cbn [edges]. rewrite map_map.
  apply map_ext. intros [id data]. rewrite weight_edge_spec.
  unfold get_attr. cbn [fst snd set_attr num]. by rewrite !lookup_insert_ne.
Qed.

Lemma nearest_nodes_of_nodes (g1 g2 : MultiDiGraph) :
  nodes g1 = nodes g2 → Osmnx.nearest_nodes g1 = Osmnx.nearest_nodes g2.
Proof. intros Hn. unfold Osmnx.nearest_nodes. by rewrite Hn. Qed.

End FastRouteFacts.

(** X29: the fastest route does not depend on the RiskMap.  When the
    nearest-node search looks at the nodes only, the route by length on a
    weighted network is the route by length on the network as it was,
    whatever overlay and RiskMap it was weighted with: the weighting writes
    risk and risk_weight and leaves the lengths and the nodes alone. *)
Theorem X29_fast_route_ignores_risk
    (nearest_nodes : Graph.MultiDiGraph → Qc → Qc → Graph.node)
    (search : list Graph.node → list (Graph.edge_id * Qc) → Graph.node → Graph.node
              → option (list Graph.node))
    (h : Graph.heap) (G : Graph.loc) (g : Graph.MultiDiGraph)
    (tile_edge_mapping : Routing.TileEdgeMapping) (tile_risks : Routing.TileRisks) :
  (∀ g1 g2, Graph.nodes g1 = Graph.nodes g2 → nearest_nodes g1 = nearest_nodes g2) →
  h !! G = Some g →
  ∃ g_risk,
    (Routing.apply_risk_weights h G tile_edge_mapping tile_risks).1 !! G = Some g_risk
    ∧ ∀ origin_point dest_point,
        Routing.find_safe_route nearest_nodes search g_risk origin_point dest_point "length"
        = Routing.find_safe_route nearest_nodes search g origin_point dest_point "length".
Proof.
  intros Hnear Hg. exists (Spec.weighted tile_edge_mapping tile_risks g). split.
  - rewrite (apply_risk_weights_weighted _ _ _ _ _ Hg). cbn [fst].
    by rewrite lookup_insert_eq.
  - intros origin_point dest_point. unfold Routing.find_safe_route, Routing.shortest_path.
    rewrite weighted_view_length.
    by rewrite (Hnear (Spec.weighted tile_edge_mapping tile_risks g) g).
Qed.

Lemma X29_fast_route_ignores_risk_witness :
  ∃ g_risk,
    (Routing.apply_risk_weights (Scenario.store_of Scenario.parallel_edges) 1%positive
       Scenario.one_edge_mapping Scenario.one_edge_risks).1 !! 1%positive = Some g_risk
    ∧ ∀ origin_point dest_point,
        Routing.find_safe_route Osmnx.nearest_nodes Osmnx.dijkstra g_risk
          origin_point dest_point "length"
        = Routing.find_safe_route Osmnx.nearest_nodes Osmnx.dijkstra Scenario.parallel_edges
            origin_point dest_point "length".
Proof.
  apply (X29_fast_route_ignores_risk Osmnx.nearest_nodes Osmnx.dijkstra
           (Scenario.store_of Scenario.parallel_edges) 1%positive Scenario.parallel_edges
           Scenario.one_edge_mapping Scenario.one_edge_risks).
  - exact nearest_nodes_of_nodes.
  - reflexivity.
Defined.

(** ** The filter on coordinates *)

Section CoordinateFacts.
Import Spatial.
Context {A : Type}.

Lemma valid_point_masks (bbox : BBox) (r : PointRow A) :
  Spec.valid_point bbox r ↔
    (ne_zero (lon r) && ne_zero (lat r) = true)
    ∧ (notna (lon r) && notna (lat r) = true)
    ∧ (ge (lat r) (lat_min bbox) && le (lat r) (lat_max bbox)
       && ge (lon r) (lon_min bbox) && le (lon r) (lon_max bbox) = true).
Proof.
  unfold Spec.valid_point. destruct (lon r) as [x|], (lat r) as [y|]; cbn;
    try (split; [by intros (? & ? & ? & ? & _) | by intros (_ & ? & _)]);
    try (split; [by intros (? & ? & ? & ? & _) | by intros (_ & _ & ?)]).
  unfold Num.eqb. rewrite !andb_true_iff, !negb_true_iff, !bool_decide_eq_false,
    !bool_decide_eq_true.
  split.
  - intros (x' & y' & [= <-] & [= <-] & ?). tauto.
  - intros ([? ?] & _ & [[[? ?] ?] ?]). by exists x, y.
Qed.

Lemma validate_coordinates_filter (df : list (PointRow A)) (bbox : option BBox) :
  ∀ r, r ∈ validate_coordinates df bbox
       ↔ r ∈ df ∧ Spec.valid_point (default DENVER_BBOX bbox) r.
Proof.
  intros r. unfold validate_coordinates. rewrite !list_elem_of_filter.
  rewrite valid_point_masks. tauto.
Qed.

Lemma filter_kept {B} (P : B → Prop) `{∀ x, Decision (P x)} (l : list B) :
  Forall P l → filter P l = l.
Proof.
  induction 1 as [|x l Hx _ IH]; [done|]. by rewrite filter_cons_True, IH.
Qed.

End CoordinateFacts.

(** X30: the filter on coordinates keeps exactly the rows with both
    coordinates present, neither of them 0, inside the box (the Denver box
    when none is given), in the order of the table; rows on the equator or
    on the meridian 0 go even when the box contains them.  Filtering again
    changes nothing, and a box with a minimum above its maximum keeps no
    row and raises nothing. *)
Theorem X30_validate_coordinates
    {A : Type} (df : list (Spatial.PointRow A)) (bbox : option Spatial.BBox) :
  let b := default Spatial.DENVER_BBOX bbox in
  (∀ r, r ∈ Spatial.validate_coordinates df bbox ↔ r ∈ df ∧ Spec.valid_point b r)
  ∧ Spatial.validate_coordinates df bbox `sublist_of` df
  ∧ Spatial.validate_coordinates (Spatial.validate_coordinates df bbox) bbox
    = Spatial.validate_coordinates df bbox
  ∧ (Spatial.lat_max b < Spatial.lat_min b ∨ Spatial.lon_max b < Spatial.lon_min b →
     Spatial.validate_coordinates df bbox = []).
Proof.
  intros b. split; [apply validate_coordinates_filter|]. split; [|split].
  - unfold Spatial.validate_coordinates.
    etrans; [apply sublist_filter|]. etrans; [apply sublist_filter|]. apply sublist_filter.
  - pose proof (validate_coordinates_filter df bbox) as Hin.
    assert (Forall (Spec.valid_point b) (Spatial.validate_coordinates df bbox)) as Hall.
    { apply Forall_forall. intros r Hr. by apply Hin in Hr as [_ ?]. }
    revert Hall. generalize (Spatial.validate_coordinates df bbox). intros l Hall.
    unfold Spatial.validate_coordinates. fold b.
    rewrite (filter_kept _ l);
      [|eapply Forall_impl; [exact Hall|]; intros r Hr; apply valid_point_masks in Hr; tauto].
    rewrite (filter_kept _ l);
      [|eapply Forall_impl; [exact Hall|]; intros r Hr; apply valid_point_masks in Hr; tauto].
    rewrite (filter_kept _ l);
      [|eapply Forall_impl; [exact Hall|]; intros r Hr; apply valid_point_masks in Hr; tauto].
    done.
  - intros Hinv. destruct (Spatial.validate_coordinates df bbox) as [|r l] eqn:Hv; [done|].
    assert (r ∈ Spatial.validate_coordinates df bbox) as Hr by (rewrite Hv; left).
    apply validate_coordinates_filter in Hr as [_ (x & y & _ & _ & _ & _ & H1 & H2 & H3 & H4)].
    fold b in H1, H2, H3, H4. exfalso.
    destruct Hinv as [Hlat | Hlon].
    + apply (Qclt_not_le _ _ Hlat). by eapply Qcle_trans.
    + apply (Qclt_not_le _ _ Hlon). by eapply Qcle_trans.
Qed.

(** The rows around the origin: of the four, only the one inside the box
    and off both axes is kept. *)
Example scenario_coordinates :
  Spatial.columns <$> Spatial.validate_coordinates Scenario.reports (Some Scenario.origin_bbox)
  = ["inside"].
Proof. by vm_compute. Qed.
